(** * Organization-scoped access control and data integrity of the CRM API

    A shallow embedding of the Express controllers of [apps/api/src/controllers]
    (customer, deal, pipeline, task, contact history) over an explicit model of
    the relational store they query.  Every controller method is a computation
    in a small state-and-exception monad: the state is the database, the
    exception is what the method throws, the value is the payload handed to
    [successResponse].  *)

From Stdlib Require Import ZArith QArith Qcanon String Ascii List Lia.
From stdpp Require Import base tactics option list sorting fin_maps gmap strings.

Local Open Scope string_scope.
Local Open Scope list_scope.
Local Open Scope Z_scope.

(** ** JavaScript values *)

(** A timestamp ([NOW()], [createdAt], ...) in milliseconds. *)
Abbreviation Timestamp := Z (only parsing).

(** Truthiness of a string: only the empty string is falsy. *)
Definition truthy (s : string) : bool :=
  match s with EmptyString => false | String _ _ => true end.

(** [x || null] for a possibly undefined or null string. *)
Definition orNull (x : option string) : option string :=
  match x with
  | Some s => if truthy s then Some s else None
  | None => None
  end.

(** [x || null] for a possibly undefined or null number: [0] is falsy. *)
Definition orNullZ (x : option Z) : option Z :=
  match x with
  | Some n => if Z.eqb n 0 then None else Some n
  | None => None
  end.

(** A body field that may be absent ([undefined]), [null], or a value:
    [None] is [undefined], [Some None] is [null]. *)
Abbreviation Nullable A := (option (option A)) (only parsing).

(** Flattening [undefined] and [null], as the operators [||] and [if (x)] do. *)
Definition nullish {A} (x : Nullable A) : option A :=
  match x with Some (Some a) => Some a | _ => None end.

(** [String.prototype.toLowerCase] on ASCII text. *)
Definition lowerAscii (c : ascii) : ascii :=
  let n := nat_of_ascii c in
  if (Nat.leb 65 n && Nat.leb n 90)%bool then ascii_of_nat (n + 32) else c.

Fixpoint toLowerCase (s : string) : string :=
  match s with
  | EmptyString => EmptyString
  | String c r => String (lowerAscii c) (toLowerCase r)
  end.

(** A number of a request body.  Every finite double is a rational, and the
    controllers only compare such a number and hand it to the database, so it
    is carried as the rational it is. *)
Abbreviation Number := Qc (only parsing).

(** ** Errors ([shared/errors/AppError.ts]) *)

Record AppError := mkAppError {
  statusCode : Z;
  message : string;
  code : string;
}.

(** [new ValidationError(message)] *)
Definition ValidationError (msg : string) : AppError :=
  mkAppError 400 msg "VALIDATION_ERROR".

(** [new NotFoundError(resource)]: the message is the resource followed by
    [" not found"]; no identifier is ever passed by the controllers. *)
Definition NotFoundError (resource : string) : AppError :=
  mkAppError 404 (String.append resource " not found") "NOT_FOUND".

(** What a controller method can throw: an [AppError], or any other error
    (raised by the database driver or by the JavaScript runtime), which the
    error handler reports as [INTERNAL_ERROR]. *)
Inductive Exn :=
  | App (e : AppError)
  | OtherError (reason : string).

(** ** Rows of the relational schema (the schema script of the database)

    The primary key [id] of every table is the key of the finite map that
    holds the table; a row paired with its key is what a statement returns. *)

Record Organization := mkOrganization {
  org_name : string;
}.

Record User := mkUser {
  user_email : string;
  user_firstName : string;
  user_lastName : string;
  user_organizationId : string;
}.

Record Customer := mkCustomer {
  customer_firstName : string;
  customer_lastName : string;
  customer_email : string;
  customer_phone : string;
  customer_company : option string;
  customer_tags : list string;
  customer_customFields : option string;
  customer_organizationId : string;
  customer_createdBy : string;
  customer_createdAt : Timestamp;
  customer_updatedAt : Timestamp;
  customer_deletedAt : option Timestamp;
}.

Record Stage := mkStage {
  stage_id : string;
  stage_name : string;
  stage_order : Z;
  stage_probability : Z;
}.

Record Pipeline := mkPipeline {
  pipeline_name : string;
  pipeline_stages : list Stage;
  pipeline_isDefault : bool;
  pipeline_createdAt : Timestamp;
  pipeline_updatedAt : Timestamp;
  pipeline_createdBy : string;
  pipeline_organizationId : string;
}.

Record Deal := mkDeal {
  deal_customerId : string;
  deal_pipelineId : string;
  deal_stageId : string;
  deal_title : string;
  deal_value : Z;
  deal_currency : string;
  deal_expectedCloseDate : option string;
  deal_actualCloseDate : option string;
  deal_probability : Z;
  deal_notes : option string;
  deal_products : string;
  deal_ownerId : string;
  deal_createdAt : Timestamp;
  deal_updatedAt : Timestamp;
}.

Inductive TaskPriority := LOW | MEDIUM | HIGH.
Inductive TaskStatus := PENDING | IN_PROGRESS | COMPLETE.

Record Task := mkTask {
  task_title : string;
  task_description : option string;
  task_priority : TaskPriority;
  task_status : TaskStatus;
  task_dueDate : option string;
  task_assigneeId : string;
  task_relatedCustomerId : option string;
  task_relatedDealId : option string;
  task_isRecurring : bool;
  task_recurrenceRule : option string;
  task_timeSpent : option Z;
  task_completedAt : option Timestamp;
  task_createdAt : Timestamp;
  task_updatedAt : Timestamp;
}.

Inductive ContactType := CALL | EMAIL | MEETING | NOTE.

Record ContactHistory := mkContactHistory {
  contact_customerId : string;
  contact_type : ContactType;
  contact_subject : option string;
  contact_body : string;
  contact_duration : option Z;
  contact_attachments : list string;
  contact_aiSummary : option string;
  contact_createdAt : Timestamp;
  contact_createdBy : string;
}.

#[global] Instance TaskStatus_eq_dec : EqDecision TaskStatus.
Proof. solve_decision. Defined.
#[global] Instance TaskPriority_eq_dec : EqDecision TaskPriority.
Proof. solve_decision. Defined.
#[global] Instance ContactType_eq_dec : EqDecision ContactType.
Proof. solve_decision. Defined.

(** ** The database *)

Record Db := mkDb {
  organizations : gmap string Organization;
  users : gmap string User;
  customers : gmap string Customer;
  contact_history : gmap string ContactHistory;
  pipelines : gmap string Pipeline;
  deals : gmap string Deal;
  tasks : gmap string Task;
}.

Definition set_customers (f : gmap string Customer → gmap string Customer) (db : Db) : Db :=
  mkDb (organizations db) (users db) (f (customers db)) (contact_history db)
       (pipelines db) (deals db) (tasks db).

Definition set_contact_history
    (f : gmap string ContactHistory → gmap string ContactHistory) (db : Db) : Db :=
  mkDb (organizations db) (users db) (customers db) (f (contact_history db))
       (pipelines db) (deals db) (tasks db).

Definition set_deals (f : gmap string Deal → gmap string Deal) (db : Db) : Db :=
  mkDb (organizations db) (users db) (customers db) (contact_history db)
       (pipelines db) (f (deals db)) (tasks db).

Definition set_tasks (f : gmap string Task → gmap string Task) (db : Db) : Db :=
  mkDb (organizations db) (users db) (customers db) (contact_history db)
       (pipelines db) (deals db) (f (tasks db)).

(** ** The controller monad: database state and thrown exceptions *)

Inductive Result (A : Type) :=
  | Ok (a : A)
  | Err (e : Exn).
Arguments Ok {A} a.
Arguments Err {A} e.

Definition M (A : Type) : Type := Db → Result A * Db.

#[global] Instance M_ret : MRet M := λ A a db, (Ok a, db).

#[global] Instance M_bind : MBind M := λ A B k m db,
  match m db with
  | (Ok a, db') => k a db'
  | (Err e, db') => (Err e, db')
  end.

Definition throw {A} (e : AppError) : M A := λ db, (Err (App e), db).

(** A failure of the runtime itself, such as reading a property of
    [undefined]. *)
Definition raise {A} (reason : string) : M A := λ db, (Err (OtherError reason), db).

(** [query(text, params)] for a [SELECT]: the rows, the database untouched.
    The rows are what the driver hands over: each statement below applies
    the registered parser to the [TEXT[]] columns it selects. *)
Definition query {A} (select : Db → list A) : M (list A) :=
  λ db, (Ok (select db), db).

(** [queryOne(text, params)]: [rows[0] || null]. *)
Definition queryOne {A} (select : Db → list A) : M (option A) :=
  rows ← query select; mret (head rows).

(** [query(text, params)] for a data-modifying statement with [RETURNING]:
    either the driver raises and nothing is changed, or the statement is
    applied and its returned rows are the result. *)
Definition execute {A} (stmt : Db → Exn + (Db * list A)) : M (list A) :=
  λ db, match stmt db with
        | inl e => (Err e, db)
        | inr (db', rows) => (Ok rows, db')
        end.

(** [if (c) throw e] *)
Definition throwIf (c : bool) (e : AppError) : M unit :=
  if c then throw e else mret tt.

(** ** The database driver and the column types ([config/database.ts] and
    the schema script) *)

Module Database.

(** *** The result parser for [TEXT[]] columns *)

(** [String.prototype.split(sep)] for a one-character separator. *)
Fixpoint split (sep : ascii) (s : string) : list string :=
  match s with
  | EmptyString => [EmptyString]
  | String c r =>
      if Ascii.eqb c sep then EmptyString :: split sep r
      else match split sep r with
           | h :: t => String c h :: t
           | [] => [String c EmptyString]
           end
  end.

(** The text without its last character. *)
Fixpoint dropLast (s : string) : string :=
  match s with
  | EmptyString => EmptyString
  | String c EmptyString => EmptyString
  | String c r => String c (dropLast r)
  end.

(** [val.slice(1, -1)] *)
Definition slice_1_minus1 (val : string) : string :=
  match val with
  | EmptyString => EmptyString
  | String _ r => dropLast r
  end.

(** The parser registered for type 1009: the array text between its braces,
    cut at the commas, without the empty pieces. *)
Definition parseTextArray (val : string) : list string :=
  if negb (truthy val) then []
  else if String.eqb val "{}" then []
  else filter (λ piece, truthy piece = true) (split ","%char (slice_1_minus1 val)).

(** *** The text the server sends for a [TEXT[]] value

    The elements between braces with commas between them.  An element is put
    between double quotes, with a backslash before every double quote and
    every backslash in it, when it is empty, when it reads as [NULL] in any
    case, or when it holds a brace, a comma, a double quote, a backslash or
    white space. *)

Definition doubleQuote : ascii := "034"%char.
Definition backslash : ascii := "092"%char.

Definition isArraySpace (c : ascii) : bool :=
  let n := nat_of_ascii c in
  (Nat.eqb n 32 || (Nat.leb 9 n && Nat.leb n 13))%bool.

Definition forcesQuotes (c : ascii) : bool :=
  isArraySpace c || Ascii.eqb c "{" || Ascii.eqb c "}" || Ascii.eqb c ","
  || Ascii.eqb c doubleQuote || Ascii.eqb c backslash.

Fixpoint anyChar (test : ascii → bool) (s : string) : bool :=
  match s with
  | EmptyString => false
  | String c r => test c || anyChar test r
  end.

Definition quoted (element : string) : bool :=
  negb (truthy element) || String.eqb (toLowerCase element) "null"
  || anyChar forcesQuotes element.

Fixpoint escaped (s : string) : string :=
  match s with
  | EmptyString => EmptyString
  | String c r =>
      if Ascii.eqb c doubleQuote || Ascii.eqb c backslash
      then String backslash (String c (escaped r))
      else String c (escaped r)
  end.

Definition elementOut (element : string) : string :=
  if quoted element
  then String doubleQuote (String.append (escaped element) (String doubleQuote EmptyString))
  else element.

Definition arrayOut (elements : list string) : string :=
  String "{"%char (String.append (String.concat "," (elementOut <$> elements)) "}").

(** A stored [TEXT[]] value as the rows of a result carry it: the text the
    server sends for it, through the registered parser. *)
Definition readTextArray (stored : list string) : list string :=
  parseTextArray (arrayOut stored).

(** *** Column types

    A value bound to a column is read by the server as a value of the
    column's type; the statement is refused when it cannot be. *)

(** The characters after the first [n]. *)
Fixpoint excess (n : nat) (s : string) : string :=
  match n, s with
  | S m, String _ r => excess m r
  | _, _ => s
  end.

Fixpoint blank (s : string) : bool :=
  match s with
  | EmptyString => true
  | String c r => Ascii.eqb c " " && blank r
  end.

(** [VARCHAR(n)]: a text of more than [n] characters is refused, unless the
    characters after the first [n] are all spaces. *)
Definition varcharFits (n : nat) (s : string) : bool := blank (excess n s).

(** [VARCHAR(n)]: what is stored of a text that fits, its first [n]
    characters. *)
Definition varchar (n : nat) (s : string) : string := substring 0 n s.

(** [INTEGER]: four bytes. *)
Definition integerFits (z : Z) : bool := (-2147483648 <=? z) && (z <=? 2147483647).

(** The integer a number is, when it is whole: the text of a number that is
    not whole is no integer to the server. *)
Definition wholeNumber (v : Number) : option Z :=
  if Pos.eqb (Qden v) 1 then Some (Qnum v) else None.

(** [DECIMAL(15,2)]: at most thirteen digits before the decimal point. *)
Definition decimalFits (z : Z) : bool := Z.abs z <? 10000000000000.

(** The refusals, as the reasons of the errors the driver raises. *)
Definition tooLong (n : nat) (s : string) : option string :=
  if varcharFits n s then None else Some "value too long for type character varying".

Definition notInteger (z : Z) : option string :=
  if integerFits z then None else Some "value is out of range for type integer".

Definition notIntegerNumber (v : Number) : option string :=
  match wholeNumber v with
  | Some z => notInteger z
  | None => Some "invalid input syntax for type integer"
  end.

Definition notDecimal (z : Z) : option string :=
  if decimalFits z then None else Some "numeric field overflow".

(** The first refusal of a list of checks, in the order the values are
    bound and the columns are written. *)
Definition firstRefusal (checks : list (option string)) : option string :=
  head (omap id checks).

End Database.

(** ** Tenant resolution: the statement every method starts with *)

(** [SELECT "organizationId" FROM users WHERE id = $1] *)
Definition select_user_organization (userId : string) (db : Db) : list string :=
  match users db !! userId with
  | Some u => [user_organizationId u]
  | None => []
  end.

(** The first lines of every controller method. *)
Definition resolveOrganization (userId : string) : M string :=
  userRow ← queryOne (select_user_organization userId);
  match userRow with
  | None => throw (NotFoundError "User not found")
  | Some organizationId => mret organizationId
  end.

(** ** Ordering of result sets

    [ORDER BY key DESC] and [ORDER BY key ASC] are a merge sort of the rows in
    the order the table scan (the enumeration of the finite map) produces
    them.  The listing of the contact history, whose pages are separate
    executions of one statement, has an ordering of its own below, in which
    the order of rows with equal keys is a parameter of the execution. *)

Definition descBy {A} (key : A → Z) : relation A := λ a b, key b ≤ key a.
Definition ascBy {A} (key : A → Z) : relation A := λ a b, key a ≤ key b.

#[global] Instance descBy_dec {A} (key : A → Z) a b : Decision (descBy key a b).
Proof. unfold descBy. apply _. Defined.
#[global] Instance ascBy_dec {A} (key : A → Z) a b : Decision (ascBy key a b).
Proof. unfold ascBy. apply _. Defined.

Definition orderByDesc {A} (key : A → Z) (rows : list A) : list A :=
  merge_sort (descBy key) rows.
Definition orderByAsc {A} (key : A → Z) (rows : list A) : list A :=
  merge_sort (ascBy key) rows.

(** [LIMIT n OFFSET k] on an ordered result set. *)
Definition limitOffset {A} (limit offset : nat) (rows : list A) : list A :=
  take limit (drop offset rows).

(** ** Customer controller ([controllers/customer.controller.ts]) *)

Module CustomerController.

(** The customer is a row of the organization and is not soft-deleted:
    [WHERE "organizationId" = $org AND "deletedAt" IS NULL]. *)
Definition visibleIn (organizationId : string) (c : Customer) : Prop :=
  customer_organizationId c = organizationId ∧ customer_deletedAt c = None.

#[global] Instance visibleIn_dec o c : Decision (visibleIn o c).
Proof. unfold visibleIn. apply _. Defined.

(** A row of [customers] as a result carries it: [tags] is a [TEXT[]]
    column. *)
Definition parsed (c : Customer) : Customer :=
  mkCustomer (customer_firstName c) (customer_lastName c) (customer_email c)
    (customer_phone c) (customer_company c) (Database.readTextArray (customer_tags c))
    (customer_customFields c) (customer_organizationId c) (customer_createdBy c)
    (customer_createdAt c) (customer_updatedAt c) (customer_deletedAt c).

Definition received (r : string * Customer) : string * Customer := (r.1, parsed r.2).

(** [SELECT ... FROM customers WHERE "organizationId" = $1
    AND "deletedAt" IS NULL ORDER BY "createdAt" DESC] *)
Definition select_all (organizationId : string) (db : Db) : list (string * Customer) :=
  received <$>
    orderByDesc (λ r, customer_createdAt r.2)
      (filter (λ r, visibleIn organizationId r.2) (map_to_list (customers db))).

(** [SELECT ... FROM customers WHERE id = $1 AND "organizationId" = $2
    AND "deletedAt" IS NULL] *)
Definition select_by_id (id organizationId : string) (db : Db)
    : list (string * Customer) :=
  match customers db !! id with
  | Some c => if decide (visibleIn organizationId c) then [(id, parsed c)] else []
  | None => []
  end.

(** [SELECT ... FROM customers WHERE id = $1] *)
Definition select_unscoped (id : string) (db : Db) : list (string * Customer) :=
  match customers db !! id with
  | Some c => [(id, parsed c)]
  | None => []
  end.

(** [SELECT id FROM customers WHERE email = $1 AND "organizationId" = $2
    AND id != $3 AND "deletedAt" IS NULL] *)
Definition select_email_taken (email organizationId id : string) (db : Db)
    : list string :=
  fst <$> filter (λ r, customer_email r.2 = email ∧ visibleIn organizationId r.2 ∧ r.1 ≠ id)
                 (map_to_list (customers db)).

Definition getAll (userId : string) : M (list (string * Customer)) :=
  organizationId ← resolveOrganization userId;
  query (select_all organizationId).

Definition getById (userId id : string) : M (string * Customer) :=
  organizationId ← resolveOrganization userId;
  customer ← queryOne (select_by_id id organizationId);
  match customer with
  | None => throw (NotFoundError "Customer not found")
  | Some c => mret c
  end.

(** The body of [PUT /customers/:id] ([updateCustomerSchema]). *)
Record UpdateBody := mkUpdateBody {
  firstName : option string;
  lastName : option string;
  email : option string;
  phone : option string;
  company : Nullable string;
  tags : option (list string);
  customFields : Nullable string;
}.

(** One entry of the [updates] array, with the value pushed for it. *)
Inductive Assignment :=
  | SetFirstName (v : string)
  | SetLastName (v : string)
  | SetEmail (v : string)
  | SetPhone (v : string)
  | SetCompany (v : option string)
  | SetTags (v : list string)
  | SetCustomFields (v : option string)
  | SetUpdatedAtNow.

(** [if (x !== undefined) { updates.push(...); values.push(f x) }] *)
Definition pushIf {A B} (x : option A) (f : A → B) : list B :=
  match x with Some a => [f a] | None => [] end.

Definition buildUpdates (body : UpdateBody) : list Assignment :=
  pushIf (firstName body) SetFirstName
  ++ pushIf (lastName body) SetLastName
  ++ pushIf (email body) (λ e, SetEmail (toLowerCase e))
  ++ pushIf (phone body) SetPhone
  ++ pushIf (company body) (λ c, SetCompany (orNull c))
  ++ pushIf (tags body) SetTags
  ++ pushIf (customFields body) SetCustomFields.

(** The refusal of the column the entry writes, if any. *)
Definition refusal (a : Assignment) : option string :=
  match a with
  | SetFirstName v => Database.tooLong 100 v
  | SetLastName v => Database.tooLong 100 v
  | SetEmail v => Database.tooLong 255 v
  | SetPhone v => Database.tooLong 20 v
  | SetCompany v => v ≫= Database.tooLong 200
  | SetTags _ | SetCustomFields _ | SetUpdatedAtNow => None
  end.

(** The row after the entry is applied, for a value its column takes. *)
Definition assign (now : Timestamp) (c : Customer) (a : Assignment) : Customer :=
  match a with
  | SetFirstName v =>
      mkCustomer (Database.varchar 100 v) (customer_lastName c) (customer_email c)
        (customer_phone c)
        (customer_company c) (customer_tags c) (customer_customFields c)
        (customer_organizationId c) (customer_createdBy c) (customer_createdAt c)
        (customer_updatedAt c) (customer_deletedAt c)
  | SetLastName v =>
      mkCustomer (customer_firstName c) (Database.varchar 100 v) (customer_email c)
        (customer_phone c)
        (customer_company c) (customer_tags c) (customer_customFields c)
        (customer_organizationId c) (customer_createdBy c) (customer_createdAt c)
        (customer_updatedAt c) (customer_deletedAt c)
  | SetEmail v =>
      mkCustomer (customer_firstName c) (customer_lastName c) (Database.varchar 255 v)
        (customer_phone c)
        (customer_company c) (customer_tags c) (customer_customFields c)
        (customer_organizationId c) (customer_createdBy c) (customer_createdAt c)
        (customer_updatedAt c) (customer_deletedAt c)
  | SetPhone v =>
      mkCustomer (customer_firstName c) (customer_lastName c) (customer_email c)
        (Database.varchar 20 v)
        (customer_company c) (customer_tags c) (customer_customFields c)
        (customer_organizationId c) (customer_createdBy c) (customer_createdAt c)
        (customer_updatedAt c) (customer_deletedAt c)
  | SetCompany v =>
      mkCustomer (customer_firstName c) (customer_lastName c) (customer_email c)
        (customer_phone c) (Database.varchar 200 <$> v) (customer_tags c)
        (customer_customFields c)
        (customer_organizationId c) (customer_createdBy c) (customer_createdAt c)
        (customer_updatedAt c) (customer_deletedAt c)
  | SetTags v =>
      mkCustomer (customer_firstName c) (customer_lastName c) (customer_email c)
        (customer_phone c) (customer_company c) v (customer_customFields c)
        (customer_organizationId c) (customer_createdBy c) (customer_createdAt c)
        (customer_updatedAt c) (customer_deletedAt c)
  | SetCustomFields v =>
      mkCustomer (customer_firstName c) (customer_lastName c) (customer_email c)
        (customer_phone c) (customer_company c) (customer_tags c) v
        (customer_organizationId c) (customer_createdBy c) (customer_createdAt c)
        (customer_updatedAt c) (customer_deletedAt c)
  | SetUpdatedAtNow =>
      mkCustomer (customer_firstName c) (customer_lastName c) (customer_email c)
        (customer_phone c) (customer_company c) (customer_tags c)
        (customer_customFields c) (customer_organizationId c) (customer_createdBy c)
        (customer_createdAt c) now (customer_deletedAt c)
  end.

(** The unique indexes [customers_email_key] and [customers_phone_key]:
    the new version of row [id] may not take the email or the phone of
    another row of the table. *)
Definition violatesUnique (id : string) (old new : Customer) (db : Db) : bool :=
  bool_decide (Exists (λ r : string * Customer, r.1 ≠ id ∧
      ((customer_email new ≠ customer_email old ∧ customer_email r.2 = customer_email new)
       ∨ (customer_phone new ≠ customer_phone old ∧ customer_phone r.2 = customer_phone new)))
    (map_to_list (customers db))).

(** [UPDATE customers SET <updates> WHERE id = $n AND "organizationId" = $m
    AND "deletedAt" IS NULL RETURNING ...]: the new values are fitted to
    their columns when the row is written, then the unique indexes are
    consulted. *)
Definition update_stmt (now : Timestamp) (updates : list Assignment)
    (id organizationId : string) (db : Db)
    : Exn + (Db * list (string * Customer)) :=
  match customers db !! id with
  | Some c =>
      if decide (visibleIn organizationId c) then
        match Database.firstRefusal (refusal <$> updates) with
        | Some reason => inl (OtherError reason)
        | None =>
            let c' := foldl (assign now) c updates in
            if violatesUnique id c c' db
            then inl (OtherError "duplicate key value violates unique constraint")
            else inr (set_customers (insert id c') db, [(id, parsed c')])
        end
      else inr (db, [])
  | None => inr (db, [])
  end.

Definition update (now : Timestamp) (userId id : string) (body : UpdateBody)
    : M (option (string * Customer)) :=
  organizationId ← resolveOrganization userId;
  existing ← queryOne (select_by_id id organizationId);
  match existing with
  | None => throw (NotFoundError "Customer not found")
  | Some existing =>
      (match email body with
       | Some e =>
           if truthy e && negb (String.eqb (toLowerCase e) (customer_email existing.2))
           then
             emailExists ← queryOne (select_email_taken (toLowerCase e) organizationId id);
             throwIf (bool_decide (is_Some emailExists))
                     (ValidationError "Customer with this email already exists")
           else mret tt
       | None => mret tt
       end);;
      let updates := buildUpdates body in
      if decide (length updates = 0%nat) then
        customer ← queryOne (select_unscoped id);
        mret customer
      else
        result ← execute (update_stmt now (updates ++ [SetUpdatedAtNow]) id organizationId);
        match result with
        | [] => throw (NotFoundError "Customer not found")
        | r :: _ => mret (Some r)
        end
  end.

(** [SET "deletedAt" = NOW(), "updatedAt" = NOW()] on one row. *)
Definition softDeleted (now : Timestamp) (c : Customer) : Customer :=
  mkCustomer (customer_firstName c) (customer_lastName c) (customer_email c)
    (customer_phone c) (customer_company c) (customer_tags c)
    (customer_customFields c) (customer_organizationId c)
    (customer_createdBy c) (customer_createdAt c) now (Some now).

(** [UPDATE customers SET "deletedAt" = NOW(), "updatedAt" = NOW()
    WHERE id = $1 AND "organizationId" = $2 AND "deletedAt" IS NULL
    RETURNING id] *)
Definition soft_delete_stmt (now : Timestamp) (id organizationId : string) (db : Db)
    : Exn + (Db * list string) :=
  match customers db !! id with
  | Some c =>
      if decide (visibleIn organizationId c)
      then inr (set_customers (insert id (softDeleted now c)) db, [id])
      else inr (db, [])
  | None => inr (db, [])
  end.

Definition delete (now : Timestamp) (userId id : string) : M string :=
  organizationId ← resolveOrganization userId;
  result ← execute (soft_delete_stmt now id organizationId);
  match result with
  | [] => throw (NotFoundError "Customer not found")
  | _ :: _ => mret "Customer deleted successfully"
  end.

(** The body of [POST /customers] ([createCustomerSchema]). *)
Record CreateBody := mkCreateBody {
  c_firstName : string;
  c_lastName : string;
  c_email : string;
  c_phone : string;
  c_company : Nullable string;
  c_tags : option (list string);
  c_customFields : Nullable string;
}.

(** [SELECT id FROM customers WHERE email = $1 AND "organizationId" = $2
    AND "deletedAt" IS NULL] *)
Definition select_by_email (email organizationId : string) (db : Db) : list string :=
  fst <$> filter (λ r, customer_email r.2 = email ∧ visibleIn organizationId r.2)
                 (map_to_list (customers db)).

(** The refusal of the first bound value its column does not take, if any. *)
Definition refused (body : CreateBody) : option string :=
  Database.firstRefusal
    [ Database.tooLong 100 (c_firstName body);
      Database.tooLong 100 (c_lastName body);
      Database.tooLong 255 (toLowerCase (c_email body));
      Database.tooLong 20 (c_phone body);
      orNull (nullish (c_company body)) ≫= Database.tooLong 200 ].

(** The row the [INSERT] forms from the bound values, each as its column
    stores it; [deletedAt] is not in the column list and stays [NULL]. *)
Definition newCustomer (now : Timestamp) (userId organizationId : string)
    (body : CreateBody) : Customer :=
  mkCustomer (Database.varchar 100 (c_firstName body))
    (Database.varchar 100 (c_lastName body))
    (Database.varchar 255 (toLowerCase (c_email body)))
    (Database.varchar 20 (c_phone body))
    (Database.varchar 200 <$> orNull (nullish (c_company body)))
    (default [] (c_tags body))
    (nullish (c_customFields body)) organizationId userId now now None.

(** The unique indexes [customers_email_key] and [customers_phone_key] on an
    insert: no row of the table, of any organization and deleted or not, may
    hold the email or the phone of the new row. *)
Definition emailOrPhoneTaken (new : Customer) (db : Db) : bool :=
  bool_decide (Exists (λ r : string * Customer,
      customer_email r.2 = customer_email new ∨ customer_phone r.2 = customer_phone new)
    (map_to_list (customers db))).

(** [INSERT INTO customers (...) VALUES (gen_random_uuid(), ...) RETURNING ...]:
    [refusal] is the refusal of a bound value by its column and [c] the row
    formed otherwise; then come the primary key, the two unique indexes and
    the foreign keys [customers_organizationId_fkey] and
    [customers_createdBy_fkey]. *)
Definition insert_stmt (newId : string) (refusal : option string) (c : Customer)
    (db : Db) : Exn + (Db * list (string * Customer)) :=
  match refusal with
  | Some reason => inl (OtherError reason)
  | None =>
      match customers db !! newId with
      | Some _ => inl (OtherError "duplicate key value violates unique constraint")
      | None =>
          if emailOrPhoneTaken c db
          then inl (OtherError "duplicate key value violates unique constraint")
          else if bool_decide (is_Some (organizations db !! customer_organizationId c))
                  && bool_decide (is_Some (users db !! customer_createdBy c))
          then inr (set_customers (insert newId c) db, [(newId, parsed c)])
          else inl (OtherError "insert or update violates foreign key constraint")
      end
  end.

Definition create (now : Timestamp) (newId : string) (userId : string)
    (body : CreateBody) : M (option (string * Customer)) :=
  organizationId ← resolveOrganization userId;
  existing ← queryOne (select_by_email (toLowerCase (c_email body)) organizationId);
  match existing with
  | Some _ => throw (ValidationError "Customer with this email already exists")
  | None =>
      result ← execute (insert_stmt newId (refused body)
                          (newCustomer now userId organizationId body));
      mret (head result)
  end.

End CustomerController.

(** ** Pipeline controller ([controllers/pipeline.controller.ts]) *)

Module PipelineController.

(** [SELECT ... FROM pipelines WHERE id = $1 AND "organizationId" = $2] *)
Definition select_by_id (id organizationId : string) (db : Db)
    : list (string * Pipeline) :=
  match pipelines db !! id with
  | Some p => if decide (pipeline_organizationId p = organizationId) then [(id, p)] else []
  | None => []
  end.

(** [SELECT ... FROM pipelines WHERE "organizationId" = $1
    AND "isDefault" = true LIMIT 1]: no ordering is requested, the first row
    of the scan is returned. *)
Definition select_default (organizationId : string) (db : Db)
    : list (string * Pipeline) :=
  limitOffset 1 0
    (filter (λ r, pipeline_organizationId r.2 = organizationId
                  ∧ pipeline_isDefault r.2 = true)
            (map_to_list (pipelines db))).

(** [SELECT ... FROM pipelines WHERE "organizationId" = $1
    ORDER BY "createdAt" ASC LIMIT 1] *)
Definition select_first (organizationId : string) (db : Db)
    : list (string * Pipeline) :=
  limitOffset 1 0
    (orderByAsc (λ r, pipeline_createdAt r.2)
       (filter (λ r, pipeline_organizationId r.2 = organizationId)
               (map_to_list (pipelines db)))).

Definition getById (userId id : string) : M (string * Pipeline) :=
  organizationId ← resolveOrganization userId;
  pipeline ← queryOne (select_by_id id organizationId);
  match pipeline with
  | None => throw (NotFoundError "Pipeline not found")
  | Some p => mret p
  end.

Definition getDefault (userId : string) : M (string * Pipeline) :=
  organizationId ← resolveOrganization userId;
  pipeline ← queryOne (select_default organizationId);
  match pipeline with
  | None =>
      firstPipeline ← queryOne (select_first organizationId);
      match firstPipeline with
      | None => throw (NotFoundError "No pipeline found for this organization")
      | Some p => mret p
      end
  | Some p => mret p
  end.

(** [ORDER BY "isDefault" DESC, "createdAt" ASC]: a default pipeline comes
    before a non-default one, and within each group the older one first. *)
Definition defaultFirst : relation (string * Pipeline) := λ a b,
  (pipeline_isDefault a.2 = true ∧ pipeline_isDefault b.2 = false)
  ∨ (pipeline_isDefault a.2 = pipeline_isDefault b.2
     ∧ pipeline_createdAt a.2 ≤ pipeline_createdAt b.2).

#[global] Instance defaultFirst_dec a b : Decision (defaultFirst a b).
Proof. unfold defaultFirst. apply _. Defined.

(** [SELECT ... FROM pipelines WHERE "organizationId" = $1
    ORDER BY "isDefault" DESC, "createdAt" ASC] *)
Definition select_all (organizationId : string) (db : Db) : list (string * Pipeline) :=
  merge_sort defaultFirst
    (filter (λ r, pipeline_organizationId r.2 = organizationId)
            (map_to_list (pipelines db))).

Definition getAll (userId : string) : M (list (string * Pipeline)) :=
  organizationId ← resolveOrganization userId;
  query (select_all organizationId).

End PipelineController.

(** ** Deal controller ([controllers/deal.controller.ts]) *)

Module DealController.

(** A deal row joined with its customer, owner and pipeline. *)
Record DealWithRelations := mkDealWithRelations {
  id : string;
  deal : Deal;
  customerFirstName : string;
  customerLastName : string;
  customerEmail : string;
  ownerFirstName : string;
  ownerLastName : string;
  pipelineName : string;
}.

Definition withRelations (dealId : string) (d : Deal) (c : Customer) (u : User)
    (p : Pipeline) : DealWithRelations :=
  mkDealWithRelations dealId d (customer_firstName c) (customer_lastName c)
    (customer_email c) (user_firstName u) (user_lastName u) (pipeline_name p).

(** [SELECT ... FROM deals d INNER JOIN customers c ON d."customerId" = c.id
    INNER JOIN users u ON d."ownerId" = u.id
    INNER JOIN pipelines p ON d."pipelineId" = p.id
    INNER JOIN organizations o ON c."organizationId" = o.id
    WHERE d.id = $1 AND o.id = $2 AND c."deletedAt" IS NULL] *)
Definition select_by_id (dealId organizationId : string) (db : Db)
    : list DealWithRelations :=
  option_list (
    d ← deals db !! dealId;
    c ← customers db !! deal_customerId d;
    u ← users db !! deal_ownerId d;
    p ← pipelines db !! deal_pipelineId d;
    _ ← organizations db !! customer_organizationId c;
    if decide (customer_organizationId c = organizationId ∧ customer_deletedAt c = None)
    then Some (withRelations dealId d c u p) else None).

(** [SELECT ... FROM deals d INNER JOIN customers c ... INNER JOIN users u ...
    INNER JOIN pipelines p ... WHERE d.id = $1] *)
Definition select_with_relations (dealId : string) (db : Db)
    : list DealWithRelations :=
  option_list (
    d ← deals db !! dealId;
    c ← customers db !! deal_customerId d;
    u ← users db !! deal_ownerId d;
    p ← pipelines db !! deal_pipelineId d;
    Some (withRelations dealId d c u p)).

(** [SELECT id FROM customers WHERE id = $1 AND "organizationId" = $2
    AND "deletedAt" IS NULL] *)
Definition select_customer (customerId organizationId : string) (db : Db)
    : list string :=
  fst <$> CustomerController.select_by_id customerId organizationId db.

(** [SELECT id, stages FROM pipelines WHERE id = $1 AND "organizationId" = $2] *)
Definition select_pipeline (pipelineId organizationId : string) (db : Db)
    : list (string * list Stage) :=
  match pipelines db !! pipelineId with
  | Some p =>
      if decide (pipeline_organizationId p = organizationId)
      then [(pipelineId, pipeline_stages p)] else []
  | None => []
  end.

(** [SELECT d.id, d."pipelineId" FROM deals d
    INNER JOIN customers c ON d."customerId" = c.id
    WHERE d.id = $1 AND c."organizationId" = $2] *)
Definition select_existing (dealId organizationId : string) (db : Db)
    : list (string * string) :=
  option_list (
    d ← deals db !! dealId;
    c ← customers db !! deal_customerId d;
    if decide (customer_organizationId c = organizationId)
    then Some (dealId, deal_pipelineId d) else None).

(** [SELECT stages FROM pipelines WHERE id = $1] *)
Definition select_stages (pipelineId : string) (db : Db) : list (list Stage) :=
  option_list (pipeline_stages <$> pipelines db !! pipelineId).

(** [stages.some((s) => s.id === stageId)] *)
Definition stageExists (stages : list Stage) (stageId : string) : bool :=
  existsb (λ s, String.eqb (stage_id s) stageId) stages.

(** [probability < 0 || probability > 100] *)
Definition probabilityOutOfRange (probability : Number) : bool :=
  bool_decide (probability < Qc_of_Z 0)%Qc || bool_decide (Qc_of_Z 100 < probability)%Qc.

Definition getById (userId dealId : string) : M DealWithRelations :=
  organizationId ← resolveOrganization userId;
  deal ← queryOne (select_by_id dealId organizationId);
  match deal with
  | None => throw (NotFoundError "Deal not found")
  | Some d => mret d
  end.

(** The body of [POST /deals]; [currency], [probability] and [products]
    have destructuring defaults. *)
Record CreateBody := mkCreateBody {
  c_customerId : string;
  c_pipelineId : string;
  c_stageId : string;
  c_title : string;
  c_value : Z;
  c_currency : option string;
  c_expectedCloseDate : Nullable string;
  c_probability : option Number;
  c_notes : Nullable string;
  c_products : option string;
}.

(** [INSERT INTO deals (...) VALUES (gen_random_uuid(), ...) RETURNING ...]:
    [refusal] is the refusal of a bound value by its column and [d] the row
    formed otherwise; [newId] is the identifier [gen_random_uuid()] draws,
    and the primary key refuses an identifier already in the table. *)
Definition insert_stmt (newId : string) (refusal : option string) (d : Deal) (db : Db)
    : Exn + (Db * list (string * Deal)) :=
  match refusal with
  | Some reason => inl (OtherError reason)
  | None =>
      match deals db !! newId with
      | Some _ => inl (OtherError "duplicate key value violates unique constraint")
      | None => inr (set_deals (insert newId d) db, [(newId, d)])
      end
  end.

(** The refusal of the first bound value its column does not take, if any:
    [probability] is read as an [INTEGER] when the values are bound, then
    [title], [value] and [currency] are fitted to [VARCHAR(255)],
    [DECIMAL(15,2)] and [VARCHAR(3)] when the row is formed. *)
Definition refused (body : CreateBody) : option string :=
  Database.firstRefusal
    [ Database.notIntegerNumber (default (Qc_of_Z 0) (c_probability body));
      Database.tooLong 255 (c_title body);
      Database.notDecimal (c_value body);
      Database.tooLong 3 (default "USD" (c_currency body)) ].

(** The row the [INSERT] forms from the bound values, after the
    destructuring defaults, each value as its column stores it. *)
Definition newDeal (now : Timestamp) (userId : string) (body : CreateBody) : Deal :=
  let currency := default "USD" (c_currency body) in
  let probability := default (Qc_of_Z 0) (c_probability body) in
  let products := default "[]" (c_products body) in
  mkDeal (c_customerId body) (c_pipelineId body) (c_stageId body)
    (Database.varchar 255 (c_title body)) (c_value body) (Database.varchar 3 currency)
    (orNull (nullish (c_expectedCloseDate body))) None
    (default 0 (Database.wholeNumber probability))
    (orNull (nullish (c_notes body))) products userId now now.

Definition create (now : Timestamp) (newId : string) (userId : string)
    (body : CreateBody) : M (option DealWithRelations) :=
  let probability := default (Qc_of_Z 0) (c_probability body) in
  organizationId ← resolveOrganization userId;
  customer ← queryOne (select_customer (c_customerId body) organizationId);
  match customer with
  | None => throw (NotFoundError "Customer not found")
  | Some _ =>
      pipeline ← queryOne (select_pipeline (c_pipelineId body) organizationId);
      match pipeline with
      | None => throw (NotFoundError "Pipeline not found")
      | Some pipeline =>
          let stages := pipeline.2 in
          throwIf (negb (stageExists stages (c_stageId body)))
                  (ValidationError "Invalid stage ID for this pipeline");;
          throwIf (probabilityOutOfRange probability)
                  (ValidationError "Probability must be between 0 and 100");;
          result ← execute (insert_stmt newId (refused body) (newDeal now userId body));
          match result with
          | [] => raise "Cannot read properties of undefined (reading 'id')"
          | deal :: _ =>
              dealWithRelations ← queryOne (select_with_relations deal.1);
              mret dealWithRelations
          end
      end
  end.

(** The body of [PUT /deals/:id]. *)
Record UpdateBody := mkUpdateBody {
  title : option string;
  value : option Z;
  currency : option string;
  expectedCloseDate : Nullable string;
  actualCloseDate : Nullable string;
  probability : option Number;
  stageId : option string;
  notes : Nullable string;
  products : option string;
}.

Inductive Assignment :=
  | SetTitle (v : string)
  | SetValue (v : Z)
  | SetCurrency (v : string)
  | SetExpectedCloseDate (v : option string)
  | SetActualCloseDate (v : option string)
  | SetProbability (v : Number)
  | SetStageId (v : string)
  | SetNotes (v : option string)
  | SetProducts (v : string)
  | SetUpdatedAtNow.

Definition pushIf {A B} (x : option A) (f : A → B) : list B :=
  match x with Some a => [f a] | None => [] end.

Definition buildUpdates (body : UpdateBody) : list Assignment :=
  pushIf (title body) SetTitle
  ++ pushIf (value body) SetValue
  ++ pushIf (currency body) SetCurrency
  ++ pushIf (expectedCloseDate body) (λ v, SetExpectedCloseDate (orNull v))
  ++ pushIf (actualCloseDate body) (λ v, SetActualCloseDate (orNull v))
  ++ pushIf (probability body) SetProbability
  ++ pushIf (stageId body) SetStageId
  ++ pushIf (notes body) (λ v, SetNotes (orNull v))
  ++ pushIf (products body) SetProducts.

(** The refusal of a value that is bound to a parameter of type [INTEGER]. *)
Definition unreadable (a : Assignment) : option string :=
  match a with
  | SetProbability v => Database.notIntegerNumber v
  | _ => None
  end.

(** The refusal of the column the entry writes, if any. *)
Definition refusal (a : Assignment) : option string :=
  match a with
  | SetTitle v => Database.tooLong 255 v
  | SetValue v => Database.notDecimal v
  | SetCurrency v => Database.tooLong 3 v
  | _ => None
  end.

(** The row after the entry is applied, for a value its column takes. *)
Definition assign (now : Timestamp) (d : Deal) (a : Assignment) : Deal :=
  match a with
  | SetTitle v =>
      mkDeal (deal_customerId d) (deal_pipelineId d) (deal_stageId d)
        (Database.varchar 255 v) (deal_value d)
        (deal_currency d) (deal_expectedCloseDate d) (deal_actualCloseDate d)
        (deal_probability d) (deal_notes d) (deal_products d) (deal_ownerId d)
        (deal_createdAt d) (deal_updatedAt d)
  | SetValue v =>
      mkDeal (deal_customerId d) (deal_pipelineId d) (deal_stageId d) (deal_title d) v
        (deal_currency d) (deal_expectedCloseDate d) (deal_actualCloseDate d)
        (deal_probability d) (deal_notes d) (deal_products d) (deal_ownerId d)
        (deal_createdAt d) (deal_updatedAt d)
  | SetCurrency v =>
      mkDeal (deal_customerId d) (deal_pipelineId d) (deal_stageId d) (deal_title d)
        (deal_value d) (Database.varchar 3 v) (deal_expectedCloseDate d)
        (deal_actualCloseDate d)
        (deal_probability d) (deal_notes d) (deal_products d) (deal_ownerId d)
        (deal_createdAt d) (deal_updatedAt d)
  | SetExpectedCloseDate v =>
      mkDeal (deal_customerId d) (deal_pipelineId d) (deal_stageId d) (deal_title d)
        (deal_value d) (deal_currency d) v (deal_actualCloseDate d)
        (deal_probability d) (deal_notes d) (deal_products d) (deal_ownerId d)
        (deal_createdAt d) (deal_updatedAt d)
  | SetActualCloseDate v =>
      mkDeal (deal_customerId d) (deal_pipelineId d) (deal_stageId d) (deal_title d)
        (deal_value d) (deal_currency d) (deal_expectedCloseDate d) v
        (deal_probability d) (deal_notes d) (deal_products d) (deal_ownerId d)
        (deal_createdAt d) (deal_updatedAt d)
  | SetProbability v =>
      mkDeal (deal_customerId d) (deal_pipelineId d) (deal_stageId d) (deal_title d)
        (deal_value d) (deal_currency d) (deal_expectedCloseDate d)
        (deal_actualCloseDate d) (default (deal_probability d) (Database.wholeNumber v))
        (deal_notes d) (deal_products d) (deal_ownerId d)
        (deal_createdAt d) (deal_updatedAt d)
  | SetStageId v =>
      mkDeal (deal_customerId d) (deal_pipelineId d) v (deal_title d)
        (deal_value d) (deal_currency d) (deal_expectedCloseDate d)
        (deal_actualCloseDate d) (deal_probability d) (deal_notes d) (deal_products d)
        (deal_ownerId d) (deal_createdAt d) (deal_updatedAt d)
  | SetNotes v =>
      mkDeal (deal_customerId d) (deal_pipelineId d) (deal_stageId d) (deal_title d)
        (deal_value d) (deal_currency d) (deal_expectedCloseDate d)
        (deal_actualCloseDate d) (deal_probability d) v (deal_products d)
        (deal_ownerId d) (deal_createdAt d) (deal_updatedAt d)
  | SetProducts v =>
      mkDeal (deal_customerId d) (deal_pipelineId d) (deal_stageId d) (deal_title d)
        (deal_value d) (deal_currency d) (deal_expectedCloseDate d)
        (deal_actualCloseDate d) (deal_probability d) (deal_notes d) v
        (deal_ownerId d) (deal_createdAt d) (deal_updatedAt d)
  | SetUpdatedAtNow =>
      mkDeal (deal_customerId d) (deal_pipelineId d) (deal_stageId d) (deal_title d)
        (deal_value d) (deal_currency d) (deal_expectedCloseDate d)
        (deal_actualCloseDate d) (deal_probability d) (deal_notes d) (deal_products d)
        (deal_ownerId d) (deal_createdAt d) now
  end.

(** [UPDATE deals SET <updates> WHERE id = $n RETURNING ...]: the values are
    read when they are bound, and fitted to their columns when the row is
    written. *)
Definition update_stmt (now : Timestamp) (updates : list Assignment)
    (dealId : string) (db : Db) : Exn + (Db * list (string * Deal)) :=
  match Database.firstRefusal (unreadable <$> updates) with
  | Some reason => inl (OtherError reason)
  | None =>
      match deals db !! dealId with
      | Some d =>
          match Database.firstRefusal (refusal <$> updates) with
          | Some reason => inl (OtherError reason)
          | None =>
              let d' := foldl (assign now) d updates in
              inr (set_deals (insert dealId d') db, [(dealId, d')])
          end
      | None => inr (db, [])
      end
  end.

Definition update (now : Timestamp) (userId dealId : string) (body : UpdateBody)
    : M (option DealWithRelations) :=
  organizationId ← resolveOrganization userId;
  existing ← queryOne (select_existing dealId organizationId);
  match existing with
  | None => throw (NotFoundError "Deal not found")
  | Some existing =>
      (match stageId body with
       | Some s =>
           if truthy s then
             pipeline ← queryOne (select_stages existing.2);
             match pipeline with
             | Some stages =>
                 throwIf (negb (stageExists stages s))
                         (ValidationError "Invalid stage ID for this pipeline")
             | None => mret tt
             end
           else mret tt
       | None => mret tt
       end);;
      (match probability body with
       | Some p =>
           throwIf (probabilityOutOfRange p)
                   (ValidationError "Probability must be between 0 and 100")
       | None => mret tt
       end);;
      let updates := buildUpdates body in
      if decide (length updates = 0%nat) then
        existingDeal ← queryOne (select_with_relations dealId);
        match existingDeal with
        | None => throw (NotFoundError "Deal not found")
        | Some d => mret (Some d)
        end
      else
        result ← execute (update_stmt now (updates ++ [SetUpdatedAtNow]) dealId);
        match result with
        | [] => throw (NotFoundError "Deal not found")
        | _ :: _ =>
            dealWithRelations ← queryOne (select_with_relations dealId);
            mret dealWithRelations
        end
  end.

(** [DELETE FROM deals d USING customers c WHERE d.id = $1
    AND d."customerId" = c.id AND c."organizationId" = $2 RETURNING d.id] *)
Definition delete_stmt (dealId organizationId : string) (db : Db)
    : Exn + (Db * list string) :=
  match deals db !! dealId with
  | Some d =>
      match customers db !! deal_customerId d with
      | Some c =>
          if decide (customer_organizationId c = organizationId)
          then inr (set_deals (base.delete dealId) db, [dealId])
          else inr (db, [])
      | None => inr (db, [])
      end
  | None => inr (db, [])
  end.

Definition delete (userId dealId : string) : M string :=
  organizationId ← resolveOrganization userId;
  result ← execute (delete_stmt dealId organizationId);
  match result with
  | [] => throw (NotFoundError "Deal not found")
  | _ :: _ => mret "Deal deleted successfully"
  end.

(** The query string of [GET /deals]. *)
Record Query := mkQuery {
  q_pipelineId : option string;
  q_stageId : option string;
  q_customerId : option string;
}.

(** [if (x) { sql += ' AND ... = $n'; params.push(x) }]: the filter value,
    when one is appended. *)
Definition filterParam (x : option string) : option string :=
  match x with
  | Some s => if truthy s then Some s else None
  | None => None
  end.

(** An optional filter [AND column = $n]: no constraint when it is absent. *)
Definition filterEq (param : option string) (column : string) : Prop :=
  match param with Some v => column = v | None => True end.

#[global] Instance filterEq_dec param column : Decision (filterEq param column).
Proof. destruct param; simpl; apply _. Defined.

(** [WHERE o.id = $1 AND c."deletedAt" IS NULL [AND d."pipelineId" = $2]
    [AND d."stageId" = $3] [AND d."customerId" = $4]], on a deal row and the
    customer row it joins. *)
Definition matches (organizationId : string) (q : Query) (d : Deal) (c : Customer)
    : Prop :=
  customer_organizationId c = organizationId ∧ customer_deletedAt c = None
  ∧ filterEq (filterParam (q_pipelineId q)) (deal_pipelineId d)
  ∧ filterEq (filterParam (q_stageId q)) (deal_stageId d)
  ∧ filterEq (filterParam (q_customerId q)) (deal_customerId d).

#[global] Instance matches_dec o q d c : Decision (matches o q d c).
Proof. unfold matches. apply _. Defined.

(** The joins and the filter of the listing on one row of [deals]. *)
Definition listed (organizationId : string) (q : Query) (db : Db)
    (r : string * Deal) : option DealWithRelations :=
  c ← customers db !! deal_customerId r.2;
  u ← users db !! deal_ownerId r.2;
  p ← pipelines db !! deal_pipelineId r.2;
  _ ← organizations db !! customer_organizationId c;
  if decide (matches organizationId q r.2 c)
  then Some (withRelations r.1 r.2 c u p) else None.

(** [SELECT ... FROM deals d INNER JOIN customers c ... INNER JOIN users u ...
    INNER JOIN pipelines p ... INNER JOIN organizations o ...
    WHERE ... ORDER BY d."createdAt" DESC] *)
Definition select_all (organizationId : string) (q : Query) (db : Db)
    : list DealWithRelations :=
  orderByDesc (λ v, deal_createdAt (deal v))
    (omap (listed organizationId q db) (map_to_list (deals db))).

Definition getAll (userId : string) (q : Query) : M (list DealWithRelations) :=
  organizationId ← resolveOrganization userId;
  query (select_all organizationId q).

End DealController.

(** ** Task controller ([controllers/task.controller.ts]) *)

Module TaskController.

(** A task row joined with its assignee and, when it has one, its customer. *)
Record TaskWithRelations := mkTaskWithRelations {
  id : string;
  task : Task;
  assigneeFirstName : string;
  assigneeLastName : string;
  assigneeEmail : string;
  customerFirstName : option string;
  customerLastName : option string;
}.

(** [INNER JOIN users u ON t."assigneeId" = u.id
    LEFT JOIN customers c ON t."relatedCustomerId" = c.id] *)
Definition withRelations (taskId : string) (t : Task) (u : User) (db : Db)
    : TaskWithRelations :=
  let c := cid ← task_relatedCustomerId t; customers db !! cid in
  mkTaskWithRelations taskId t (user_firstName u) (user_lastName u) (user_email u)
    (customer_firstName <$> c) (customer_lastName <$> c).

(** [SELECT ... FROM tasks t INNER JOIN users u ... LEFT JOIN customers c ...
    WHERE t.id = $1 AND u."organizationId" = $2] *)
Definition select_by_id (taskId organizationId : string) (db : Db)
    : list TaskWithRelations :=
  option_list (
    t ← tasks db !! taskId;
    u ← users db !! task_assigneeId t;
    if decide (user_organizationId u = organizationId)
    then Some (withRelations taskId t u db) else None).

(** [SELECT ... FROM tasks t INNER JOIN users u ... LEFT JOIN customers c ...
    WHERE t.id = $1] *)
Definition select_with_relations (taskId : string) (db : Db)
    : list TaskWithRelations :=
  option_list (
    t ← tasks db !! taskId;
    u ← users db !! task_assigneeId t;
    Some (withRelations taskId t u db)).

(** [SELECT id FROM users WHERE id = $1 AND "organizationId" = $2] *)
Definition select_assignee (assigneeId organizationId : string) (db : Db)
    : list string :=
  match users db !! assigneeId with
  | Some u => if decide (user_organizationId u = organizationId) then [assigneeId] else []
  | None => []
  end.

(** [SELECT id FROM customers WHERE id = $1 AND "organizationId" = $2
    AND "deletedAt" IS NULL] *)
Definition select_customer (customerId organizationId : string) (db : Db)
    : list string :=
  fst <$> CustomerController.select_by_id customerId organizationId db.

(** [SELECT t.id FROM tasks t INNER JOIN users u ON t."assigneeId" = u.id
    WHERE t.id = $1 AND u."organizationId" = $2] *)
Definition select_existing (taskId organizationId : string) (db : Db)
    : list string :=
  option_list (
    t ← tasks db !! taskId;
    u ← users db !! task_assigneeId t;
    if decide (user_organizationId u = organizationId) then Some taskId else None).

Definition getById (userId taskId : string) : M TaskWithRelations :=
  organizationId ← resolveOrganization userId;
  task ← queryOne (select_by_id taskId organizationId);
  match task with
  | None => throw (NotFoundError "Task not found")
  | Some t => mret t
  end.

(** The body of [POST /tasks]; [priority], [status] and [isRecurring] have
    destructuring defaults. *)
Record CreateBody := mkCreateBody {
  c_title : string;
  c_description : Nullable string;
  c_priority : option TaskPriority;
  c_status : option TaskStatus;
  c_dueDate : Nullable string;
  c_assigneeId : option string;
  c_relatedCustomerId : Nullable string;
  c_relatedDealId : Nullable string;
  c_isRecurring : option bool;
  c_recurrenceRule : Nullable string;
}.

(** [assigneeId || user.userId] *)
Definition assigneeOr (assigneeId : option string) (userId : string) : string :=
  match assigneeId with
  | Some a => if truthy a then a else userId
  | None => userId
  end.

(** The foreign key [tasks_assigneeId_fkey]. *)
Definition assigneeKnown (t : Task) (db : Db) : bool :=
  bool_decide (is_Some (users db !! task_assigneeId t)).

(** [INSERT INTO tasks (...) VALUES (gen_random_uuid(), ..., NULL, NULL,
    NOW(), NOW()) RETURNING ...]: [refusal] is the refusal of a bound value
    by its column and [t] the row formed otherwise. *)
Definition insert_stmt (newId : string) (refusal : option string) (t : Task) (db : Db)
    : Exn + (Db * list (string * Task)) :=
  match refusal with
  | Some reason => inl (OtherError reason)
  | None =>
      match tasks db !! newId with
      | Some _ => inl (OtherError "duplicate key value violates unique constraint")
      | None =>
          if assigneeKnown t db
          then inr (set_tasks (insert newId t) db, [(newId, t)])
          else inl (OtherError "insert or update violates foreign key constraint")
      end
  end.

(** The refusal of the first bound value its column does not take, if any:
    [title] and [recurrenceRule] are [VARCHAR(255)] columns. *)
Definition refused (body : CreateBody) : option string :=
  Database.firstRefusal
    [ Database.tooLong 255 (c_title body);
      orNull (nullish (c_recurrenceRule body)) ≫= Database.tooLong 255 ].

(** The row the [INSERT] forms from the bound values, after the
    destructuring defaults, each value as its column stores it; [timeSpent]
    and [completedAt] are the literal [NULL]. *)
Definition newTask (now : Timestamp) (userId : string) (body : CreateBody) : Task :=
  let priority := default MEDIUM (c_priority body) in
  let status := default PENDING (c_status body) in
  let isRecurring := default false (c_isRecurring body) in
  mkTask (Database.varchar 255 (c_title body))
    (orNull (nullish (c_description body))) priority status
    (orNull (nullish (c_dueDate body)))
    (assigneeOr (c_assigneeId body) userId)
    (orNull (nullish (c_relatedCustomerId body)))
    (orNull (nullish (c_relatedDealId body)))
    isRecurring (Database.varchar 255 <$> orNull (nullish (c_recurrenceRule body)))
    None None now now.

Definition create (now : Timestamp) (newId : string) (userId : string)
    (body : CreateBody) : M (option TaskWithRelations) :=
  organizationId ← resolveOrganization userId;
  assignee ← queryOne (select_assignee (assigneeOr (c_assigneeId body) userId) organizationId);
  match assignee with
  | None => throw (NotFoundError "Assignee not found")
  | Some _ =>
      (match orNull (nullish (c_relatedCustomerId body)) with
       | Some relatedCustomerId =>
           customer ← queryOne (select_customer relatedCustomerId organizationId);
           throwIf (bool_decide (customer = None)) (NotFoundError "Customer not found")
       | None => mret tt
       end);;
      result ← execute (insert_stmt newId (refused body) (newTask now userId body));
      match result with
      | [] => raise "Cannot read properties of undefined (reading 'id')"
      | task :: _ =>
          taskWithRelations ← queryOne (select_with_relations task.1);
          mret taskWithRelations
      end
  end.

(** The body of [PUT /tasks/:id], as the controller destructures it. *)
Record UpdateBody := mkUpdateBody {
  title : option string;
  description : Nullable string;
  priority : option TaskPriority;
  status : option TaskStatus;
  dueDate : Nullable string;
  assigneeId : option string;
  relatedCustomerId : Nullable string;
  relatedDealId : Nullable string;
  timeSpent : Nullable Z;
  completedAt : Nullable string;
}.

Inductive Assignment :=
  | SetTitle (v : string)
  | SetDescription (v : option string)
  | SetPriority (v : TaskPriority)
  | SetStatus (v : TaskStatus)
  | SetCompletedAtNow
  | SetCompletedAtNull
  | SetDueDate (v : option string)
  | SetAssigneeId (v : string)
  | SetRelatedCustomerId (v : option string)
  | SetRelatedDealId (v : option string)
  | SetTimeSpent (v : option Z)
  | SetUpdatedAtNow.

Definition pushIf {A B} (x : option A) (f : A → B) : list B :=
  match x with Some a => [f a] | None => [] end.

(** [req.body.completedAt = ...]: the statement that rewrites the request
    body after its fields were destructured into locals. *)
Definition overwriteCompletedAt (nowIso : string) (body : UpdateBody) : UpdateBody :=
  let set v := mkUpdateBody (title body) (description body) (priority body) (status body)
                 (dueDate body) (assigneeId body) (relatedCustomerId body)
                 (relatedDealId body) (timeSpent body) v in
  if bool_decide (status body = Some COMPLETE)
     && negb (bool_decide (is_Some (orNull (nullish (completedAt body)))))
  then set (Some (Some nowIso))
  else if negb (bool_decide (status body = Some COMPLETE)) then set (Some None)
  else body.

Definition buildUpdates (body : UpdateBody) : list Assignment :=
  pushIf (title body) SetTitle
  ++ pushIf (description body) (λ v, SetDescription (orNull v))
  ++ pushIf (priority body) SetPriority
  ++ match status body with
     | Some s =>
         [SetStatus s;
          if bool_decide (s = COMPLETE) then SetCompletedAtNow else SetCompletedAtNull]
     | None => []
     end
  ++ pushIf (dueDate body) (λ v, SetDueDate (orNull v))
  ++ pushIf (assigneeId body) SetAssigneeId
  ++ pushIf (relatedCustomerId body) (λ v, SetRelatedCustomerId (orNull v))
  ++ pushIf (relatedDealId body) (λ v, SetRelatedDealId (orNull v))
  ++ pushIf (timeSpent body) (λ v, SetTimeSpent (orNullZ v)).

(** The refusal of a value that is bound to a parameter of type [INTEGER]. *)
Definition unreadable (a : Assignment) : option string :=
  match a with
  | SetTimeSpent v => v ≫= Database.notInteger
  | _ => None
  end.

(** The refusal of the column the entry writes, if any. *)
Definition refusal (a : Assignment) : option string :=
  match a with
  | SetTitle v => Database.tooLong 255 v
  | _ => None
  end.

(** The row after the entry is applied, for a value its column takes. *)
Definition assign (now : Timestamp) (t : Task) (a : Assignment) : Task :=
  match a with
  | SetTitle v =>
      mkTask (Database.varchar 255 v) (task_description t) (task_priority t)
        (task_status t) (task_dueDate t)
        (task_assigneeId t) (task_relatedCustomerId t) (task_relatedDealId t)
        (task_isRecurring t) (task_recurrenceRule t) (task_timeSpent t)
        (task_completedAt t) (task_createdAt t) (task_updatedAt t)
  | SetDescription v =>
      mkTask (task_title t) v (task_priority t) (task_status t) (task_dueDate t)
        (task_assigneeId t) (task_relatedCustomerId t) (task_relatedDealId t)
        (task_isRecurring t) (task_recurrenceRule t) (task_timeSpent t)
        (task_completedAt t) (task_createdAt t) (task_updatedAt t)
  | SetPriority v =>
      mkTask (task_title t) (task_description t) v (task_status t) (task_dueDate t)
        (task_assigneeId t) (task_relatedCustomerId t) (task_relatedDealId t)
        (task_isRecurring t) (task_recurrenceRule t) (task_timeSpent t)
        (task_completedAt t) (task_createdAt t) (task_updatedAt t)
  | SetStatus v =>
      mkTask (task_title t) (task_description t) (task_priority t) v (task_dueDate t)
        (task_assigneeId t) (task_relatedCustomerId t) (task_relatedDealId t)
        (task_isRecurring t) (task_recurrenceRule t) (task_timeSpent t)
        (task_completedAt t) (task_createdAt t) (task_updatedAt t)
  | SetCompletedAtNow =>
      mkTask (task_title t) (task_description t) (task_priority t) (task_status t)
        (task_dueDate t) (task_assigneeId t) (task_relatedCustomerId t)
        (task_relatedDealId t) (task_isRecurring t) (task_recurrenceRule t)
        (task_timeSpent t) (Some now) (task_createdAt t) (task_updatedAt t)
  | SetCompletedAtNull =>
      mkTask (task_title t) (task_description t) (task_priority t) (task_status t)
        (task_dueDate t) (task_assigneeId t) (task_relatedCustomerId t)
        (task_relatedDealId t) (task_isRecurring t) (task_recurrenceRule t)
        (task_timeSpent t) None (task_createdAt t) (task_updatedAt t)
  | SetDueDate v =>
      mkTask (task_title t) (task_description t) (task_priority t) (task_status t) v
        (task_assigneeId t) (task_relatedCustomerId t) (task_relatedDealId t)
        (task_isRecurring t) (task_recurrenceRule t) (task_timeSpent t)
        (task_completedAt t) (task_createdAt t) (task_updatedAt t)
  | SetAssigneeId v =>
      mkTask (task_title t) (task_description t) (task_priority t) (task_status t)
        (task_dueDate t) v (task_relatedCustomerId t) (task_relatedDealId t)
        (task_isRecurring t) (task_recurrenceRule t) (task_timeSpent t)
        (task_completedAt t) (task_createdAt t) (task_updatedAt t)
  | SetRelatedCustomerId v =>
      mkTask (task_title t) (task_description t) (task_priority t) (task_status t)
        (task_dueDate t) (task_assigneeId t) v (task_relatedDealId t)
        (task_isRecurring t) (task_recurrenceRule t) (task_timeSpent t)
        (task_completedAt t) (task_createdAt t) (task_updatedAt t)
  | SetRelatedDealId v =>
      mkTask (task_title t) (task_description t) (task_priority t) (task_status t)
        (task_dueDate t) (task_assigneeId t) (task_relatedCustomerId t) v
        (task_isRecurring t) (task_recurrenceRule t) (task_timeSpent t)
        (task_completedAt t) (task_createdAt t) (task_updatedAt t)
  | SetTimeSpent v =>
      mkTask (task_title t) (task_description t) (task_priority t) (task_status t)
        (task_dueDate t) (task_assigneeId t) (task_relatedCustomerId t)
        (task_relatedDealId t) (task_isRecurring t) (task_recurrenceRule t) v
        (task_completedAt t) (task_createdAt t) (task_updatedAt t)
  | SetUpdatedAtNow =>
      mkTask (task_title t) (task_description t) (task_priority t) (task_status t)
        (task_dueDate t) (task_assigneeId t) (task_relatedCustomerId t)
        (task_relatedDealId t) (task_isRecurring t) (task_recurrenceRule t)
        (task_timeSpent t) (task_completedAt t) (task_createdAt t) now
  end.

(** [UPDATE tasks SET <updates> WHERE id = $n RETURNING ...]: the values are
    read when they are bound, and fitted to their columns when the row is
    written; the foreign key [tasks_assigneeId_fkey] comes last. *)
Definition update_stmt (now : Timestamp) (updates : list Assignment)
    (taskId : string) (db : Db) : Exn + (Db * list (string * Task)) :=
  match Database.firstRefusal (unreadable <$> updates) with
  | Some reason => inl (OtherError reason)
  | None =>
      match tasks db !! taskId with
      | Some t =>
          match Database.firstRefusal (refusal <$> updates) with
          | Some reason => inl (OtherError reason)
          | None =>
              let t' := foldl (assign now) t updates in
              if assigneeKnown t' db
              then inr (set_tasks (insert taskId t') db, [(taskId, t')])
              else inl (OtherError "insert or update violates foreign key constraint")
          end
      | None => inr (db, [])
      end
  end.

Definition update (now : Timestamp) (nowIso : string) (userId taskId : string)
    (body : UpdateBody) : M (option TaskWithRelations) :=
  organizationId ← resolveOrganization userId;
  existing ← queryOne (select_existing taskId organizationId);
  match existing with
  | None => throw (NotFoundError "Task not found")
  | Some _ =>
      (match assigneeId body with
       | Some a =>
           if truthy a then
             assignee ← queryOne (select_assignee a organizationId);
             throwIf (bool_decide (assignee = None)) (NotFoundError "Assignee not found")
           else mret tt
       | None => mret tt
       end);;
      (match orNull (nullish (relatedCustomerId body)) with
       | Some c =>
           customer ← queryOne (select_customer c organizationId);
           throwIf (bool_decide (customer = None)) (NotFoundError "Customer not found")
       | None => mret tt
       end);;
      let reqBody := overwriteCompletedAt nowIso body in
      let updates := buildUpdates body in
      if decide (length updates = 0%nat) then
        existingTask ← queryOne (select_with_relations taskId);
        match existingTask with
        | None => throw (NotFoundError "Task not found")
        | Some t => mret (Some t)
        end
      else
        result ← execute (update_stmt now (updates ++ [SetUpdatedAtNow]) taskId);
        match result with
        | [] => throw (NotFoundError "Task not found")
        | _ :: _ =>
            taskWithRelations ← queryOne (select_with_relations taskId);
            mret taskWithRelations
        end
  end.

(** [DELETE FROM tasks t USING users u WHERE t.id = $1
    AND t."assigneeId" = u.id AND u."organizationId" = $2 RETURNING t.id] *)
Definition delete_stmt (taskId organizationId : string) (db : Db)
    : Exn + (Db * list string) :=
  match tasks db !! taskId with
  | Some t =>
      match users db !! task_assigneeId t with
      | Some u =>
          if decide (user_organizationId u = organizationId)
          then inr (set_tasks (base.delete taskId) db, [taskId])
          else inr (db, [])
      | None => inr (db, [])
      end
  | None => inr (db, [])
  end.

Definition delete (userId taskId : string) : M string :=
  organizationId ← resolveOrganization userId;
  result ← execute (delete_stmt taskId organizationId);
  match result with
  | [] => throw (NotFoundError "Task not found")
  | _ :: _ => mret "Task deleted successfully"
  end.

(** The query string of [GET /tasks]. *)
Record Query := mkQuery {
  q_status : option string;
  q_priority : option string;
  q_assigneeId : option string;
  q_customerId : option string;
  q_dueDateFrom : option string;
  q_dueDateTo : option string;
}.

(** The labels of the enum types ["TaskStatus"] and ["TaskPriority"]. *)
Definition statusOfLabel (s : string) : option TaskStatus :=
  if String.eqb s "PENDING" then Some PENDING
  else if String.eqb s "IN_PROGRESS" then Some IN_PROGRESS
  else if String.eqb s "COMPLETE" then Some COMPLETE
  else None.

Definition priorityOfLabel (s : string) : option TaskPriority :=
  if String.eqb s "LOW" then Some LOW
  else if String.eqb s "MEDIUM" then Some MEDIUM
  else if String.eqb s "HIGH" then Some HIGH
  else None.

(** [if (x) { sql += ' AND ... $n'; params.push(x) }]: the filter value,
    when one is appended. *)
Definition filterParam (x : option string) : option string :=
  match x with
  | Some s => if truthy s then Some s else None
  | None => None
  end.

(** A filter parameter compared with a column that is not text: the server
    reads the text as a value of the column's type, and refuses the
    statement when it cannot. *)
Definition typedParam {A} (read : string → option A) (reason : string)
    (x : option string) : Exn + option A :=
  match filterParam x with
  | None => inr None
  | Some s =>
      match read s with
      | Some a => inr (Some a)
      | None => inl (OtherError reason)
      end
  end.

(** The filters of the listing as the server reads them. *)
Record Filters := mkFilters {
  f_status : option TaskStatus;
  f_priority : option TaskPriority;
  f_assigneeId : option string;
  f_customerId : option string;
  f_dueDateFrom : option Timestamp;
  f_dueDateTo : option Timestamp;
}.

(** The parameters are read in the order they were pushed; [instant] is the
    server's reading of a timestamp text. *)
Definition readFilters (instant : string → option Timestamp) (q : Query)
    : Exn + Filters :=
  match typedParam statusOfLabel "invalid input value for enum" (q_status q) with
  | inl e => inl e
  | inr status =>
  match typedParam priorityOfLabel "invalid input value for enum" (q_priority q) with
  | inl e => inl e
  | inr priority =>
  match typedParam instant "invalid input syntax for type timestamp" (q_dueDateFrom q) with
  | inl e => inl e
  | inr dueFrom =>
  match typedParam instant "invalid input syntax for type timestamp" (q_dueDateTo q) with
  | inl e => inl e
  | inr dueTo =>
      inr (mkFilters status priority (filterParam (q_assigneeId q))
             (filterParam (q_customerId q)) dueFrom dueTo)
  end end end end.

(** The instant of the task's due date; [None] is [NULL]. *)
Definition dueInstant (instant : string → option Timestamp) (t : Task)
    : option Timestamp :=
  d ← task_dueDate t; instant d.

(** An optional filter [AND column = $n]: no constraint when it is absent. *)
Definition filterEq {A} (param : option A) (column : A) : Prop :=
  match param with Some v => column = v | None => True end.

#[global] Instance filterEq_dec `{EqDecision A} (param : option A) (column : A)
  : Decision (filterEq param column).
Proof. destruct param; simpl; apply _. Defined.

(** An optional filter on a nullable column: [NULL] passes no comparison. *)
Definition filterOn {A B} (param : option A) (column : option B) (test : A → B → Prop)
    : Prop :=
  match param with
  | Some v => match column with Some c => test v c | None => False end
  | None => True
  end.

#[global] Instance filterOn_dec {A B} (param : option A) (column : option B)
    (test : A → B → Prop) `{∀ v c, Decision (test v c)}
  : Decision (filterOn param column test).
Proof. destruct param, column; simpl; apply _. Defined.

(** [WHERE u."organizationId" = $1 [AND t.status = $2] [AND t.priority = $3]
    [AND t."assigneeId" = $4] [AND t."relatedCustomerId" = $5]
    [AND t."dueDate" >= $6] [AND t."dueDate" <= $7]], on a task row and the
    assignee row it joins. *)
Definition matches (instant : string → option Timestamp) (organizationId : string)
    (f : Filters) (t : Task) (u : User) : Prop :=
  user_organizationId u = organizationId
  ∧ filterEq (f_status f) (task_status t)
  ∧ filterEq (f_priority f) (task_priority t)
  ∧ filterEq (f_assigneeId f) (task_assigneeId t)
  ∧ filterOn (f_customerId f) (task_relatedCustomerId t) (λ v c, c = v)
  ∧ filterOn (f_dueDateFrom f) (dueInstant instant t) (λ v d, v ≤ d)
  ∧ filterOn (f_dueDateTo f) (dueInstant instant t) (λ v d, d ≤ v).

#[global] Instance matches_dec instant o f t u : Decision (matches instant o f t u).
Proof. unfold matches. apply _. Defined.

(** The joins and the filter of the listing on one row of [tasks]. *)
Definition listed (instant : string → option Timestamp) (organizationId : string)
    (f : Filters) (db : Db) (r : string * Task) : option TaskWithRelations :=
  u ← users db !! task_assigneeId r.2;
  if decide (matches instant organizationId f r.2 u)
  then Some (withRelations r.1 r.2 u db) else None.

(** [CASE t.status WHEN 'PENDING' THEN 1 WHEN 'IN_PROGRESS' THEN 2
    WHEN 'COMPLETE' THEN 3 END] *)
Definition statusRank (s : TaskStatus) : Z :=
  match s with PENDING => 1 | IN_PROGRESS => 2 | COMPLETE => 3 end.

(** [CASE t.priority WHEN 'HIGH' THEN 1 WHEN 'MEDIUM' THEN 2
    WHEN 'LOW' THEN 3 END] *)
Definition priorityRank (p : TaskPriority) : Z :=
  match p with HIGH => 1 | MEDIUM => 2 | LOW => 3 end.

(** [ASC NULLS LAST] *)
Definition nullsLast (a b : option Timestamp) : Prop :=
  match a, b with
  | Some x, Some y => x ≤ y
  | _, None => True
  | None, Some _ => False
  end.

#[global] Instance nullsLast_dec a b : Decision (nullsLast a b).
Proof. destruct a, b; simpl; apply _. Defined.

(** [ORDER BY CASE t.status ... END, CASE t.priority ... END,
    t."dueDate" ASC NULLS LAST] *)
Definition listingOrder (instant : string → option Timestamp)
    : relation TaskWithRelations := λ a b,
  statusRank (task_status (task a)) < statusRank (task_status (task b))
  ∨ (statusRank (task_status (task a)) = statusRank (task_status (task b))
     ∧ (priorityRank (task_priority (task a)) < priorityRank (task_priority (task b))
        ∨ (priorityRank (task_priority (task a)) = priorityRank (task_priority (task b))
           ∧ nullsLast (dueInstant instant (task a)) (dueInstant instant (task b))))).

#[global] Instance listingOrder_dec instant a b : Decision (listingOrder instant a b).
Proof. unfold listingOrder. apply _. Defined.

(** [SELECT ... FROM tasks t INNER JOIN users u ... LEFT JOIN customers c ...
    WHERE ... ORDER BY ...] *)
Definition select_all (instant : string → option Timestamp) (organizationId : string)
    (q : Query) (db : Db) : Exn + (Db * list TaskWithRelations) :=
  match readFilters instant q with
  | inl e => inl e
  | inr f =>
      inr (db, merge_sort (listingOrder instant)
                 (omap (listed instant organizationId f db) (map_to_list (tasks db))))
  end.

Definition getAll (instant : string → option Timestamp) (userId : string) (q : Query)
    : M (list TaskWithRelations) :=
  organizationId ← resolveOrganization userId;
  execute (select_all instant organizationId q).

End TaskController.

(** ** Numbers of the runtime

    A JavaScript number is a double.  The integers among the doubles are the
    integers below [2^53] in magnitude and, above, the multiples of a power
    of two with 53 significant bits. *)

Definition maxSafeInteger : Z := 9007199254740991.

(** The double nearest to a natural number, with a tie going to the even
    significand; [None] is [Infinity]. *)
Definition nearestDouble (n : Z) : option Z :=
  if n <=? maxSafeInteger then Some n
  else
    let e := Z.log2 n - 52 in
    let m := Z.shiftr n e in
    let r := n - Z.shiftl m e in
    let half := Z.shiftl 1 (e - 1) in
    let m' := if (half <? r) || ((r =? half) && Z.odd m) then m + 1 else m in
    let v := Z.shiftl m' e in
    if 1024 <=? Z.log2 v then None else Some v.

(** The double nearest to an integer. *)
Definition toDouble (z : Z) : option Z :=
  if z <? 0 then Z.opp <$> nearestDouble (- z) else nearestDouble z.

(** *** [Number.prototype.toString] on a natural number

    Below [10^21] the text is decimal digits without an exponent: the
    digits of the number itself up to [2^53], and above the fewest
    significant digits that still read back as the same double, followed by
    zeros ([2^63] prints as 9223372036854776000).  [None] is a text with an
    exponent. *)

(** The number of decimal digits of a positive number of at most [fuel]
    digits. *)
Fixpoint countDigits (fuel : nat) (v : Z) : Z :=
  match fuel with
  | O => 0
  | S f => if v <? 10 then 1 else 1 + countDigits f (v / 10)
  end.

(** The number with [k] significant digits that reads back as [v] and is
    nearest to [v], if there is one; a tie goes to the even last digit. *)
Definition withDigits (v : Z) (k : Z) : option Z :=
  let scale := 10 ^ (countDigits 21 v - k) in
  let lo := (v / scale) * scale in
  let hi := lo + scale in
  let readsBack c := bool_decide (nearestDouble c = Some v) in
  match readsBack lo, readsBack hi with
  | true, true =>
      if 2 * v <? lo + hi then Some lo
      else if lo + hi <? 2 * v then Some hi
      else if Z.even (lo / scale) then Some lo else Some hi
  | true, false => Some lo
  | false, true => Some hi
  | false, false => None
  end.

Definition shortest (v : Z) : Z :=
  default v (head (omap (withDigits v) (Z.of_nat <$> seq 1 17))).

Definition numberToString (v : Z) : option Z :=
  if v <=? maxSafeInteger then Some v
  else if v <? 10 ^ 21 then Some (shortest v)
  else None.

(** *** [parseInt(text, 10)] on ASCII text

    Leading white space is skipped, one sign is accepted, and the longest
    run of decimal digits that follows is the value, as the double nearest
    to it; [None] is [NaN] or an infinity. *)

Definition isWhiteSpace (c : ascii) : bool :=
  let n := nat_of_ascii c in
  (Nat.eqb n 32 || (Nat.leb 9 n && Nat.leb n 13))%bool.

Definition digitValue (c : ascii) : option Z :=
  let n := nat_of_ascii c in
  if (Nat.leb 48 n && Nat.leb n 57)%bool then Some (Z.of_nat (n - 48)) else None.

Fixpoint skipWhiteSpace (s : string) : string :=
  match s with
  | String c r => if isWhiteSpace c then skipWhiteSpace r else s
  | EmptyString => s
  end.

Fixpoint parseDigits (s : string) (acc : option Z) : option Z :=
  match s with
  | String c r =>
      match digitValue c with
      | Some d => parseDigits r (Some (10 * default 0 acc + d))
      | None => acc
      end
  | EmptyString => acc
  end.

Definition parseInt (s : string) : option Z :=
  match skipWhiteSpace s with
  | String "-"%char r => parseDigits r None ≫= λ n, Z.opp <$> nearestDouble n
  | String "+"%char r => parseDigits r None ≫= nearestDouble
  | t => parseDigits t None ≫= nearestDouble
  end.

(** ** Contact history controller ([controllers/contactHistory.controller.ts]) *)

Module ContactHistoryController.

(** A contact entry joined with its customer and its creator. *)
Record ContactHistoryWithRelations := mkContactHistoryWithRelations {
  id : string;
  contact : ContactHistory;
  customerFirstName : string;
  customerLastName : string;
  customerEmail : string;
  creatorFirstName : string;
  creatorLastName : string;
  creatorEmail : string;
}.

(** A row of [contact_history] as a result carries it: [attachments] is a
    [TEXT[]] column. *)
Definition parsed (ch : ContactHistory) : ContactHistory :=
  mkContactHistory (contact_customerId ch) (contact_type ch) (contact_subject ch)
    (contact_body ch) (contact_duration ch)
    (Database.readTextArray (contact_attachments ch)) (contact_aiSummary ch)
    (contact_createdAt ch) (contact_createdBy ch).

Definition withRelations (contactId : string) (ch : ContactHistory) (c : Customer)
    (u : User) : ContactHistoryWithRelations :=
  mkContactHistoryWithRelations contactId (parsed ch) (customer_firstName c)
    (customer_lastName c) (customer_email c) (user_firstName u) (user_lastName u)
    (user_email u).

(** The query string of [GET /contact-history]. *)
Record Query := mkQuery {
  q_customerId : option string;
  q_type : option string;
  q_limit : option string;
  q_offset : option string;
}.

(** The pagination metadata of the response. *)
Record Metadata := mkMetadata {
  total : Z;
  limit : Z;
  offset : Z;
  hasMore : bool;
}.

(** The labels of the enum type ["ContactType"]. *)
Definition contactTypeOfLabel (s : string) : option ContactType :=
  if String.eqb s "CALL" then Some CALL
  else if String.eqb s "EMAIL" then Some EMAIL
  else if String.eqb s "MEETING" then Some MEETING
  else if String.eqb s "NOTE" then Some NOTE
  else None.

(** [if (x) { sql += ' AND ... = $n'; params.push(x) }]: the filter value,
    when one is appended. *)
Definition filterParam (x : option string) : option string :=
  match x with
  | Some s => if truthy s then Some s else None
  | None => None
  end.

(** An optional filter [AND column = $n]: no constraint when it is absent. *)
Definition filterEq {A} (param : option A) (column : A) : Prop :=
  match param with Some v => column = v | None => True end.

#[global] Instance filterEq_dec `{EqDecision A} (param : option A) (column : A)
  : Decision (filterEq param column).
Proof. destruct param; simpl; apply _. Defined.

(** [WHERE c."organizationId" = $1 AND c."deletedAt" IS NULL
    [AND ch."customerId" = $2] [AND ch.type = $3]], on a contact row and the
    customer row it joins. *)
Definition matches (organizationId : string) (customerId : option string)
    (type : option ContactType) (ch : ContactHistory) (c : Customer) : Prop :=
  customer_organizationId c = organizationId ∧ customer_deletedAt c = None
  ∧ filterEq customerId (contact_customerId ch)
  ∧ filterEq type (contact_type ch).

#[global] Instance matches_dec o cid t ch c : Decision (matches o cid t ch c).
Proof. unfold matches. apply _. Defined.

(** The join and the filter of the listing on one row of [contact_history]:
    [INNER JOIN customers c ON ch."customerId" = c.id
    INNER JOIN users u ON ch."createdBy" = u.id WHERE ...]. *)
Definition listed (organizationId : string) (customerId : option string)
    (type : option ContactType) (db : Db) (r : string * ContactHistory)
    : option ContactHistoryWithRelations :=
  c ← customers db !! contact_customerId r.2;
  u ← users db !! contact_createdBy r.2;
  if decide (matches organizationId customerId type r.2 c)
  then Some (withRelations r.1 r.2 c u) else None.

(** [ORDER BY ch."createdAt" DESC] names no second key: entries created at
    the same instant come in the order the execution of the statement
    happens to produce them.  That order is the parameter [rank] of an
    execution, the position it gives to each row; the newer entry comes
    first, and of two entries of the same instant the one of lower rank. *)
Definition newestFirst (rank : string → Z) : relation ContactHistoryWithRelations :=
  λ a b,
    contact_createdAt (contact b) < contact_createdAt (contact a)
    ∨ (contact_createdAt (contact a) = contact_createdAt (contact b)
       ∧ rank (id a) ≤ rank (id b)).

#[global] Instance newestFirst_dec rank a b : Decision (newestFirst rank a b).
Proof. unfold newestFirst. apply _. Defined.

(** The rows of the listing before [LIMIT] and [OFFSET] apply:
    [SELECT ... WHERE ... ORDER BY ch."createdAt" DESC], in the execution
    [rank]. *)
Definition select_ordered (rank : string → Z) (organizationId : string)
    (customerId : option string) (type : option ContactType) (db : Db)
    : list ContactHistoryWithRelations :=
  merge_sort (newestFirst rank)
    (omap (listed organizationId customerId type db)
          (map_to_list (contact_history db))).

(** The largest value of a [bigint] parameter. *)
Definition maxBigint : Z := 9223372036854775807.

(** A [LIMIT] or [OFFSET] parameter: the number goes to the server as its
    text, which the server accepts when it is a natural number within
    [bigint]. *)
Definition rowCount (n : option Z) : option nat :=
  match n with
  | Some v =>
      if v <? 0 then None
      else match numberToString v with
           | Some z => if z <=? maxBigint then Some (Z.to_nat z) else None
           | None => None
           end
  | None => None
  end.

(** The [type] parameter compared with the enum column: a text that is not
    a label of the enum is refused by the server. *)
Definition typeParam (type : option string) : Exn + option ContactType :=
  match filterParam type with
  | None => inr None
  | Some s =>
      match contactTypeOfLabel s with
      | Some t => inr (Some t)
      | None => inl (OtherError "invalid input value for enum")
      end
  end.

(** [SELECT ... ORDER BY ch."createdAt" DESC LIMIT $n OFFSET $m], in the
    execution [rank]. *)
Definition select_page (rank : string → Z) (organizationId : string)
    (customerId type : option string) (limit offset : option Z) (db : Db)
    : Exn + (Db * list ContactHistoryWithRelations) :=
  match typeParam type with
  | inl e => inl e
  | inr t =>
      match rowCount limit, rowCount offset with
      | Some l, Some o =>
          inr (db, limitOffset l o
                     (select_ordered rank organizationId (filterParam customerId) t db))
      | _, _ => inl (OtherError "invalid LIMIT or OFFSET parameter")
      end
  end.

(** [SELECT COUNT( * ) as total FROM contact_history ch
    INNER JOIN customers c ON ch."customerId" = c.id WHERE ...] *)
Definition select_count (organizationId : string) (customerId type : option string)
    (db : Db) : Exn + (Db * list Z) :=
  match typeParam type with
  | inl e => inl e
  | inr t =>
      inr (db, [Z.of_nat (length (omap (λ r : string * ContactHistory,
             c ← customers db !! contact_customerId r.2;
             if decide (matches organizationId (filterParam customerId) t r.2 c)
             then Some r else None)
          (map_to_list (contact_history db))))])
  end.

(** [a + b < c] on numbers: the sum is the double nearest to it, and
    [Infinity] is below nothing. *)
Definition sumBelow (a b c : Z) : bool :=
  match toDouble (a + b) with
  | Some s => s <? c
  | None => false
  end.

(** The listing, whose one ordered statement runs in the execution [rank]. *)
Definition getAll (rank : string → Z) (userId : string) (q : Query)
    : M (list ContactHistoryWithRelations * Metadata) :=
  let limitText := default "50" (q_limit q) in
  let offsetText := default "0" (q_offset q) in
  organizationId ← resolveOrganization userId;
  contacts ← execute (select_page rank organizationId (q_customerId q) (q_type q)
                        (parseInt limitText) (parseInt offsetText));
  countResult ← execute (select_count organizationId (q_customerId q) (q_type q));
  let total := default 0 (head countResult ≫= toDouble) in
  let limitN := default 0 (parseInt limitText) in
  let offsetN := default 0 (parseInt offsetText) in
  mret (contacts,
        mkMetadata total limitN offsetN
          (sumBelow offsetN (Z.of_nat (length contacts)) total)).

(** [SELECT ... FROM contact_history ch INNER JOIN customers c ...
    INNER JOIN users u ... WHERE ch.id = $1 AND c."organizationId" = $2
    AND c."deletedAt" IS NULL] *)
Definition select_by_id (contactId organizationId : string) (db : Db)
    : list ContactHistoryWithRelations :=
  option_list (
    ch ← contact_history db !! contactId;
    c ← customers db !! contact_customerId ch;
    u ← users db !! contact_createdBy ch;
    if decide (customer_organizationId c = organizationId ∧ customer_deletedAt c = None)
    then Some (withRelations contactId ch c u) else None).

(** [SELECT ... FROM contact_history ch INNER JOIN customers c ...
    INNER JOIN users u ... WHERE ch.id = $1] *)
Definition select_with_relations (contactId : string) (db : Db)
    : list ContactHistoryWithRelations :=
  option_list (
    ch ← contact_history db !! contactId;
    c ← customers db !! contact_customerId ch;
    u ← users db !! contact_createdBy ch;
    Some (withRelations contactId ch c u)).

(** [SELECT ch.id FROM contact_history ch
    INNER JOIN customers c ON ch."customerId" = c.id
    WHERE ch.id = $1 AND c."organizationId" = $2] *)
Definition select_existing (contactId organizationId : string) (db : Db)
    : list string :=
  option_list (
    ch ← contact_history db !! contactId;
    c ← customers db !! contact_customerId ch;
    if decide (customer_organizationId c = organizationId) then Some contactId else None).

Definition getById (userId contactId : string) : M ContactHistoryWithRelations :=
  organizationId ← resolveOrganization userId;
  contact ← queryOne (select_by_id contactId organizationId);
  match contact with
  | None => throw (NotFoundError "Contact history entry not found")
  | Some c => mret c
  end.

(** The body of [PUT /contact-history/:id]. *)
Record UpdateBody := mkUpdateBody {
  subject : Nullable string;
  body : option string;
  duration : Nullable Z;
  attachments : Nullable (list string);
  aiSummary : Nullable string;
}.

Inductive Assignment :=
  | SetSubject (v : option string)
  | SetBody (v : string)
  | SetDuration (v : option Z)
  | SetAttachments (v : list string)
  | SetAiSummary (v : option string).

Definition pushIf {A B} (x : option A) (f : A → B) : list B :=
  match x with Some a => [f a] | None => [] end.

Definition buildUpdates (b : UpdateBody) : list Assignment :=
  pushIf (subject b) (λ v, SetSubject (orNull v))
  ++ pushIf (body b) SetBody
  ++ pushIf (duration b) (λ v, SetDuration (orNullZ v))
  ++ pushIf (attachments b) (λ v, SetAttachments (default [] v))
  ++ pushIf (aiSummary b) (λ v, SetAiSummary (orNull v)).

(** The refusal of a value that is bound to a parameter of type [INTEGER]. *)
Definition unreadable (a : Assignment) : option string :=
  match a with
  | SetDuration v => v ≫= Database.notInteger
  | _ => None
  end.

(** The refusal of the column the entry writes, if any. *)
Definition refusal (a : Assignment) : option string :=
  match a with
  | SetSubject v => v ≫= Database.tooLong 500
  | _ => None
  end.

(** The row after the entry is applied, for a value its column takes. *)
Definition assign (ch : ContactHistory) (a : Assignment) : ContactHistory :=
  match a with
  | SetSubject v =>
      mkContactHistory (contact_customerId ch) (contact_type ch)
        (Database.varchar 500 <$> v) (contact_body ch)
        (contact_duration ch) (contact_attachments ch) (contact_aiSummary ch)
        (contact_createdAt ch) (contact_createdBy ch)
  | SetBody v =>
      mkContactHistory (contact_customerId ch) (contact_type ch) (contact_subject ch) v
        (contact_duration ch) (contact_attachments ch) (contact_aiSummary ch)
        (contact_createdAt ch) (contact_createdBy ch)
  | SetDuration v =>
      mkContactHistory (contact_customerId ch) (contact_type ch) (contact_subject ch)
        (contact_body ch) v (contact_attachments ch) (contact_aiSummary ch)
        (contact_createdAt ch) (contact_createdBy ch)
  | SetAttachments v =>
      mkContactHistory (contact_customerId ch) (contact_type ch) (contact_subject ch)
        (contact_body ch) (contact_duration ch) v (contact_aiSummary ch)
        (contact_createdAt ch) (contact_createdBy ch)
  | SetAiSummary v =>
      mkContactHistory (contact_customerId ch) (contact_type ch) (contact_subject ch)
        (contact_body ch) (contact_duration ch) (contact_attachments ch) v
        (contact_createdAt ch) (contact_createdBy ch)
  end.

(** [UPDATE contact_history SET <updates> WHERE id = $n RETURNING ...]: the
    values are read when they are bound, and fitted to their columns when the
    row is written. *)
Definition update_stmt (updates : list Assignment) (contactId : string) (db : Db)
    : Exn + (Db * list (string * ContactHistory)) :=
  match Database.firstRefusal (unreadable <$> updates) with
  | Some reason => inl (OtherError reason)
  | None =>
      match contact_history db !! contactId with
      | Some ch =>
          match Database.firstRefusal (refusal <$> updates) with
          | Some reason => inl (OtherError reason)
          | None =>
              let ch' := foldl assign ch updates in
              inr (set_contact_history (insert contactId ch') db,
                   [(contactId, parsed ch')])
          end
      | None => inr (db, [])
      end
  end.

Definition update (userId contactId : string) (b : UpdateBody)
    : M (option ContactHistoryWithRelations) :=
  organizationId ← resolveOrganization userId;
  existing ← queryOne (select_existing contactId organizationId);
  match existing with
  | None => throw (NotFoundError "Contact history entry not found")
  | Some _ =>
      let updates := buildUpdates b in
      if decide (length updates = 0%nat) then
        existingContact ← queryOne (select_with_relations contactId);
        match existingContact with
        | None => throw (NotFoundError "Contact history entry not found")
        | Some c => mret (Some c)
        end
      else
        result ← execute (update_stmt updates contactId);
        match result with
        | [] => throw (NotFoundError "Contact history entry not found")
        | _ :: _ =>
            contactWithRelations ← queryOne (select_with_relations contactId);
            mret contactWithRelations
        end
  end.

(** [DELETE FROM contact_history ch USING customers c WHERE ch.id = $1
    AND ch."customerId" = c.id AND c."organizationId" = $2 RETURNING ch.id] *)
Definition delete_stmt (contactId organizationId : string) (db : Db)
    : Exn + (Db * list string) :=
  match contact_history db !! contactId with
  | Some ch =>
      match customers db !! contact_customerId ch with
      | Some c =>
          if decide (customer_organizationId c = organizationId)
          then inr (set_contact_history (base.delete contactId) db, [contactId])
          else inr (db, [])
      | None => inr (db, [])
      end
  | None => inr (db, [])
  end.

Definition delete (userId contactId : string) : M string :=
  organizationId ← resolveOrganization userId;
  result ← execute (delete_stmt contactId organizationId);
  match result with
  | [] => throw (NotFoundError "Contact history entry not found")
  | _ :: _ => mret "Contact history entry deleted successfully"
  end.

(** The body of [POST /contact-history], as the controller destructures it;
    [attachments] is the array [createContactHistorySchema] hands over. *)
Record CreateBody := mkCreateBody {
  c_customerId : string;
  c_type : string;
  c_subject : Nullable string;
  c_body : string;
  c_duration : Nullable Z;
  c_attachments : Nullable (list string);
  c_aiSummary : Nullable string;
}.

(** [SELECT id FROM customers WHERE id = $1 AND "organizationId" = $2
    AND "deletedAt" IS NULL] *)
Definition select_customer (customerId organizationId : string) (db : Db)
    : list string :=
  fst <$> CustomerController.select_by_id customerId organizationId db.

(** [duration !== undefined && duration !== null && duration < 0] *)
Definition negativeDuration (duration : Nullable Z) : bool :=
  match nullish duration with
  | Some d => d <? 0
  | None => false
  end.

(** The refusal of the first bound value its column does not take, if any:
    [duration] is read as an [INTEGER] when the values are bound, then
    [subject] is fitted to [VARCHAR(500)] when the row is formed. *)
Definition refused (b : CreateBody) : option string :=
  Database.firstRefusal
    [ orNullZ (nullish (c_duration b)) ≫= Database.notInteger;
      orNull (nullish (c_subject b)) ≫= Database.tooLong 500 ].

(** The row the [INSERT] forms from the bound values for a recognized
    contact type, each value as its column stores it. *)
Definition newContact (now : Timestamp) (userId : string) (type : ContactType)
    (b : CreateBody) : ContactHistory :=
  mkContactHistory (c_customerId b) type
    (Database.varchar 500 <$> orNull (nullish (c_subject b))) (c_body b)
    (orNullZ (nullish (c_duration b))) (default [] (nullish (c_attachments b)))
    (orNull (nullish (c_aiSummary b))) now userId.

(** [INSERT INTO contact_history (...) VALUES (gen_random_uuid(), ...)
    RETURNING ...]: [refusal] is the refusal of a bound value by its column
    and [ch] the row formed otherwise; then come the primary key and the two
    foreign keys of the table. *)
Definition insert_stmt (newId : string) (refusal : option string) (ch : ContactHistory)
    (db : Db) : Exn + (Db * list (string * ContactHistory)) :=
  match refusal with
  | Some reason => inl (OtherError reason)
  | None =>
      match contact_history db !! newId with
      | Some _ => inl (OtherError "duplicate key value violates unique constraint")
      | None =>
          if bool_decide (is_Some (customers db !! contact_customerId ch))
             && bool_decide (is_Some (users db !! contact_createdBy ch))
          then inr (set_contact_history (insert newId ch) db, [(newId, parsed ch)])
          else inl (OtherError "insert or update violates foreign key constraint")
      end
  end.

Definition create (now : Timestamp) (newId : string) (userId : string)
    (b : CreateBody) : M (option ContactHistoryWithRelations) :=
  organizationId ← resolveOrganization userId;
  customer ← queryOne (select_customer (c_customerId b) organizationId);
  match customer with
  | None => throw (NotFoundError "Customer not found")
  | Some _ =>
      match contactTypeOfLabel (c_type b) with
      | None =>
          throw (ValidationError
                   "Invalid contact type. Must be one of: CALL, EMAIL, MEETING, NOTE")
      | Some type =>
          throwIf (negativeDuration (c_duration b))
                  (ValidationError "Duration must be a positive number");;
          result ← execute (insert_stmt newId (refused b) (newContact now userId type b));
          match result with
          | [] => raise "Cannot read properties of undefined (reading 'id')"
          | contact :: _ =>
              contactWithRelations ← queryOne (select_with_relations contact.1);
              mret contactWithRelations
          end
      end
  end.

End ContactHistoryController.

(** ** Ownership of rows

    A customer and a pipeline carry their organization; a deal and a contact
    entry belong to the organization of their customer; a task belongs to the
    organization of its assignee. *)

Definition callerOrganization (userId : string) (db : Db) : option string :=
  user_organizationId <$> users db !! userId.

Definition customerOrganization (id : string) (db : Db) : option string :=
  customer_organizationId <$> customers db !! id.

Definition pipelineOrganization (id : string) (db : Db) : option string :=
  pipeline_organizationId <$> pipelines db !! id.

Definition dealOrganization (id : string) (db : Db) : option string :=
  d ← deals db !! id; customerOrganization (deal_customerId d) db.

Definition contactOrganization (id : string) (db : Db) : option string :=
  ch ← contact_history db !! id; customerOrganization (contact_customerId ch) db.

Definition taskOrganization (id : string) (db : Db) : option string :=
  t ← tasks db !! id; callerOrganization (task_assigneeId t) db.

(** The computation throws a [NotFoundError] and leaves the database as it
    found it; the error carries a resource label and nothing else. *)
Definition failsNotFound {A} (m : M A) (db : Db) : Prop :=
  ∃ resource, m db = (Err (App (NotFoundError resource)), db).

(** The computation throws the [NotFoundError] of an unknown caller or the one
    with the given fixed label, and leaves the database as it found it. *)
Definition failsNotFoundAs {A} (label : string) (m : M A) (db : Db) : Prop :=
  m db = (Err (App (NotFoundError "User not found")), db)
  ∨ m db = (Err (App (NotFoundError label)), db).

(** ** Vocabulary of the properties *)

(** A pipeline of the organization, as a row of the table. *)
Definition pipelineOf (organizationId : string) (db : Db) (r : string * Pipeline) : Prop :=
  pipelines db !! r.1 = Some r.2 ∧ pipeline_organizationId r.2 = organizationId.

(** The assignee guard: a user of the organization. *)
Definition assigneeInOrg (organizationId assigneeId : string) (db : Db) : Prop :=
  ∃ a, users db !! assigneeId = Some a ∧ user_organizationId a = organizationId.

(** The customer guard: a customer of the organization that is not deleted. *)
Definition customerInOrg (organizationId customerId : string) (db : Db) : Prop :=
  ∃ c, customers db !! customerId = Some c
       ∧ CustomerController.visibleIn organizationId c.





(** A task for the caller that refers to a deal. *)
Definition taskRequest (relatedDealId : string) : TaskController.CreateBody :=
  TaskController.mkCreateBody "Follow up" None None None None None None
    (Some (Some relatedDealId)) None None.

(** An update that only re-links the task to a deal. *)
Definition relinkRequest (relatedDealId : string) : TaskController.UpdateBody :=
  TaskController.mkUpdateBody None None None None None None None
    (Some (Some relatedDealId)) None None.

(** ** Vocabulary of the further properties *)

(** Between [db] and [db'] nothing outside the reach of organization [org]
    has changed: the organizations, users and pipelines tables are the same,
    and so is every customer, deal, task and contact entry that belongs to
    another organization. *)
Definition foreignRowsKept (org : string) (db db' : Db) : Prop :=
  organizations db' = organizations db
  ∧ users db' = users db
  ∧ pipelines db' = pipelines db
  ∧ (∀ id other, customerOrganization id db = Some other → other ≠ org →
       customers db' !! id = customers db !! id)
  ∧ (∀ id other, dealOrganization id db = Some other → other ≠ org →
       deals db' !! id = deals db !! id)
  ∧ (∀ id other, taskOrganization id db = Some other → other ≠ org →
       tasks db' !! id = tasks db !! id)
  ∧ (∀ id other, contactOrganization id db = Some other → other ≠ org →
       contact_history db' !! id = contact_history db !! id).

(** Every stored deal whose pipeline exists sits in one of its stages. *)
Definition stagesValid (db : Db) : Prop :=
  ∀ id d p, deals db !! id = Some d → pipelines db !! deal_pipelineId d = Some p →
            deal_stageId d ∈ stage_id <$> pipeline_stages p.

(** The text contains the character. *)
Fixpoint hasChar (c : ascii) (s : string) : bool :=
  match s with
  | EmptyString => false
  | String c' r => Ascii.eqb c' c || hasChar c r
  end.

(** The text form of an array of plain elements: the elements joined with
    commas between braces. *)
Definition arrayText (elements : list string) : string :=
  String "{"%char (String.append (String.concat "," elements) "}").

(** An array the server sends without quotes: no element is empty, reads as
    [NULL], or holds a brace, a comma, a double quote, a backslash or white
    space. *)
Definition plainArray (elements : list string) : Prop :=
  Forall (λ e, Database.quoted e = false) elements.

(** ** A database with two tenants

    Organization [orgA] ("Acme") with user [u1], two customers, the seeded
    default pipeline and an older non-default one; organization [orgB] with
    user [u2], one customer and its own pipeline, one of whose stages has the
    empty string as its id. *)

Module Example.

Definition seedStages : list Stage :=
  [ mkStage "1" "Lead" 1 10; mkStage "2" "Qualified" 2 30;
    mkStage "3" "Proposal" 3 50; mkStage "4" "Negotiation" 4 70;
    mkStage "5" "Closed Won" 5 100; mkStage "6" "Closed Lost" 6 0 ].

Definition otherStages : list Stage :=
  [ mkStage "b1" "Inbound" 1 20; mkStage "" "Unnamed" 2 40 ].

Definition customerOf (first email phone org creator : string) (created : Timestamp)
    : Customer :=
  mkCustomer first "Doe" email phone None [] None org creator created created None.

Definition dealOf (customerId pipelineId stage owner : string) (probability : Z) : Deal :=
  mkDeal customerId pipelineId stage "Renewal" 500000 "USD" None None probability
    None "[]" owner 100 100.

Definition taskOf (assignee : string) (status : TaskStatus)
    (completed : option Timestamp) : Task :=
  mkTask "Call back" None MEDIUM status None assignee None None false None None
    completed 100 100.

Definition contactOf (customerId creator : string) (created : Timestamp)
    : ContactHistory :=
  mkContactHistory customerId CALL None "Spoke on the phone" None [] None created creator.

Definition db : Db :=
  mkDb
    (list_to_map [("orgA", mkOrganization "Acme"); ("orgB", mkOrganization "Globex")])
    (list_to_map [("u1", mkUser "admin@acme.com" "Ann" "Admin" "orgA");
                  ("u2", mkUser "boss@globex.com" "Bob" "Boss" "orgB")])
    (list_to_map [("c1", customerOf "John" "john@x.com" "+1" "orgA" "u1" 10);
                  ("c2", customerOf "Jane" "jane@x.com" "+2" "orgA" "u1" 20);
                  ("c3", customerOf "Jack" "jack@y.com" "+3" "orgB" "u2" 30)])
    (list_to_map [("h1", contactOf "c1" "u1" 1); ("h2", contactOf "c1" "u1" 2);
                  ("h3", contactOf "c2" "u1" 3); ("h4", contactOf "c1" "u1" 3);
                  ("h5", contactOf "c1" "u1" 5); ("h6", contactOf "c3" "u2" 6)])
    (list_to_map [("p1", mkPipeline "Default Sales Pipeline" seedStages true 50 50 "u1" "orgA");
                  ("p0", mkPipeline "Legacy" seedStages false 40 40 "u1" "orgA");
                  ("p2", mkPipeline "Partners" otherStages false 60 60 "u2" "orgB")])
    (list_to_map [("d1", dealOf "c1" "p1" "1" "u1" 10);
                  ("d3", dealOf "c3" "p2" "b1" "u2" 20)])
    (list_to_map [("t1", taskOf "u1" PENDING None);
                  ("t3", taskOf "u2" PENDING None)]).

(** Two executions of the contact listing: they differ on the entries [h3]
    and [h4], which were created at the same instant. *)
Definition h4First (id : string) : Z := if String.eqb id "h3" then 1 else 0.
Definition h3First (id : string) : Z := if String.eqb id "h4" then 1 else 0.

End Example.

(** * Properties *)

(** ** Running controller computations *)

(** Unfolds the monad and the query helpers of a controller method. *)
Ltac ctrl :=
  cbv beta iota zeta delta
    [mbind M_bind mret M_ret queryOne query execute throw throwIf raise
     resolveOrganization].

Lemma bind_ok {A B} (m : M A) (k : A → M B) db a db' :
  m db = (Ok a, db') → (m ≫= k) db = k a db'.
Proof. intros H. unfold mbind, M_bind. by rewrite H. Qed.

Lemma bind_err {A B} (m : M A) (k : A → M B) db e db' :
  m db = (Err e, db') → (m ≫= k) db = (Err e, db').
Proof. intros H. unfold mbind, M_bind. by rewrite H. Qed.

Lemma queryOne_run {A} (select : Db → list A) db :
  queryOne select db = (Ok (head (select db)), db).
Proof. reflexivity. Qed.

Lemma resolveOrganization_unknown userId db :
  users db !! userId = None →
  resolveOrganization userId db = (Err (App (NotFoundError "User not found")), db).
Proof.
  intros H. unfold resolveOrganization.
  erewrite bind_ok by apply queryOne_run.
  unfold select_user_organization. by rewrite H.
Qed.

Lemma resolveOrganization_known userId db u :
  users db !! userId = Some u →
  resolveOrganization userId db = (Ok (user_organizationId u), db).
Proof.
  intros H. unfold resolveOrganization.
  erewrite bind_ok by apply queryOne_run.
  unfold select_user_organization. by rewrite H.
Qed.

(** ** Values and their columns *)

Lemma firstRefusal_None checks :
  Database.firstRefusal checks = None ↔ Forall (λ c, c = None) checks.
Proof.
  unfold Database.firstRefusal. induction checks as [|[r|] cs IH]; simpl.
  - split; [constructor|done].
  - split; [done|]. by intros [? _]%Forall_cons.
  - rewrite IH. split; [by constructor|]. by intros [_ ?]%Forall_cons.
Qed.

Lemma firstRefusal_app xs ys :
  Database.firstRefusal (xs ++ ys) = None
  ↔ Database.firstRefusal xs = None ∧ Database.firstRefusal ys = None.
Proof. by rewrite !firstRefusal_None, Forall_app. Qed.







(** ** Ownership *)

Lemma deal_owner db other id :
  dealOrganization id db = Some other →
  ∃ d c, deals db !! id = Some d ∧ customers db !! deal_customerId d = Some c
         ∧ customer_organizationId c = other.
Proof.
  unfold dealOrganization, customerOrganization.
  destruct (deals db !! id) as [d|]; simpl; [|done].
  destruct (customers db !! deal_customerId d) as [c|] eqn:Hc; simpl; [|done].
  intros [= <-]. eauto.
Qed.

Lemma task_owner db other id :
  taskOrganization id db = Some other →
  ∃ t u, tasks db !! id = Some t ∧ users db !! task_assigneeId t = Some u
         ∧ user_organizationId u = other.
Proof.
  unfold taskOrganization, callerOrganization.
  destruct (tasks db !! id) as [t|]; simpl; [|done].
  destruct (users db !! task_assigneeId t) as [u|] eqn:Hu; simpl; [|done].
  intros [= <-]. eauto.
Qed.

Lemma contact_owner db other id :
  contactOrganization id db = Some other →
  ∃ ch c, contact_history db !! id = Some ch
          ∧ customers db !! contact_customerId ch = Some c
          ∧ customer_organizationId c = other.
Proof.
  unfold contactOrganization, customerOrganization.
  destruct (contact_history db !! id) as [ch|]; simpl; [|done].
  destruct (customers db !! contact_customerId ch) as [c|] eqn:Hc; simpl; [|done].
  intros [= <-]. eauto.
Qed.

Section TenantIsolation.

Variables (db : Db) (userId other : string).
Hypothesis foreign : callerOrganization userId db ≠ Some other.

(** Every method starts by resolving the caller; from there on either the
    caller is unknown, or the organization in scope is not [other]. *)
Lemma caller_cases :
  resolveOrganization userId db = (Err (App (NotFoundError "User not found")), db)
  ∨ ∃ org, org ≠ other ∧ resolveOrganization userId db = (Ok org, db).
Proof using foreign.
  unfold callerOrganization in foreign.
  destruct (users db !! userId) as [u|] eqn:Hu.
  - right. exists (user_organizationId u). split.
    + intros Heq. apply foreign. simpl. by rewrite Heq.
    + by apply resolveOrganization_known.
  - left. by apply resolveOrganization_unknown.
Qed.

Lemma foreign_after_resolve {A} (label : string) (k : string → M A) :
  (∀ org, org ≠ other → k org db = (Err (App (NotFoundError label)), db)) →
  failsNotFoundAs label (resolveOrganization userId ≫= k) db.
Proof using foreign.
  intros Hk. unfold failsNotFoundAs.
  destruct caller_cases as [H|(org & Hne & H)].
  - left. by apply bind_err.
  - right. erewrite bind_ok by exact H. by apply Hk.
Qed.

Lemma customer_select_foreign id org :
  customerOrganization id db = Some other → org ≠ other →
  CustomerController.select_by_id id org db = [].
Proof.
  unfold customerOrganization, CustomerController.select_by_id.
  destruct (customers db !! id) as [c|]; simpl; [|done].
  intros [= Hc] Hne. case_decide as Hv; [|done].
  destruct Hv as [Hv _]. congruence.
Qed.

Lemma customer_getById_foreign id :
  customerOrganization id db = Some other →
  failsNotFoundAs "Customer not found" (CustomerController.getById userId id) db.
Proof using foreign.
  intros Hrow. apply foreign_after_resolve.
  intros org Hne.
  erewrite bind_ok by apply queryOne_run.
  by rewrite customer_select_foreign.
Qed.

Lemma customer_update_foreign now id body :
  customerOrganization id db = Some other →
  failsNotFoundAs "Customer not found" (CustomerController.update now userId id body) db.
Proof using foreign.
  intros Hrow. apply foreign_after_resolve.
  intros org Hne.
  erewrite bind_ok by apply queryOne_run.
  by rewrite customer_select_foreign.
Qed.

Lemma customer_delete_foreign now id :
  customerOrganization id db = Some other →
  failsNotFoundAs "Customer not found" (CustomerController.delete now userId id) db.
Proof using foreign.
  intros Hrow. apply foreign_after_resolve.
  intros org Hne.
  unfold customerOrganization in Hrow.
  destruct (customers db !! id) as [c|] eqn:Hc; simplify_eq/=.
  rewrite (bind_ok _ _ db [] db); [done|].
  unfold execute, CustomerController.soft_delete_stmt. rewrite Hc.
  case_decide as Hv; [destruct Hv; congruence|done].
Qed.

Lemma pipeline_getById_foreign id :
  pipelineOrganization id db = Some other →
  failsNotFoundAs "Pipeline not found" (PipelineController.getById userId id) db.
Proof using foreign.
  intros Hrow. apply foreign_after_resolve.
  intros org Hne.
  erewrite bind_ok by apply queryOne_run.
  unfold pipelineOrganization in Hrow.
  unfold PipelineController.select_by_id.
  destruct (pipelines db !! id) as [p|]; simplify_eq/=.
  case_decide; [congruence|done].
Qed.

Lemma deal_getById_foreign id :
  dealOrganization id db = Some other →
  failsNotFoundAs "Deal not found" (DealController.getById userId id) db.
Proof using foreign.
  intros (d & c & Hd & Hc & Ho)%deal_owner. apply foreign_after_resolve.
  intros org Hne.
  erewrite bind_ok by apply queryOne_run.
  unfold DealController.select_by_id. rewrite Hd. simpl. rewrite Hc. simpl.
  destruct (users db !! deal_ownerId d); simpl; [|done].
  destruct (pipelines db !! deal_pipelineId d); simpl; [|done].
  destruct (organizations db !! customer_organizationId c); simpl; [|done].
  case_decide as Hv; [destruct Hv; congruence|done].
Qed.

Lemma deal_update_foreign now id body :
  dealOrganization id db = Some other →
  failsNotFoundAs "Deal not found" (DealController.update now userId id body) db.
Proof using foreign.
  intros (d & c & Hd & Hc & Ho)%deal_owner. apply foreign_after_resolve.
  intros org Hne.
  erewrite bind_ok by apply queryOne_run.
  unfold DealController.select_existing. rewrite Hd. simpl. rewrite Hc. simpl.
  case_decide; [congruence|done].
Qed.

Lemma deal_delete_foreign id :
  dealOrganization id db = Some other →
  failsNotFoundAs "Deal not found" (DealController.delete userId id) db.
Proof using foreign.
  intros (d & c & Hd & Hc & Ho)%deal_owner. apply foreign_after_resolve.
  intros org Hne.
  rewrite (bind_ok _ _ db [] db); [done|].
  unfold execute, DealController.delete_stmt. rewrite Hd, Hc.
  case_decide; [congruence|done].
Qed.

Lemma task_getById_foreign id :
  taskOrganization id db = Some other →
  failsNotFoundAs "Task not found" (TaskController.getById userId id) db.
Proof using foreign.
  intros (t & u & Ht & Hu & Ho)%task_owner. apply foreign_after_resolve.
  intros org Hne.
  erewrite bind_ok by apply queryOne_run.
  unfold TaskController.select_by_id. rewrite Ht. simpl. rewrite Hu. simpl.
  case_decide; [congruence|done].
Qed.

Lemma task_update_foreign now nowIso id body :
  taskOrganization id db = Some other →
  failsNotFoundAs "Task not found" (TaskController.update now nowIso userId id body) db.
Proof using foreign.
  intros (t & u & Ht & Hu & Ho)%task_owner. apply foreign_after_resolve.
  intros org Hne.
  erewrite bind_ok by apply queryOne_run.
  unfold TaskController.select_existing. rewrite Ht. simpl. rewrite Hu. simpl.
  case_decide; [congruence|done].
Qed.

Lemma task_delete_foreign id :
  taskOrganization id db = Some other →
  failsNotFoundAs "Task not found" (TaskController.delete userId id) db.
Proof using foreign.
  intros (t & u & Ht & Hu & Ho)%task_owner. apply foreign_after_resolve.
  intros org Hne.
  rewrite (bind_ok _ _ db [] db); [done|].
  unfold execute, TaskController.delete_stmt. rewrite Ht, Hu.
  case_decide; [congruence|done].
Qed.

Lemma contact_getById_foreign id :
  contactOrganization id db = Some other →
  failsNotFoundAs "Contact history entry not found" (ContactHistoryController.getById userId id) db.
Proof using foreign.
  intros (ch & c & Hh & Hc & Ho)%contact_owner. apply foreign_after_resolve.
  intros org Hne.
  erewrite bind_ok by apply queryOne_run.
  unfold ContactHistoryController.select_by_id. rewrite Hh. simpl. rewrite Hc. simpl.
  destruct (users db !! contact_createdBy ch); simpl; [|done].
  case_decide as Hv; [destruct Hv; congruence|done].
Qed.

Lemma contact_update_foreign id body :
  contactOrganization id db = Some other →
  failsNotFoundAs "Contact history entry not found" (ContactHistoryController.update userId id body) db.
Proof using foreign.
  intros (ch & c & Hh & Hc & Ho)%contact_owner. apply foreign_after_resolve.
  intros org Hne.
  erewrite bind_ok by apply queryOne_run.
  unfold ContactHistoryController.select_existing. rewrite Hh. simpl. rewrite Hc. simpl.
  case_decide; [congruence|done].
Qed.

Lemma contact_delete_foreign id :
  contactOrganization id db = Some other →
  failsNotFoundAs "Contact history entry not found" (ContactHistoryController.delete userId id) db.
Proof using foreign.
  intros (ch & c & Hh & Hc & Ho)%contact_owner. apply foreign_after_resolve.
  intros org Hne.
  rewrite (bind_ok _ _ db [] db); [done|].
  unfold execute, ContactHistoryController.delete_stmt. rewrite Hh, Hc.
  case_decide; [congruence|done].
Qed.

End TenantIsolation.

(** C1. Whatever the caller, a get, update or delete addressed to the id of a
    customer, deal, pipeline, task or contact-history entry that belongs to an
    organization other than the caller's throws [NotFoundError] and changes
    nothing; the error is one of two constants (the caller is unknown, or the
    entity is not found), so it carries no field of the addressed row. *)
Theorem tenant_isolation_not_found (db : Db) (userId other id : string) :
  callerOrganization userId db ≠ Some other →
  (customerOrganization id db = Some other →
     failsNotFoundAs "Customer not found" (CustomerController.getById userId id) db
     ∧ (∀ now body, failsNotFoundAs "Customer not found"
         (CustomerController.update now userId id body) db)
     ∧ (∀ now, failsNotFoundAs "Customer not found"
         (CustomerController.delete now userId id) db))
  ∧ (dealOrganization id db = Some other →
     failsNotFoundAs "Deal not found" (DealController.getById userId id) db
     ∧ (∀ now body, failsNotFoundAs "Deal not found"
         (DealController.update now userId id body) db)
     ∧ failsNotFoundAs "Deal not found" (DealController.delete userId id) db)
  ∧ (pipelineOrganization id db = Some other →
     failsNotFoundAs "Pipeline not found" (PipelineController.getById userId id) db)
  ∧ (taskOrganization id db = Some other →
     failsNotFoundAs "Task not found" (TaskController.getById userId id) db
     ∧ (∀ now nowIso body,
          failsNotFoundAs "Task not found"
              (TaskController.update now nowIso userId id body) db)
     ∧ failsNotFoundAs "Task not found" (TaskController.delete userId id) db)
  ∧ (contactOrganization id db = Some other →
     failsNotFoundAs "Contact history entry not found"
         (ContactHistoryController.getById userId id) db
     ∧ (∀ body, failsNotFoundAs "Contact history entry not found"
         (ContactHistoryController.update userId id body) db)
     ∧ failsNotFoundAs "Contact history entry not found"
         (ContactHistoryController.delete userId id) db).
Proof.
  intros Hforeign. repeat split; intros.
  - by eapply customer_getById_foreign.
  - by eapply customer_update_foreign.
  - by eapply customer_delete_foreign.
  - by eapply deal_getById_foreign.
  - by eapply deal_update_foreign.
  - by eapply deal_delete_foreign.
  - by eapply pipeline_getById_foreign.
  - by eapply task_getById_foreign.
  - by eapply task_update_foreign.
  - by eapply task_delete_foreign.
  - by eapply contact_getById_foreign.
  - by eapply contact_update_foreign.
  - by eapply contact_delete_foreign.
Qed.

(** User [u1] of organization [orgA] addresses customer [c3] of [orgB]. *)
Lemma tenant_isolation_not_found_witness :
  callerOrganization "u1" Example.db ≠ Some "orgB"
  ∧ customerOrganization "c3" Example.db = Some "orgB"
  ∧ failsNotFoundAs "Customer not found"
      (CustomerController.getById "u1" "c3") Example.db.
Proof.
  assert (Hcaller : callerOrganization "u1" Example.db ≠ Some "orgB")
    by (vm_compute; discriminate).
  assert (Hrow : customerOrganization "c3" Example.db = Some "orgB")
    by (vm_compute; reflexivity).
  split; [exact Hcaller|]. split; [exact Hrow|].
  exact (proj1 (proj1 (tenant_isolation_not_found Example.db "u1" "orgB" "c3" Hcaller) Hrow)).
Defined.

(** ** Soft deletion of customers *)

Lemma elem_of_orderByDesc {A} (key : A → Z) (rows : list A) x :
  x ∈ orderByDesc key rows ↔ x ∈ rows.
Proof. unfold orderByDesc. by rewrite merge_sort_Permutation. Qed.

(** The customer listing holds exactly the rows of the organization that are
    not soft-deleted. *)
Lemma elem_of_customer_select_all org db id c :
  (id, c) ∈ CustomerController.select_all org db
  ↔ ∃ stored, customers db !! id = Some stored
              ∧ CustomerController.visibleIn org stored
              ∧ c = CustomerController.parsed stored.
Proof.
  unfold CustomerController.select_all. rewrite list_elem_of_fmap. split.
  - intros [[id' stored] [Heq Hin]]. injection Heq as -> ->.
    rewrite elem_of_orderByDesc, list_elem_of_filter, elem_of_map_to_list in Hin.
    exists stored. tauto.
  - intros (stored & Hstored & Hv & ->). exists (id, stored). split; [done|].
    rewrite elem_of_orderByDesc, list_elem_of_filter, elem_of_map_to_list. done.
Qed.

Lemma customer_delete_run db now userId id u c :
  users db !! userId = Some u →
  customers db !! id = Some c →
  CustomerController.visibleIn (user_organizationId u) c →
  CustomerController.delete now userId id db
  = (Ok "Customer deleted successfully",
     set_customers (insert id (CustomerController.softDeleted now c)) db).
Proof.
  intros Hu Hc Hv. unfold CustomerController.delete.
  erewrite bind_ok by (by apply resolveOrganization_known).
  rewrite (bind_ok _ _ db [id] (set_customers (insert id (CustomerController.softDeleted now c)) db));
    [done|].
  unfold execute, CustomerController.soft_delete_stmt. rewrite Hc.
  by rewrite decide_True.
Qed.

(** C7. Deleting a customer of the caller's organization succeeds, keeps the
    row in the [customers] table with [deletedAt] set (and every other column
    but [updatedAt] as it was), leaves all other customers alone, and from
    then on no caller finds the customer in the customer list, and get-by-id
    of it throws [NotFoundError]. *)
Theorem customer_soft_delete db now userId id u c :
  users db !! userId = Some u →
  customers db !! id = Some c →
  CustomerController.visibleIn (user_organizationId u) c →
  ∃ db',
    CustomerController.delete now userId id db = (Ok "Customer deleted successfully", db')
    ∧ customers db' !! id = Some (CustomerController.softDeleted now c)
    ∧ customer_deletedAt (CustomerController.softDeleted now c) = Some now
    ∧ (∀ id', id' ≠ id → customers db' !! id' = customers db !! id')
    ∧ (∃ rows, CustomerController.getAll userId db' = (Ok rows, db') ∧ id ∉ rows.*1)
    ∧ (∀ caller rows db'',
         CustomerController.getAll caller db' = (Ok rows, db'') → id ∉ rows.*1)
    ∧ (∀ caller, failsNotFound (CustomerController.getById caller id) db').
Proof.
  intros Hu Hc Hv.
  exists (set_customers (insert id (CustomerController.softDeleted now c)) db).
  assert (Hrow : customers (set_customers (insert id (CustomerController.softDeleted now c)) db) !! id
                 = Some (CustomerController.softDeleted now c)) by apply lookup_insert_eq.
  assert (Hhidden : ∀ org rows,
            rows = CustomerController.select_all org
                     (set_customers (insert id (CustomerController.softDeleted now c)) db) →
            id ∉ rows.*1).
  { intros org rows -> [[id' c'] [Hid Hin]]%list_elem_of_fmap. simpl in Hid. subst id'.
    apply elem_of_customer_select_all in Hin as (stored & Hin & [_ Hdel] & _).
    rewrite Hrow in Hin. by simplify_eq. }
  split; [by eapply customer_delete_run|].
  split; [exact Hrow|]. split; [done|].
  split; [intros id' Hne; by apply lookup_insert_ne|].
  split; [|split].
  - eexists. split; [|by eapply Hhidden].
    unfold CustomerController.getAll.
    by erewrite bind_ok by (eapply resolveOrganization_known; exact Hu).
  - intros caller rows db'' Hall. unfold CustomerController.getAll in Hall.
    destruct (users (set_customers (insert id (CustomerController.softDeleted now c)) db) !! caller)
      as [w|] eqn:Hw.
    + erewrite bind_ok in Hall by (eapply resolveOrganization_known; exact Hw).
      unfold query in Hall. simplify_eq. by eapply Hhidden.
    + erewrite bind_err in Hall by (by apply resolveOrganization_unknown). done.
  - intros caller. unfold CustomerController.getById.
    destruct (users (set_customers (insert id (CustomerController.softDeleted now c)) db) !! caller)
      as [w|] eqn:Hw.
    + exists "Customer not found".
      erewrite bind_ok by (eapply resolveOrganization_known; exact Hw).
      erewrite bind_ok by apply queryOne_run.
      unfold CustomerController.select_by_id. rewrite Hrow.
      case_decide as Hvis; [by destruct Hvis|done].
    + exists "User not found". by apply bind_err, resolveOrganization_unknown.
Qed.

(** User [u1] deletes customer [c1] of its own organization at time 200. *)
Lemma customer_soft_delete_witness :
  ∃ db',
    CustomerController.delete 200 "u1" "c1" Example.db
      = (Ok "Customer deleted successfully", db')
    ∧ (customer_deletedAt <$> customers db' !! "c1") = Some (Some 200)
    ∧ failsNotFound (CustomerController.getById "u1" "c1") db'.
Proof.
  destruct (customer_soft_delete Example.db 200 "u1" "c1"
              (mkUser "admin@acme.com" "Ann" "Admin" "orgA")
              (Example.customerOf "John" "john@x.com" "+1" "orgA" "u1" 10))
    as (db' & Hrun & Hrow & _ & _ & _ & _ & Hget).
  - vm_compute. reflexivity.
  - vm_compute. reflexivity.
  - split; vm_compute; reflexivity.
  - exists db'. split; [exact Hrun|]. split; [by rewrite Hrow|]. apply Hget.
Defined.

(** ** The default pipeline *)

#[global] Instance ascBy_trans {A} (key : A → Z) : Transitive (ascBy key).
Proof. unfold ascBy. intros x y z. lia. Qed.
#[global] Instance ascBy_total {A} (key : A → Z) : Total (ascBy key).
Proof. unfold ascBy. intros x y. lia. Qed.
#[global] Instance descBy_trans {A} (key : A → Z) : Transitive (descBy key).
Proof. unfold descBy. intros x y z. lia. Qed.
#[global] Instance descBy_total {A} (key : A → Z) : Total (descBy key).
Proof. unfold descBy. intros x y. lia. Qed.

Lemma head_limitOffset_one {A} (rows : list A) :
  head (limitOffset 1 0 rows) = head rows.
Proof. by destruct rows. Qed.

Lemma head_is_None {A} (rows : list A) : head rows = None ↔ rows = [].
Proof. by destruct rows. Qed.

(** The first row of an ascending ordering carries the least key. *)
Lemma head_orderByAsc_least {A} (key : A → Z) (rows : list A) x :
  head (orderByAsc key rows) = Some x →
  x ∈ rows ∧ ∀ y, y ∈ rows → key x ≤ key y.
Proof.
  intros [rest Hsorted]%head_Some.
  pose proof (StronglySorted_merge_sort (ascBy key) rows) as Hs.
  unfold orderByAsc in Hsorted. rewrite Hsorted in Hs.
  apply StronglySorted_inv in Hs as [_ Hle].
  split.
  - rewrite <- (merge_sort_Permutation (ascBy key)), Hsorted. left.
  - intros y Hy. rewrite <- (merge_sort_Permutation (ascBy key)), Hsorted in Hy.
    apply elem_of_cons in Hy as [->|Hy]; [lia|].
    rewrite Forall_forall in Hle. by apply Hle.
Qed.

Lemma orderByAsc_nil {A} (key : A → Z) (rows : list A) :
  orderByAsc key rows = [] ↔ rows = [].
Proof.
  split; [|by intros ->].
  intros H. apply Permutation_nil_r. rewrite <- H.
  unfold orderByAsc. by rewrite merge_sort_Permutation.
Qed.


Section GetDefault.

Variables (db : Db) (userId : string) (u : User).
Hypothesis caller : users db !! userId = Some u.
Let org := user_organizationId u.

Lemma getDefault_run :
  PipelineController.getDefault userId db =
  match head (PipelineController.select_default org db) with
  | Some p => (Ok p, db)
  | None =>
      match head (PipelineController.select_first org db) with
      | Some p => (Ok p, db)
      | None => (Err (App (NotFoundError "No pipeline found for this organization")), db)
      end
  end.
Proof using caller.
  unfold PipelineController.getDefault.
  erewrite bind_ok by (eapply resolveOrganization_known; exact caller).
  erewrite bind_ok by apply queryOne_run. fold org.
  destruct (head (PipelineController.select_default org db)); [done|].
  erewrite bind_ok by apply queryOne_run.
  by destruct (head (PipelineController.select_first org db)).
Qed.

Lemma head_select_default r :
  head (PipelineController.select_default org db) = Some r →
  pipelineOf org db r ∧ pipeline_isDefault r.2 = true.
Proof.
  unfold PipelineController.select_default. rewrite head_limitOffset_one.
  intros Hin%head_Some_elem_of.
  apply list_elem_of_filter in Hin as [[Horg Hdef] Hin].
  destruct r as [pid p]. apply elem_of_map_to_list in Hin. by repeat split.
Qed.

Lemma select_default_None :
  head (PipelineController.select_default org db) = None →
  ∀ r, pipelineOf org db r → pipeline_isDefault r.2 = false.
Proof.
  unfold PipelineController.select_default. rewrite head_limitOffset_one.
  intros Hnil%head_is_None [pid p] [Hp Horg]. simpl in *.
  destruct (pipeline_isDefault p) eqn:Hdef; [|done].
  exfalso. eapply (filter_nil_not_elem_of _ _ (pid, p)); [exact Hnil|done|].
  by apply elem_of_map_to_list.
Qed.

Lemma head_select_first r :
  head (PipelineController.select_first org db) = Some r →
  pipelineOf org db r
  ∧ ∀ r', pipelineOf org db r' → pipeline_createdAt r.2 ≤ pipeline_createdAt r'.2.
Proof.
  unfold PipelineController.select_first. rewrite head_limitOffset_one.
  intros [Hin Hleast]%head_orderByAsc_least.
  apply list_elem_of_filter in Hin as [Horg Hin].
  destruct r as [pid p]. apply elem_of_map_to_list in Hin.
  split; [done|]. intros [pid' p'] [Hp' Horg']. apply (Hleast (pid', p')).
  apply list_elem_of_filter. split; [done|]. by apply elem_of_map_to_list.
Qed.

Lemma select_first_None :
  head (PipelineController.select_first org db) = None →
  ∀ r, ¬ pipelineOf org db r.
Proof.
  unfold PipelineController.select_first. rewrite head_limitOffset_one.
  intros Hnil%head_is_None%orderByAsc_nil [pid p] [Hp Horg].
  eapply (filter_nil_not_elem_of _ _ (pid, p)); [exact Hnil|done|].
  by apply elem_of_map_to_list.
Qed.

End GetDefault.

(** C10. For a caller of organization [org]: when some pipeline of [org] is
    marked default, get-default returns a pipeline of [org] that is marked
    default; when none is but [org] has pipelines, it returns a pipeline of
    [org] whose creation time is least among them; it throws [NotFoundError]
    exactly when [org] has no pipeline.  The database is never changed. *)
Theorem getDefault_pipeline db userId u :
  users db !! userId = Some u →
  let org := user_organizationId u in
  ((∃ r, pipelineOf org db r ∧ pipeline_isDefault r.2 = true) →
     ∃ r, PipelineController.getDefault userId db = (Ok r, db)
          ∧ pipelineOf org db r ∧ pipeline_isDefault r.2 = true)
  ∧ ((∀ r, pipelineOf org db r → pipeline_isDefault r.2 = false) →
     (∃ r, pipelineOf org db r) →
     ∃ r, PipelineController.getDefault userId db = (Ok r, db)
          ∧ pipelineOf org db r
          ∧ ∀ r', pipelineOf org db r' →
                  pipeline_createdAt r.2 ≤ pipeline_createdAt r'.2)
  ∧ (failsNotFound (PipelineController.getDefault userId) db
     ↔ ∀ r, ¬ pipelineOf org db r).
Proof.
  intros Hu org. unfold failsNotFound.
  rewrite (getDefault_run db userId u Hu). fold org.
  destruct (head (PipelineController.select_default org db)) as [r|] eqn:Hd.
  - apply head_select_default in Hd as [Hr Hdef].
    split; [eauto|]. split.
    + intros Hnone _. apply Hnone in Hr. congruence.
    + split; [by intros [? ?]|]. intros Hnone. by destruct (Hnone r).
  - pose proof (select_default_None db u Hd) as Hnodef.
    destruct (head (PipelineController.select_first org db)) as [r|] eqn:Hf.
    + apply head_select_first in Hf as [Hr Hleast].
      split; [|split].
      * intros (r' & Hr' & Hdef'). apply Hnodef in Hr'. congruence.
      * eauto.
      * split; [by intros [? ?]|]. intros Hnone. by destruct (Hnone r).
    + pose proof (select_first_None db u Hf) as Hnone.
      split; [|split].
      * intros (r' & Hr' & _). by destruct (Hnone r').
      * intros _ (r' & Hr'). by destruct (Hnone r').
      * split; [done|]. intros _. by eexists.
Qed.

(** User [u1]: its organization has the default pipeline [p1] and the older,
    non-default [p0]; the default one is returned. *)
Lemma getDefault_pipeline_witness :
  ∃ r, PipelineController.getDefault "u1" Example.db = (Ok r, Example.db)
       ∧ pipelineOf "orgA" Example.db r ∧ pipeline_isDefault r.2 = true.
Proof.
  apply (proj1 (getDefault_pipeline Example.db "u1"
                  (mkUser "admin@acme.com" "Ann" "Admin" "orgA") eq_refl)).
  exists ("p1", mkPipeline "Default Sales Pipeline" Example.seedStages true 50 50 "u1" "orgA").
  repeat split; vm_compute; reflexivity.
Defined.

(** ** Deals: stage membership and probability *)

Lemma stageExists_elem_of stages stageId :
  DealController.stageExists stages stageId = true ↔ stageId ∈ stage_id <$> stages.
Proof.
  unfold DealController.stageExists. rewrite existsb_exists, list_elem_of_fmap.
  split.
  - intros (s & Hin%list_elem_of_In & Heq%String.eqb_eq). by exists s.
  - intros (s & -> & Hin%list_elem_of_In). exists s. by rewrite String.eqb_eq.
Qed.

Lemma stageExists_not_elem_of stages stageId :
  stageId ∉ stage_id <$> stages → DealController.stageExists stages stageId = false.
Proof.
  intros H. destruct (DealController.stageExists stages stageId) eqn:E; [|done].
  by apply stageExists_elem_of in E.
Qed.



(** What a run of deal creation can be: a failure that wrote nothing, or a
    success after every guard passed and exactly one row was inserted. *)
Lemma deal_create_inv now newId userId body db r db' :
  DealController.create now newId userId body db = (r, db') →
  (∃ e, r = Err e ∧ db' = db)
  ∨ (∃ x u c p, r = Ok x
       ∧ users db !! userId = Some u
       ∧ customers db !! DealController.c_customerId body = Some c
       ∧ CustomerController.visibleIn (user_organizationId u) c
       ∧ pipelines db !! DealController.c_pipelineId body = Some p
       ∧ pipeline_organizationId p = user_organizationId u
       ∧ DealController.stageExists (pipeline_stages p) (DealController.c_stageId body) = true
       ∧ DealController.probabilityOutOfRange
           (default (Qc_of_Z 0) (DealController.c_probability body)) = false
       ∧ DealController.refused body = None
       ∧ deals db !! newId = None
       ∧ db' = set_deals (insert newId (DealController.newDeal now userId body)) db).
Proof.
  unfold DealController.create. ctrl. unfold select_user_organization.
  destruct (users db !! userId) as [u|] eqn:Hu; simpl; [|intros [= <- <-]; eauto].
  unfold DealController.select_customer, CustomerController.select_by_id.
  destruct (customers db !! DealController.c_customerId body) as [c|] eqn:Hc;
    simpl; [|intros [= <- <-]; eauto].
  case_decide as Hv; simpl; [|intros [= <- <-]; eauto].
  unfold DealController.select_pipeline.
  destruct (pipelines db !! DealController.c_pipelineId body) as [p|] eqn:Hp;
    simpl; [|intros [= <- <-]; eauto].
  case_decide as Hpo; simpl; [|intros [= <- <-]; eauto].
  destruct (DealController.stageExists _ _) eqn:Hs; simpl; [|intros [= <- <-]; eauto].
  destruct (DealController.probabilityOutOfRange _) eqn:Hr; simpl;
    [intros [= <- <-]; eauto|].
  unfold DealController.insert_stmt.
  destruct (DealController.refused body) eqn:Hfit; simpl; [intros [= <- <-]; eauto|].
  destruct (deals db !! newId) eqn:Hnew; simpl; [intros [= <- <-]; eauto|].
  intros [= <- <-]. right. eexists _, u, c, p. split_and!; done.
Qed.

(** C3. When the caller, the customer and the pipeline of a deal-create
    request are in order (the customer and the pipeline belong to the caller's
    organization) but the stage id is not the id of any stage of that
    pipeline, the request throws [ValidationError] and the database, hence
    the [deals] table, is what it was. *)
Theorem deal_create_unknown_stage db now newId userId body u c p :
  users db !! userId = Some u →
  customers db !! DealController.c_customerId body = Some c →
  CustomerController.visibleIn (user_organizationId u) c →
  pipelines db !! DealController.c_pipelineId body = Some p →
  pipeline_organizationId p = user_organizationId u →
  DealController.c_stageId body ∉ stage_id <$> pipeline_stages p →
  DealController.create now newId userId body db
  = (Err (App (ValidationError "Invalid stage ID for this pipeline")), db).
Proof.
  intros Hu Hc Hv Hp Hpo Hs.
  unfold DealController.create. ctrl. unfold select_user_organization.
  rewrite Hu. simpl.
  unfold DealController.select_customer, CustomerController.select_by_id.
  rewrite Hc, decide_True by done. simpl.
  unfold DealController.select_pipeline. rewrite Hp, decide_True by done. simpl.
  by rewrite stageExists_not_elem_of.
Qed.

(** User [u1] creates a deal for its customer [c1] in its pipeline [p1] with
    stage id ["b1"], a stage of the other organization's pipeline. *)
Lemma deal_create_unknown_stage_witness :
  DealController.create 200 "d9" "u1"
    (DealController.mkCreateBody "c1" "p1" "b1" "Upsell" 500000 None None None None None)
    Example.db
  = (Err (App (ValidationError "Invalid stage ID for this pipeline")), Example.db).
Proof.
  apply (deal_create_unknown_stage Example.db 200 "d9" "u1" _
           (mkUser "admin@acme.com" "Ann" "Admin" "orgA")
           (Example.customerOf "John" "john@x.com" "+1" "orgA" "u1" 10)
           (mkPipeline "Default Sales Pipeline" Example.seedStages true 50 50 "u1" "orgA")).
  - vm_compute. reflexivity.
  - vm_compute. reflexivity.
  - split; vm_compute; reflexivity.
  - vm_compute. reflexivity.
  - vm_compute. reflexivity.
  - apply (bool_decide_unpack _). vm_compute. reflexivity.
Defined.


(** The refusals of a deal update are those of the fields of its body. *)
Lemma deal_update_unreadable body :
  Database.firstRefusal
    (DealController.unreadable
       <$> DealController.buildUpdates body ++ [DealController.SetUpdatedAtNow])
  = DealController.probability body ≫= Database.notIntegerNumber.
Proof.
  destruct body as [[?|] [?|] [?|] [?|] [?|] [p|] [?|] [?|] [?|]]; simpl;
    try reflexivity; by destruct (Database.notIntegerNumber p).
Qed.


Lemma deal_assign_stageId now d body :
  deal_stageId
    (foldl (DealController.assign now) d
       (DealController.buildUpdates body ++ [DealController.SetUpdatedAtNow]))
  = default (deal_stageId d) (DealController.stageId body).
Proof. destruct body as [[?|] [?|] [?|] [?|] [?|] [?|] [?|] [?|] [?|]]; reflexivity. Qed.

(** What a run of deal update can be: a failure that wrote nothing, or a
    success after the guards passed, with either no write at all or the one
    row rewritten. *)
Lemma deal_update_inv now userId id body db r db' :
  DealController.update now userId id body db = (r, db') →
  (∃ e, r = Err e ∧ db' = db)
  ∨ (∃ x u d c, r = Ok x
       ∧ users db !! userId = Some u
       ∧ deals db !! id = Some d
       ∧ customers db !! deal_customerId d = Some c
       ∧ customer_organizationId c = user_organizationId u
       ∧ (∀ s p, DealController.stageId body = Some s → truthy s = true →
                 pipelines db !! deal_pipelineId d = Some p →
                 DealController.stageExists (pipeline_stages p) s = true)
       ∧ (∀ q, DealController.probability body = Some q →
               DealController.probabilityOutOfRange q = false)
       ∧ ((db' = db ∧ DealController.buildUpdates body = [])
          ∨ (DealController.probability body ≫= Database.notIntegerNumber = None
             ∧ db' = set_deals (insert id
                       (foldl (DealController.assign now) d
                          (DealController.buildUpdates body
                           ++ [DealController.SetUpdatedAtNow]))) db))).
Proof.
  unfold DealController.update. ctrl. unfold select_user_organization.
  destruct (users db !! userId) as [u|] eqn:Hu; simpl; [|intros [= <- <-]; eauto].
  unfold DealController.select_existing.
  destruct (deals db !! id) as [d|] eqn:Hd; simpl; [|intros [= <- <-]; eauto].
  destruct (customers db !! deal_customerId d) as [c|] eqn:Hc; simpl;
    [|intros [= <- <-]; eauto].
  case_decide as Ho; simpl; [|intros [= <- <-]; eauto].
  destruct (DealController.stageId body) as [s|] eqn:Hsid;
    [destruct (truthy s) eqn:Ht;
     [unfold DealController.select_stages;
      destruct (pipelines db !! deal_pipelineId d) as [p|] eqn:Hp; simpl;
      [destruct (DealController.stageExists (pipeline_stages p) s) eqn:Hs; simpl;
       [|intros [= <- <-]; eauto]|]|]|].
  all: destruct (DealController.probability body) as [q|] eqn:Hq; simpl;
    [destruct (DealController.probabilityOutOfRange q) eqn:Hr; simpl;
     [intros [= <- <-]; eauto|]|].
  all: case_decide as Hlen; simpl;
    [unfold DealController.select_with_relations; rewrite Hd; simpl; rewrite Hc; simpl;
     destruct (users db !! deal_ownerId d); simpl; [|intros [= <- <-]; eauto];
     destruct (pipelines db !! deal_pipelineId d) eqn:Hp'; simpl;
       [|intros [= <- <-]; eauto]
    |unfold DealController.update_stmt; rewrite deal_update_unreadable;
     destruct (DealController.probability body ≫= Database.notIntegerNumber) eqn:Hread;
       simpl; [intros [= <- <-]; eauto|];
     rewrite Hd; simpl;
     destruct (Database.firstRefusal
                 (DealController.refusal <$> DealController.buildUpdates body
                                             ++ [DealController.SetUpdatedAtNow]));
       simpl; [intros [= <- <-]; eauto|]].
  all: intros [= <- <-]; right; eexists _, u, d, c; split_and!;
    first [ done
          | by (intros; simplify_eq; congruence)
          | by (right; rewrite ?Hq in Hread)
          | by (left; split; [done|apply nil_length_inv]) ].
Qed.

(** A deal update that names a non-empty stage id outside the stage list of
    the deal's own pipeline throws [ValidationError] and writes nothing. *)
Lemma deal_update_unknown_stage db now userId id body u d c p s :
  users db !! userId = Some u →
  deals db !! id = Some d →
  customers db !! deal_customerId d = Some c →
  customer_organizationId c = user_organizationId u →
  pipelines db !! deal_pipelineId d = Some p →
  DealController.stageId body = Some s →
  truthy s = true →
  s ∉ stage_id <$> pipeline_stages p →
  DealController.update now userId id body db
  = (Err (App (ValidationError "Invalid stage ID for this pipeline")), db).
Proof.
  intros Hu Hd Hc Ho Hp Hs Ht Hnot.
  unfold DealController.update. ctrl. unfold select_user_organization.
  rewrite Hu. simpl. unfold DealController.select_existing.
  rewrite Hd. simpl. rewrite Hc. simpl. rewrite decide_True by done. simpl.
  rewrite Hs, Ht. unfold DealController.select_stages. rewrite Hp. simpl.
  by rewrite stageExists_not_elem_of.
Qed.

(** C4. The stage check of deal update is skipped for the empty stage id:
    user [u1] of [orgA] updates its deal [d1], which sits in pipeline [p1]
    with stages ["1"] to ["6"], with the stage id [""] that only the pipeline
    of [orgB] has; the update succeeds and the deal's stage id becomes [""]. *)
Theorem deal_update_empty_stage_accepted :
  let body := DealController.mkUpdateBody None None None None None None (Some "") None None in
  (pipeline_stages <$> pipelines Example.db !! "p2") = Some Example.otherStages
  ∧ pipelineOrganization "p2" Example.db = Some "orgB"
  ∧ ("" ∈ stage_id <$> Example.otherStages)
  ∧ (deal_pipelineId <$> deals Example.db !! "d1") = Some "p1"
  ∧ (pipeline_stages <$> pipelines Example.db !! "p1") = Some Example.seedStages
  ∧ ("" ∉ stage_id <$> Example.seedStages)
  ∧ (deal_stageId <$> deals Example.db !! "d1") = Some "1"
  ∧ ∃ x db',
      DealController.update 200 "u1" "d1" body Example.db = (Ok x, db')
      ∧ (deal_stageId <$> deals db' !! "d1") = Some "".
Proof.
  split_and!; try (vm_compute; reflexivity).
  - apply (bool_decide_unpack _). vm_compute. reflexivity.
  - apply (bool_decide_unpack _). vm_compute. reflexivity.
  - eexists _, _. split; vm_compute; reflexivity.
Qed.

(** *** Probability *)








(** ** The parser of [TEXT[]] values on what the server sends *)

Lemma split_no_sep sep s :
  hasChar sep s = false → Database.split sep s = [s].
Proof.
  induction s as [|c r IH]; simpl; [done|].
  intros [Hc Hr]%orb_false_elim. rewrite Hc, (IH Hr). done.
Qed.

Lemma split_app_sep sep s rest :
  hasChar sep s = false →
  Database.split sep (String.append s (String sep rest)) = s :: Database.split sep rest.
Proof.
  induction s as [|c r IH]; simpl.
  - intros _. by rewrite Ascii.eqb_refl.
  - intros [Hc Hr]%orb_false_elim. rewrite Hc, (IH Hr). done.
Qed.

Lemma split_concat sep x xs :
  Forall (λ e, hasChar sep e = false) (x :: xs) →
  Database.split sep (String.concat (String sep EmptyString) (x :: xs)) = x :: xs.
Proof.
  revert x. induction xs as [|y ys IH]; intros x Hall.
  - simpl. apply split_no_sep. by inversion Hall.
  - inversion Hall as [|? ? Hx Hrest]; subst.
    change (String.concat (String sep EmptyString) (x :: y :: ys))
      with (String.append x (String sep (String.concat (String sep EmptyString) (y :: ys)))).
    rewrite split_app_sep by done. by rewrite IH.
Qed.

Lemma split_pieces sep s :
  Forall (λ e, hasChar sep e = false) (Database.split sep s).
Proof.
  induction s as [|c r IH]; simpl.
  - by constructor.
  - destruct (Ascii.eqb c sep) eqn:Hc.
    + by constructor.
    + destruct (Database.split sep r) as [|h t]; inversion IH; subst;
        constructor; simpl; try done; by rewrite Hc.
Qed.

Lemma dropLast_app_char s c :
  Database.dropLast (String.append s (String c EmptyString)) = s.
Proof.
  induction s as [|a r IH]; simpl; [done|].
  rewrite IH. destruct r; done.
Qed.

(** The parser on a non-empty array text whose elements are not empty and
    hold no comma. *)
Lemma parseTextArray_braces (x : string) (xs : list string) :
  Forall (λ e, truthy e = true ∧ hasChar "," e = false) (x :: xs) →
  Database.parseTextArray
    (String "{" (String.append (String.concat "," (x :: xs)) "}"))
  = x :: xs.
Proof.
  intros Hall.
  unfold Database.parseTextArray.
  cbn [truthy negb Database.slice_1_minus1].
  assert (Hne : String.eqb
            (String "{" (String.append (String.concat "," (x :: xs)) "}")) "{}" = false).
  { apply String.eqb_neq. intros Heq.
    inversion Hall as [|? ? [Hx _] _]; subst.
    destruct x as [|c r]; [done|].
    destruct xs; simpl in Heq; injection Heq as Heq; destruct r; simpl in Heq; discriminate. }
  rewrite Hne, dropLast_app_char.
  rewrite split_concat by (eapply Forall_impl; [exact Hall|by intros ? [_ ?]]).
  clear Hne. induction Hall as [|e es [He _] _ IH]; [done|].
  rewrite filter_cons_True by done. by rewrite IH.
Qed.

Lemma anyChar_forcesQuotes_comma e :
  Database.anyChar Database.forcesQuotes e = false → hasChar "," e = false.
Proof.
  induction e as [|c r IH]; simpl; [done|].
  intros [Hc Hr]%orb_false_elim. rewrite (IH Hr), orb_false_r.
  unfold Database.forcesQuotes in Hc.
  repeat (apply orb_false_elim in Hc as [Hc ?]). done.
Qed.

(** An array that needs no quotes comes back from the parser as it is
    stored. *)
Lemma readTextArray_plain elements :
  plainArray elements → Database.readTextArray elements = elements.
Proof.
  intros Hplain. unfold Database.readTextArray, Database.arrayOut.
  assert (Hout : Database.elementOut <$> elements = elements).
  { induction Hplain as [|e es He _ IH]; [done|].
    rewrite fmap_cons, IH. unfold Database.elementOut. by rewrite He. }
  rewrite Hout. clear Hout. destruct elements as [|x xs]; [done|].
  apply parseTextArray_braces.
  eapply Forall_impl; [exact Hplain|]. intros e He. simpl in He.
  unfold Database.quoted in He.
  apply orb_false_elim in He as [[Hempty _]%orb_false_elim Hany].
  split; [by destruct (truthy e)|by apply anyChar_forcesQuotes_comma].
Qed.

(** A tag with a blank in it comes back between the double quotes the server
    put around it; a tag with a comma in it comes back in two pieces. *)
Lemma readTextArray_quoted :
  Database.readTextArray ["key account"]
  = [String Database.doubleQuote (String.append "key account"
                                    (String Database.doubleQuote EmptyString))]
  ∧ Database.readTextArray ["a,b"]
    = [String Database.doubleQuote "a";
       String.append "b" (String Database.doubleQuote EmptyString)].
Proof. split; vm_compute; reflexivity. Qed.

(** ** Updates without fields *)

(** C6. An update whose body has none of the updatable fields, addressed to
    a row of the caller's organization, answers with the current row, read
    as every read reads it (for a deal, a task and a contact entry joined
    with the rows it refers to; for a customer the same answer as get-by-id
    gives), and leaves the database, so every column of the row and its
    [updatedAt], exactly as it was.  The row read is the row stored, column
    by column, except that a [tags] or [attachments] array goes through the
    parser of the driver, which hands back what is stored when the array
    needs no quotes. *)
Theorem update_without_fields_is_read db userId u id :
  users db !! userId = Some u →
  let org := user_organizationId u in
  (∀ now c,
     customers db !! id = Some c → CustomerController.visibleIn org c →
     CustomerController.update now userId id
       (CustomerController.mkUpdateBody None None None None None None None) db
     = (Ok (Some (id, CustomerController.parsed c)), db)
     ∧ CustomerController.getById userId id db
       = (Ok (id, CustomerController.parsed c), db)
     ∧ CustomerController.parsed c
       = mkCustomer (customer_firstName c) (customer_lastName c) (customer_email c)
           (customer_phone c) (customer_company c)
           (Database.readTextArray (customer_tags c)) (customer_customFields c)
           (customer_organizationId c) (customer_createdBy c) (customer_createdAt c)
           (customer_updatedAt c) (customer_deletedAt c)
     ∧ (plainArray (customer_tags c) → CustomerController.parsed c = c))
  ∧ (∀ now d c owner p,
     deals db !! id = Some d →
     customers db !! deal_customerId d = Some c → customer_organizationId c = org →
     users db !! deal_ownerId d = Some owner →
     pipelines db !! deal_pipelineId d = Some p →
     DealController.update now userId id
       (DealController.mkUpdateBody None None None None None None None None None) db
     = (Ok (Some (DealController.withRelations id d c owner p)), db)
     ∧ DealController.deal (DealController.withRelations id d c owner p) = d)
  ∧ (∀ now nowIso completedAt t assignee,
     tasks db !! id = Some t →
     users db !! task_assigneeId t = Some assignee → user_organizationId assignee = org →
     TaskController.update now nowIso userId id
       (TaskController.mkUpdateBody None None None None None None None None None completedAt) db
     = (Ok (Some (TaskController.withRelations id t assignee db)), db)
     ∧ TaskController.task (TaskController.withRelations id t assignee db) = t)
  ∧ (∀ ch c creator,
     contact_history db !! id = Some ch →
     customers db !! contact_customerId ch = Some c → customer_organizationId c = org →
     users db !! contact_createdBy ch = Some creator →
     ContactHistoryController.update userId id
       (ContactHistoryController.mkUpdateBody None None None None None) db
     = (Ok (Some (ContactHistoryController.withRelations id ch c creator)), db)
     ∧ ContactHistoryController.contact
         (ContactHistoryController.withRelations id ch c creator)
       = mkContactHistory (contact_customerId ch) (contact_type ch) (contact_subject ch)
           (contact_body ch) (contact_duration ch)
           (Database.readTextArray (contact_attachments ch)) (contact_aiSummary ch)
           (contact_createdAt ch) (contact_createdBy ch)
     ∧ (plainArray (contact_attachments ch) →
        ContactHistoryController.contact
          (ContactHistoryController.withRelations id ch c creator) = ch)).
Proof.
  intros Hu org. split_and!.
  - intros now c Hc Hv. split_and!; [| |done|].
    + unfold CustomerController.update. ctrl. unfold select_user_organization.
      rewrite Hu. simpl. unfold CustomerController.select_by_id.
      rewrite Hc. rewrite decide_True by done. simpl.
      unfold CustomerController.select_unscoped. by rewrite Hc.
    + unfold CustomerController.getById. ctrl. unfold select_user_organization.
      rewrite Hu. simpl. unfold CustomerController.select_by_id.
      rewrite Hc. by rewrite decide_True by done.
    + intros Hplain. unfold CustomerController.parsed.
      rewrite readTextArray_plain by done. by destruct c.
  - intros now d c owner p Hd Hc Ho Hown Hp. split; [|done].
    unfold DealController.update. ctrl. unfold select_user_organization.
    rewrite Hu. simpl. unfold DealController.select_existing.
    rewrite Hd. simpl. rewrite Hc. simpl. rewrite decide_True by done. simpl.
    unfold DealController.select_with_relations.
    rewrite Hd. simpl. rewrite Hc. simpl. rewrite Hown. simpl. by rewrite Hp.
  - intros now nowIso completedAt t assignee Ht Ha Ho. split; [|done].
    unfold TaskController.update. ctrl. unfold select_user_organization.
    rewrite Hu. simpl. unfold TaskController.select_existing.
    rewrite Ht. simpl. rewrite Ha. simpl. rewrite decide_True by done. simpl.
    unfold TaskController.select_with_relations.
    rewrite Ht. simpl. by rewrite Ha.
  - intros ch c creator Hh Hc Ho Hcr. split_and!; [|done|].
    + unfold ContactHistoryController.update. ctrl. unfold select_user_organization.
      rewrite Hu. simpl. unfold ContactHistoryController.select_existing.
      rewrite Hh. simpl. rewrite Hc. simpl. rewrite decide_True by done. simpl.
      unfold ContactHistoryController.select_with_relations.
      rewrite Hh. simpl. rewrite Hc. simpl. by rewrite Hcr.
    + intros Hplain. simpl. unfold ContactHistoryController.parsed.
      rewrite readTextArray_plain by done. by destruct ch.
Qed.

(** User [u1] sends an empty update to its customer [c1]. *)
Lemma update_without_fields_is_read_witness :
  CustomerController.update 200 "u1" "c1"
    (CustomerController.mkUpdateBody None None None None None None None) Example.db
  = (Ok (Some ("c1", Example.customerOf "John" "john@x.com" "+1" "orgA" "u1" 10)),
     Example.db).
Proof.
  destruct (proj1 (update_without_fields_is_read Example.db "u1"
                     (mkUser "admin@acme.com" "Ann" "Admin" "orgA") "c1" eq_refl)
              200 (Example.customerOf "John" "john@x.com" "+1" "orgA" "u1" 10))
    as (Hrun & _ & _ & Hplain).
  - vm_compute. reflexivity.
  - split; vm_compute; reflexivity.
  - rewrite Hrun, Hplain; [reflexivity|constructor].
Defined.

(** ** Tasks: completion timestamp and related deal *)

(** The columns a task update leaves as they are or overwrites. *)
Lemma task_assign_status now t body :
  task_status
    (foldl (TaskController.assign now) t
       (TaskController.buildUpdates body ++ [TaskController.SetUpdatedAtNow]))
  = default (task_status t) (TaskController.status body).
Proof.
  destruct body as [[?|] [?|] [?|] [[]|] [?|] [?|] [?|] [?|] [?|] ?]; reflexivity.
Qed.

Lemma task_assign_completedAt now t body :
  task_completedAt
    (foldl (TaskController.assign now) t
       (TaskController.buildUpdates body ++ [TaskController.SetUpdatedAtNow]))
  = match TaskController.status body with
    | Some COMPLETE => Some now
    | Some _ => None
    | None => task_completedAt t
    end.
Proof.
  destruct body as [[?|] [?|] [?|] [[]|] [?|] [?|] [?|] [?|] [?|] ?]; reflexivity.
Qed.

Lemma task_assign_relatedDealId now t body :
  task_relatedDealId
    (foldl (TaskController.assign now) t
       (TaskController.buildUpdates body ++ [TaskController.SetUpdatedAtNow]))
  = match TaskController.relatedDealId body with
    | Some v => orNull v
    | None => task_relatedDealId t
    end.
Proof.
  destruct body as [[?|] [?|] [?|] [[]|] [?|] [?|] [?|] [?|] [?|] ?]; reflexivity.
Qed.

(** A body that carries a status, or a related deal, is not an empty update. *)
Lemma task_buildUpdates_status body s :
  TaskController.status body = Some s →
  length (TaskController.buildUpdates body) ≠ 0%nat.
Proof.
  intros H. unfold TaskController.buildUpdates. rewrite H.
  rewrite !length_app. simpl. lia.
Qed.

Lemma task_buildUpdates_relatedDealId body v :
  TaskController.relatedDealId body = Some v →
  length (TaskController.buildUpdates body) ≠ 0%nat.
Proof.
  intros H. unfold TaskController.buildUpdates. rewrite H.
  rewrite !length_app. simpl. lia.
Qed.



Lemma select_assignee_head org a db :
  head (TaskController.select_assignee a org db) = None ↔ ¬ assigneeInOrg org a db.
Proof.
  unfold TaskController.select_assignee, assigneeInOrg.
  destruct (users db !! a) as [usr|]; [case_decide|]; simpl.
  - split; [done|]. intros Hn. destruct Hn. eauto.
  - split; [|done]. by intros _ (a' & [= <-] & ?).
  - split; [|done]. by intros _ (a' & ? & _).
Qed.

Lemma select_customer_head org cid db :
  head (TaskController.select_customer cid org db) = None ↔ ¬ customerInOrg org cid db.
Proof.
  unfold TaskController.select_customer, CustomerController.select_by_id, customerInOrg.
  destruct (customers db !! cid) as [c|]; [case_decide|]; simpl.
  - split; [done|]. intros Hn. destruct Hn. eauto.
  - split; [|done]. by intros _ (c' & [= <-] & ?).
  - split; [|done]. by intros _ (c' & ? & _).
Qed.

(** The refusals of a task update are those of the fields of its body. *)
Lemma task_update_unreadable body :
  Database.firstRefusal
    (TaskController.unreadable
       <$> TaskController.buildUpdates body ++ [TaskController.SetUpdatedAtNow])
  = TaskController.timeSpent body ≫= λ v, orNullZ v ≫= Database.notInteger.
Proof.
  destruct body as [[?|] [?|] [?|] [[]|] [?|] [?|] [?|] [?|] [?|] ?]; simpl;
    repeat match goal with
           | |- context [orNullZ ?v ≫= Database.notInteger] =>
               destruct (orNullZ v ≫= Database.notInteger)
           end; reflexivity.
Qed.

Lemma task_update_refusal body :
  Database.firstRefusal
    (TaskController.refusal
       <$> TaskController.buildUpdates body ++ [TaskController.SetUpdatedAtNow])
  = TaskController.title body ≫= Database.tooLong 255.
Proof.
  destruct body as [[?|] [?|] [?|] [[]|] [?|] [?|] [?|] [?|] [?|] ?]; simpl;
    repeat match goal with
           | |- context [Database.tooLong 255 ?v] => destruct (Database.tooLong 255 v)
           end; reflexivity.
Qed.

Section TaskRuns.

Variables (db : Db) (userId : string) (u : User).
Hypothesis caller : users db !! userId = Some u.
Let org := user_organizationId u.

(** Task creation for a known caller, guard by guard. *)
Lemma task_create_run now newId body :
  TaskController.create now newId userId body db =
  let assigneeId := TaskController.assigneeOr (TaskController.c_assigneeId body) userId in
  let inserted :=
    match TaskController.refused body with
    | Some reason => (Err (OtherError reason), db)
    | None =>
        match tasks db !! newId with
        | Some _ =>
            (Err (OtherError "duplicate key value violates unique constraint"), db)
        | None =>
            let db' := set_tasks (insert newId (TaskController.newTask now userId body)) db in
            (Ok (head (TaskController.select_with_relations newId db')), db')
        end
    end in
  match head (TaskController.select_assignee assigneeId org db) with
  | None => (Err (App (NotFoundError "Assignee not found")), db)
  | Some _ =>
      match orNull (nullish (TaskController.c_relatedCustomerId body)) with
      | Some cid =>
          match head (TaskController.select_customer cid org db) with
          | None => (Err (App (NotFoundError "Customer not found")), db)
          | Some _ => inserted
          end
      | None => inserted
      end
  end.
Proof using caller.
  unfold TaskController.create. ctrl. unfold select_user_organization.
  rewrite caller. simpl. fold org.
  destruct (head (TaskController.select_assignee _ org db)) as [a|] eqn:Ha; [|done].
  assert (Hfk : TaskController.assigneeKnown (TaskController.newTask now userId body) db = true).
  { unfold TaskController.assigneeKnown, TaskController.newTask. simpl.
    apply bool_decide_eq_true. unfold TaskController.select_assignee in Ha.
    destruct (users db !! TaskController.assigneeOr _ _); [eauto|done]. }
  destruct (orNull (nullish (TaskController.c_relatedCustomerId body))) as [cid|]; simpl.
  - destruct (head (TaskController.select_customer cid org db)) as [c|]; simpl; [|done].
    unfold TaskController.insert_stmt. rewrite Hfk.
    destruct (TaskController.refused body); [done|].
    by destruct (tasks db !! newId).
  - unfold TaskController.insert_stmt. rewrite Hfk.
    destruct (TaskController.refused body); [done|].
    by destruct (tasks db !! newId).
Qed.

(** Task update for a known caller and a task of the caller's organization,
    guard by guard. *)
Lemma task_update_run now nowIso id body t assignee :
  tasks db !! id = Some t →
  users db !! task_assigneeId t = Some assignee →
  user_organizationId assignee = org →
  TaskController.update now nowIso userId id body db =
  let assigneeMissing :=
    match TaskController.assigneeId body with
    | Some a => truthy a && bool_decide (head (TaskController.select_assignee a org db) = None)
    | None => false
    end in
  let customerMissing :=
    match orNull (nullish (TaskController.relatedCustomerId body)) with
    | Some c => bool_decide (head (TaskController.select_customer c org db) = None)
    | None => false
    end in
  if assigneeMissing then (Err (App (NotFoundError "Assignee not found")), db)
  else if customerMissing then (Err (App (NotFoundError "Customer not found")), db)
  else if decide (length (TaskController.buildUpdates body) = 0%nat)
  then (Ok (Some (TaskController.withRelations id t assignee db)), db)
  else
    match TaskController.timeSpent body ≫= (λ v, orNullZ v ≫= Database.notInteger),
          TaskController.title body ≫= Database.tooLong 255 with
    | Some reason, _ | None, Some reason => (Err (OtherError reason), db)
    | None, None =>
        let t' := foldl (TaskController.assign now) t
                    (TaskController.buildUpdates body ++ [TaskController.SetUpdatedAtNow]) in
        if TaskController.assigneeKnown t' db
        then let db' := set_tasks (insert id t') db in
             (Ok (head (TaskController.select_with_relations id db')), db')
        else (Err (OtherError "insert or update violates foreign key constraint"), db)
    end.
Proof using caller.
  intros Ht Ha Ho.
  set (unread := TaskController.timeSpent body ≫= λ v, orNullZ v ≫= Database.notInteger).
  set (fit := TaskController.title body ≫= Database.tooLong 255).
  unfold TaskController.update. ctrl. unfold select_user_organization.
  rewrite caller. simpl. fold org.
  unfold TaskController.select_existing. rewrite Ht. simpl. rewrite Ha. simpl.
  rewrite decide_True by done. simpl.
  destruct (TaskController.assigneeId body) as [a|]; simpl;
    [destruct (truthy a); simpl;
     [destruct (bool_decide (head (TaskController.select_assignee a org db) = None));
      simpl; [done|]|]|].
  all: destruct (orNull (nullish (TaskController.relatedCustomerId body))) as [c|]; simpl;
    [destruct (bool_decide (head (TaskController.select_customer c org db) = None));
     simpl; [done|]|].
  all: case_decide; simpl;
    [unfold TaskController.select_with_relations; rewrite Ht; simpl; by rewrite Ha|].
  all: unfold TaskController.update_stmt;
    rewrite task_update_unreadable, task_update_refusal, Ht.
  all: fold unread fit.
  all: destruct unread; [reflexivity|].
  all: destruct fit; [reflexivity|].
  all: by destruct (TaskController.assigneeKnown _ db).
Qed.

End TaskRuns.

(** A task update that carries a status stores that status together with the
    completion time it dictates: [now] for [COMPLETE], [NULL] otherwise,
    whatever [completedAt] the body carries. *)
Lemma task_update_completedAt_follows_status
    db now nowIso userId id body u t assignee s x db' :
  users db !! userId = Some u →
  tasks db !! id = Some t →
  users db !! task_assigneeId t = Some assignee →
  user_organizationId assignee = user_organizationId u →
  TaskController.status body = Some s →
  TaskController.update now nowIso userId id body db = (Ok x, db') →
  ∃ t', tasks db' !! id = Some t'
        ∧ task_status t' = s
        ∧ task_completedAt t' = (if decide (s = COMPLETE) then Some now else None).
Proof.
  intros Hu Ht Ha Ho Hs.
  rewrite (task_update_run db userId u Hu now nowIso id body t assignee Ht Ha Ho).
  cbv zeta.
  repeat (match goal with
          | |- (if ?c then _ else _) = _ → _ => destruct c eqn:?
          | |- match ?c with Some _ => _ | None => _ end = _ → _ => destruct c eqn:?
          end; try discriminate).
  - by destruct (task_buildUpdates_status body s Hs).
  - intros [= <- <-]. eexists. split; [apply lookup_insert_eq|].
    rewrite task_assign_status, task_assign_completedAt, Hs. simpl.
    split; [done|]. by destruct s.
Qed.

(** A task update that carries no status leaves status and completion time
    of the task as they are. *)
Lemma task_update_without_status db now nowIso userId id body u t assignee x db' :
  users db !! userId = Some u →
  tasks db !! id = Some t →
  users db !! task_assigneeId t = Some assignee →
  user_organizationId assignee = user_organizationId u →
  TaskController.status body = None →
  TaskController.update now nowIso userId id body db = (Ok x, db') →
  ∃ t', tasks db' !! id = Some t'
        ∧ task_status t' = task_status t
        ∧ task_completedAt t' = task_completedAt t.
Proof.
  intros Hu Ht Ha Ho Hs.
  rewrite (task_update_run db userId u Hu now nowIso id body t assignee Ht Ha Ho).
  cbv zeta.
  repeat (match goal with
          | |- (if ?c then _ else _) = _ → _ => destruct c eqn:?
          | |- match ?c with Some _ => _ | None => _ end = _ → _ => destruct c eqn:?
          end; try discriminate).
  - intros [= <- <-]. eauto.
  - intros [= <- <-]. eexists. split; [apply lookup_insert_eq|].
    by rewrite task_assign_status, task_assign_completedAt, Hs.
Qed.

(** A successful create stores exactly the row built from the body. *)
Lemma task_create_stores db now newId userId body x db' :
  TaskController.create now newId userId body db = (Ok x, db') →
  tasks db' !! newId = Some (TaskController.newTask now userId body).
Proof.
  destruct (users db !! userId) as [u|] eqn:Hu.
  - rewrite (task_create_run db userId u Hu). cbv zeta.
    repeat (match goal with |- match ?c with _ => _ end = _ → _ => destruct c eqn:? end;
            try discriminate).
    all: intros [= <- <-]; apply lookup_insert_eq.
  - unfold TaskController.create.
    erewrite bind_err by (by apply resolveOrganization_unknown). discriminate.
Qed.

(** Every task a create stores has the requested status (the default is
    [PENDING]) and no completion time. *)
Lemma task_create_completedAt_null db now newId userId body x db' :
  TaskController.create now newId userId body db = (Ok x, db') →
  ∃ t', tasks db' !! newId = Some t'
        ∧ task_status t' = default PENDING (TaskController.c_status body)
        ∧ task_completedAt t' = None.
Proof. intros H%task_create_stores. eauto. Qed.

(** C2. Task creation does not derive the completion time from the status:
    user [u1] creates a task with status [COMPLETE] (and nothing else but a
    title, the other fields as [createTaskSchema] fills them in); the request
    succeeds and the task stored and returned has status [COMPLETE] and a
    null [completedAt]. *)
Theorem task_create_complete_without_completedAt :
  let body := TaskController.mkCreateBody "Ship it" (Some None) (Some MEDIUM)
                (Some COMPLETE) (Some None) None (Some None) (Some None)
                (Some false) (Some None) in
  ∃ x db',
    TaskController.create 200 "t9" "u1" body Example.db = (Ok (Some x), db')
    ∧ (task_status <$> tasks db' !! "t9") = Some COMPLETE
    ∧ (task_completedAt <$> tasks db' !! "t9") = Some None
    ∧ task_status (TaskController.task x) = COMPLETE
    ∧ task_completedAt (TaskController.task x) = None.
Proof. eexists _, _. split_and!; vm_compute; reflexivity. Qed.

Section TaskGuards.

Variables (db : Db) (userId : string) (u : User).
Hypothesis caller : users db !! userId = Some u.
Let org := user_organizationId u.

(** Creation throws [NotFoundError] exactly when the assignee or the related
    customer is not found in the caller's organization. *)
Lemma task_create_not_found now newId body :
  failsNotFound (TaskController.create now newId userId body) db
  ↔ ¬ assigneeInOrg org
        (TaskController.assigneeOr (TaskController.c_assigneeId body) userId) db
    ∨ ∃ cid, orNull (nullish (TaskController.c_relatedCustomerId body)) = Some cid
             ∧ ¬ customerInOrg org cid db.
Proof using caller.
  unfold failsNotFound. rewrite (task_create_run db userId u caller). cbv zeta. fold org.
  destruct (head (TaskController.select_assignee _ org db)) as [a|] eqn:Ha.
  - assert (Hin : ¬ ¬ assigneeInOrg org
        (TaskController.assigneeOr (TaskController.c_assigneeId body) userId) db).
    { intros Hn. apply select_assignee_head in Hn. congruence. }
    destruct (orNull (nullish (TaskController.c_relatedCustomerId body))) as [cid|].
    + destruct (head (TaskController.select_customer cid org db)) as [c|] eqn:Hc.
      * split.
        -- destruct (TaskController.refused body); [|destruct (tasks db !! newId)];
             by intros [? ?].
        -- intros [?|(cid' & [= <-] & Hn)]; [done|].
           apply select_customer_head in Hn. congruence.
      * split; [|by eexists]. intros _. right. exists cid. split; [done|].
        by apply select_customer_head.
    + split.
      * destruct (TaskController.refused body); [|destruct (tasks db !! newId)];
             by intros [? ?].
      * by intros [?|(cid' & ? & _)].
  - split; [|by eexists]. intros _. left. by apply select_assignee_head.
Qed.

(** Update of a task of the caller's organization throws [NotFoundError]
    exactly when the named assignee or the related customer is not found in
    the caller's organization. *)
Lemma task_update_not_found now nowIso id body :
  taskOrganization id db = Some org →
  failsNotFound (TaskController.update now nowIso userId id body) db
  ↔ (∃ a, TaskController.assigneeId body = Some a ∧ truthy a = true
          ∧ ¬ assigneeInOrg org a db)
    ∨ ∃ cid, orNull (nullish (TaskController.relatedCustomerId body)) = Some cid
             ∧ ¬ customerInOrg org cid db.
Proof using caller.
  intros (t & assignee & Ht & Ha & Ho)%task_owner.
  unfold failsNotFound.
  rewrite (task_update_run db userId u caller now nowIso id body t assignee Ht Ha Ho).
  cbv zeta. fold org.
  destruct (TaskController.assigneeId body) as [a|];
    [destruct (truthy a) eqn:Htr; simpl;
     [case_bool_decide as Hsa; simpl|]|].
  { split; [|by eexists]. intros _. left. exists a. split_and!; [done..|].
    by apply select_assignee_head. }
  all: destruct (orNull (nullish (TaskController.relatedCustomerId body))) as [cid|];
    [case_bool_decide as Hsc; simpl|].
  all: try (split; [|by eexists]; intros _; right; exists cid; split; [done|];
            by apply select_customer_head).
  all: split;
    [repeat (match goal with
             | |- context [if ?c then _ else _] => destruct c
             | |- (match ?c with Some _ => _ | None => _ end = _ → _) ↔ _ => destruct c
             | |- (∃ _, match ?c with Some _ => _ | None => _ end = _) → _ => destruct c
             end);
     by intros [? ?]|].
  all: intros [(a' & Ha' & Htr' & Hn)|(cid' & Hc' & Hn)]; simplify_eq;
    first [ congruence
          | by apply select_assignee_head in Hn
          | by apply select_customer_head in Hn ].
Qed.

End TaskGuards.

(** A successful update that carries [relatedDealId] stores it. *)
Lemma task_update_stores_relatedDealId
    db now nowIso userId id body u t assignee v x db' :
  users db !! userId = Some u →
  tasks db !! id = Some t →
  users db !! task_assigneeId t = Some assignee →
  user_organizationId assignee = user_organizationId u →
  TaskController.relatedDealId body = Some v →
  TaskController.update now nowIso userId id body db = (Ok x, db') →
  (task_relatedDealId <$> tasks db' !! id) = Some (orNull v).
Proof.
  intros Hu Ht Ha Ho Hv.
  rewrite (task_update_run db userId u Hu now nowIso id body t assignee Ht Ha Ho).
  cbv zeta.
  repeat (match goal with
          | |- (if ?c then _ else _) = _ → _ => destruct c eqn:?
          | |- match ?c with Some _ => _ | None => _ end = _ → _ => destruct c eqn:?
          end; try discriminate).
  - by destruct (task_buildUpdates_relatedDealId body v Hv).
  - intros [= <- <-]. simpl. rewrite lookup_insert_eq. simpl.
    by rewrite task_assign_relatedDealId, Hv.
Qed.


(** C9. Task create and update never look the related deal up.  User [u1]
    of [orgA] creates a task that refers to deal [d3] of [orgB], and re-links
    its task [t1] to the id ["nope"] of no deal at all: both requests succeed
    and store the id.  In general, for a known caller, a create (and an update
    of a task of the caller's organization) throws [NotFoundError] exactly
    when the assignee or the related customer is not found in the caller's
    organization, and a request that succeeds stores the [relatedDealId] it
    was given. *)
Theorem task_relatedDealId_unchecked :
  (dealOrganization "d3" Example.db = Some "orgB"
   ∧ callerOrganization "u1" Example.db = Some "orgA"
   ∧ ∃ x db',
       TaskController.create 200 "t9" "u1" (taskRequest "d3") Example.db = (Ok x, db')
       ∧ (task_relatedDealId <$> tasks db' !! "t9") = Some (Some "d3"))
  ∧ (deals Example.db !! "nope" = None
     ∧ ∃ x db',
         TaskController.update 200 "2026-01-01T00:00:00.000Z" "u1" "t1"
           (relinkRequest "nope") Example.db = (Ok x, db')
         ∧ (task_relatedDealId <$> tasks db' !! "t1") = Some (Some "nope"))
  ∧ (∀ db userId u, users db !! userId = Some u →
     let org := user_organizationId u in
     (∀ now newId body,
        (failsNotFound (TaskController.create now newId userId body) db
         ↔ ¬ assigneeInOrg org
               (TaskController.assigneeOr (TaskController.c_assigneeId body) userId) db
           ∨ ∃ cid, orNull (nullish (TaskController.c_relatedCustomerId body)) = Some cid
                    ∧ ¬ customerInOrg org cid db)
        ∧ (∀ x db', TaskController.create now newId userId body db = (Ok x, db') →
             (task_relatedDealId <$> tasks db' !! newId)
             = Some (orNull (nullish (TaskController.c_relatedDealId body)))))
     ∧ (∀ now nowIso id body, taskOrganization id db = Some org →
        (failsNotFound (TaskController.update now nowIso userId id body) db
         ↔ (∃ a, TaskController.assigneeId body = Some a ∧ truthy a = true
                 ∧ ¬ assigneeInOrg org a db)
           ∨ ∃ cid, orNull (nullish (TaskController.relatedCustomerId body)) = Some cid
                    ∧ ¬ customerInOrg org cid db)
        ∧ (∀ x db' v,
             TaskController.update now nowIso userId id body db = (Ok x, db') →
             TaskController.relatedDealId body = Some v →
             (task_relatedDealId <$> tasks db' !! id) = Some (orNull v)))).
Proof.
  split; [|split].
  - split_and!; [vm_compute; reflexivity..|].
    eexists _, _. split; vm_compute; reflexivity.
  - split; [vm_compute; reflexivity|].
    eexists _, _. split; vm_compute; reflexivity.
  - intros db userId u Hu org. split.
    + intros now newId body. split; [by apply task_create_not_found|].
      intros x db' Hrun. by rewrite (task_create_stores _ _ _ _ _ _ _ Hrun).
    + intros now nowIso id body Hown. split; [by apply task_update_not_found|].
      intros x db' v Hrun Hv.
      apply task_owner in Hown as (t & assignee & Ht & Ha & Ho).
      exact (task_update_stores_relatedDealId db now nowIso userId id body u t assignee
               v x db' Hu Ht Ha Ho Hv Hrun).
Qed.

(** The general part at user [u1]: a create that names user [u2] of the
    other organization as assignee throws [NotFoundError]. *)
Lemma task_relatedDealId_unchecked_witness :
  failsNotFound
    (TaskController.create 200 "t9" "u1"
       (TaskController.mkCreateBody "Follow up" None None None None (Some "u2") None
          (Some (Some "d3")) None None)) Example.db.
Proof.
  apply (proj2 (proj1 (proj1 (proj2 (proj2 task_relatedDealId_unchecked) Example.db "u1"
           (mkUser "admin@acme.com" "Ann" "Admin" "orgA") eq_refl) 200 "t9" _))).
  left. intros (a & Ha & Ho). vm_compute in Ha. injection Ha as <-.
  vm_compute in Ho. discriminate.
Defined.

(** ** Paging the contact history *)

(** Consecutive windows of [limit] rows, glued together, are a prefix of the
    result set. *)
Lemma concat_windows {A} (limit n : nat) (rows : list A) :
  concat ((λ k, limitOffset limit (k * limit)%nat rows) <$> seq 0 n)
  = take (n * limit) rows.
Proof.
  induction n as [|n IH]; [done|].
  rewrite seq_S, fmap_app, concat_app, IH. simpl. rewrite app_nil_r.
  unfold limitOffset. rewrite take_take_drop. f_equal. lia.
Qed.

Lemma concat_windows_all {A} (limit n : nat) (rows : list A) :
  (length rows ≤ n * limit)%nat →
  concat ((λ k, limitOffset limit (k * limit)%nat rows) <$> seq 0 n) = rows.
Proof. intros H. rewrite concat_windows. by apply take_ge. Qed.

#[global] Instance newestFirst_trans rank :
  Transitive (ContactHistoryController.newestFirst rank).
Proof. unfold ContactHistoryController.newestFirst. intros a b c. lia. Qed.

#[global] Instance newestFirst_total rank :
  Total (ContactHistoryController.newestFirst rank).
Proof. unfold ContactHistoryController.newestFirst. intros a b. lia. Qed.

Section ContactListing.

Import ContactHistoryController.

Variables (db : Db) (organizationId : string).
Variables (customerId : option string) (type : option ContactType).

Local Abbreviation listed :=
  (ContactHistoryController.listed organizationId customerId type db).

Lemma select_ordered_Permutation rank :
  select_ordered rank organizationId customerId type db
  ≡ₚ omap listed (map_to_list (contact_history db)).
Proof. unfold select_ordered. apply merge_sort_Permutation. Qed.

Lemma listed_id r v : listed r = Some v → id v = r.1.
Proof.
  unfold ContactHistoryController.listed.
  destruct (customers db !! _); simpl; [|done].
  destruct (users db !! _); simpl; [|done].
  case_decide; [|done]. by intros [= <-].
Qed.

Lemma omap_listed_ids (rows : list (string * ContactHistory)) :
  (id <$> omap listed rows) `sublist_of` rows.*1.
Proof.
  induction rows as [|r rows IH]; simpl; [done|].
  destruct (listed r) as [v|] eqn:Hv; simpl.
  - rewrite (listed_id r v Hv). by apply sublist_skip.
  - by apply sublist_cons.
Qed.

(** The listing holds every contact entry at most once. *)
Lemma select_ordered_NoDup rank :
  NoDup (id <$> select_ordered rank organizationId customerId type db).
Proof.
  rewrite select_ordered_Permutation.
  eapply sublist_NoDup; [|apply omap_listed_ids]. apply NoDup_fst_map_to_list.
Qed.

(** The listing is in descending order of creation time. *)
Lemma select_ordered_sorted rank :
  StronglySorted (descBy (λ r, contact_createdAt (contact r)))
    (select_ordered rank organizationId customerId type db).
Proof.
  rewrite <- (list_fmap_id (select_ordered rank organizationId customerId type db)).
  eapply (StronglySorted_fmap _ (newestFirst rank)).
  - unfold newestFirst, descBy. intros a b. simpl. lia.
  - apply StronglySorted_merge_sort; apply _.
Qed.

(** The listing holds exactly the entries whose customer is a live customer
    of the organization, whose creator exists, and which pass the filters. *)
Lemma elem_of_select_ordered rank v :
  v ∈ select_ordered rank organizationId customerId type db
  ↔ ∃ ch c u,
      contact_history db !! id v = Some ch
      ∧ customers db !! contact_customerId ch = Some c
      ∧ users db !! contact_createdBy ch = Some u
      ∧ matches organizationId customerId type ch c
      ∧ v = withRelations (id v) ch c u.
Proof.
  rewrite select_ordered_Permutation, list_elem_of_omap.
  split.
  - intros ([cid ch] & Hin%elem_of_map_to_list & Hl).
    pose proof (listed_id _ _ Hl) as Hid. simpl in Hid.
    unfold ContactHistoryController.listed in Hl. simpl in Hl.
    destruct (customers db !! contact_customerId ch) as [c|] eqn:Hc; simpl in Hl; [|done].
    destruct (users db !! contact_createdBy ch) as [u|] eqn:Hu; simpl in Hl; [|done].
    case_decide; [|done]. simplify_eq. by exists ch, c, u.
  - intros (ch & c & u & Hh & Hc & Hu & Hm & Hv).
    exists (id v, ch). split; [by apply elem_of_map_to_list|].
    unfold ContactHistoryController.listed. simpl. rewrite Hc. simpl. rewrite Hu. simpl.
    rewrite decide_True by done. by rewrite <- Hv.
Qed.

(** When no two entries of the listing were created at the same instant,
    every execution lists them in the same order. *)
Lemma select_ordered_unique rank rank' :
  (∀ v w, v ∈ select_ordered rank organizationId customerId type db →
          w ∈ select_ordered rank organizationId customerId type db →
          contact_createdAt (contact v) = contact_createdAt (contact w) → v = w) →
  select_ordered rank' organizationId customerId type db
  = select_ordered rank organizationId customerId type db.
Proof.
  intros Hdistinct.
  apply (StronglySorted_unique_strong (descBy (λ r, contact_createdAt (contact r)))).
  - intros v w Hv Hw Hvw Hwv. unfold descBy in Hvw, Hwv.
    apply Hdistinct; [|done|lia].
    by rewrite select_ordered_Permutation, <- (select_ordered_Permutation rank').
  - apply select_ordered_sorted.
  - apply select_ordered_sorted.
  - by rewrite !select_ordered_Permutation.
Qed.

End ContactListing.

(** Rows with pairwise distinct keys are told apart by their keys. *)
Lemma NoDup_fmap_key {A B} (f : A → B) (l : list A) :
  NoDup (f <$> l) → ∀ v w, v ∈ l → w ∈ l → f v = f w → v = w.
Proof.
  induction l as [|x l IH]; intros Hnd v w Hv Hw Heq; [by apply elem_of_nil in Hv|].
  rewrite fmap_cons in Hnd. apply NoDup_cons in Hnd as [Hx Hnd].
  apply elem_of_cons in Hv as [->|Hv]; apply elem_of_cons in Hw as [->|Hw].
  - done.
  - destruct Hx. rewrite Heq. by apply list_elem_of_fmap_2.
  - destruct Hx. rewrite <- Heq. by apply list_elem_of_fmap_2.
  - by apply IH.
Qed.


Lemma rowCount_safe (n : nat) :
  Z.of_nat n ≤ maxSafeInteger →
  ContactHistoryController.rowCount (Some (Z.of_nat n)) = Some n.
Proof.
  intros Hn. unfold ContactHistoryController.rowCount, numberToString.
  destruct (Z.of_nat n <? 0) eqn:E0; [lia|].
  rewrite (proj2 (Z.leb_le _ _)) by done.
  rewrite (proj2 (Z.leb_le _ _))
    by (unfold maxSafeInteger, ContactHistoryController.maxBigint in *; lia).
  by rewrite Nat2Z.id.
Qed.

(** One page of the listing, for a known caller and well-formed parameters. *)
Lemma contact_getAll_run rank db userId u q t l o :
  users db !! userId = Some u →
  ContactHistoryController.typeParam (ContactHistoryController.q_type q) = inr t →
  ContactHistoryController.rowCount
    (parseInt (default "50" (ContactHistoryController.q_limit q))) = Some l →
  ContactHistoryController.rowCount
    (parseInt (default "0" (ContactHistoryController.q_offset q))) = Some o →
  ∃ meta,
    ContactHistoryController.getAll rank userId q db
    = (Ok (limitOffset l o
             (ContactHistoryController.select_ordered rank (user_organizationId u)
                (ContactHistoryController.filterParam
                   (ContactHistoryController.q_customerId q)) t db),
           meta), db).
Proof.
  intros Hu Ht Hl Ho. eexists.
  unfold ContactHistoryController.getAll. ctrl. unfold select_user_organization.
  rewrite Hu. simpl.
  unfold ContactHistoryController.select_page, ContactHistoryController.select_count.
  rewrite Ht, Hl, Ho. reflexivity.
Qed.

(** A request without [limit] and [offset] gets the first 50 rows. *)
Lemma contact_getAll_default_window rank db userId u customerId type t :
  users db !! userId = Some u →
  ContactHistoryController.typeParam type = inr t →
  ∃ meta,
    ContactHistoryController.getAll rank userId
      (ContactHistoryController.mkQuery customerId type None None) db
    = (Ok (limitOffset 50 0
             (ContactHistoryController.select_ordered rank (user_organizationId u)
                (ContactHistoryController.filterParam customerId) t db),
           meta), db).
Proof.
  intros Hu Ht.
  by apply (contact_getAll_run rank db userId u
              (ContactHistoryController.mkQuery customerId type None None) t 50 0).
Qed.

Lemma rowCount_of_nat text (n : nat) :
  parseInt text = Some (Z.of_nat n) →
  Z.of_nat n ≤ maxSafeInteger →
  ContactHistoryController.rowCount (parseInt text) = Some n.
Proof. intros -> Hmax. by apply rowCount_safe. Qed.

(** C8. Paging the contact history does not always give the listing back:
    [ORDER BY ch."createdAt" DESC] has no second key, so two pages, which are
    two executions of the statement, may order entries of the same instant
    differently.  In the example database the entries [h3] and [h4] of
    [orgA] were both created at instant 3; with page size 2, an execution
    that puts [h4] first answers offset 0 with [h5], [h4], and one that puts
    [h3] first answers offset 2 with [h4], [h2] and offset 4 with [h1]: the
    pages glued together hold [h4] twice and [h3] not at all, while the
    listing holds the five entries once each.

    What does hold, for a known caller, fixed filters, a fixed database and a
    page size [limit ≥ 1]: every page is the window of [limit] rows at its
    offset of the listing as its execution orders it; the listing of every
    execution holds exactly the entries that match the filters in the
    caller's organization, none of them twice, in descending order of
    creation time; the database is not changed; and when no two entries of
    the listing were created at the same instant, the pages of any
    executions, glued together, are the listing. *)
Theorem contact_history_pagination :
  (∃ page0 page2 page4 meta0 meta2 meta4,
     ContactHistoryController.getAll Example.h4First "u1"
       (ContactHistoryController.mkQuery None None (Some "2") (Some "0")) Example.db
     = (Ok (page0, meta0), Example.db)
     ∧ ContactHistoryController.getAll Example.h3First "u1"
         (ContactHistoryController.mkQuery None None (Some "2") (Some "2")) Example.db
       = (Ok (page2, meta2), Example.db)
     ∧ ContactHistoryController.getAll Example.h3First "u1"
         (ContactHistoryController.mkQuery None None (Some "2") (Some "4")) Example.db
       = (Ok (page4, meta4), Example.db)
     ∧ ContactHistoryController.id <$> (page0 ++ page2 ++ page4)
       = ["h5"; "h4"; "h4"; "h2"; "h1"]
     ∧ ContactHistoryController.id
         <$> ContactHistoryController.select_ordered Example.h4First "orgA" None None
               Example.db
       = ["h5"; "h4"; "h3"; "h2"; "h1"]
     ∧ ContactHistoryController.id
         <$> ContactHistoryController.select_ordered Example.h3First "orgA" None None
               Example.db
       = ["h5"; "h3"; "h4"; "h2"; "h1"]
     ∧ (contact_createdAt <$> contact_history Example.db !! "h3") = Some 3
     ∧ (contact_createdAt <$> contact_history Example.db !! "h4") = Some 3)
  ∧ (∀ db userId u customerId type t limitText (limit : nat),
       users db !! userId = Some u →
       ContactHistoryController.typeParam type = inr t →
       parseInt limitText = Some (Z.of_nat limit) →
       (0 < limit)%nat →
       Z.of_nat limit ≤ maxSafeInteger →
       let org := user_organizationId u in
       let cid := ContactHistoryController.filterParam customerId in
       let full rank := ContactHistoryController.select_ordered rank org cid t db in
       (∀ rank (k : nat) offsetText,
          parseInt offsetText = Some (Z.of_nat (k * limit)) →
          Z.of_nat (k * limit) ≤ maxSafeInteger →
          ∃ meta,
            ContactHistoryController.getAll rank userId
              (ContactHistoryController.mkQuery customerId type (Some limitText)
                 (Some offsetText)) db
            = (Ok (limitOffset limit (k * limit) (full rank), meta), db))
       ∧ (∀ rank,
            NoDup (ContactHistoryController.id <$> full rank)
            ∧ StronglySorted
                (descBy (λ r, contact_createdAt (ContactHistoryController.contact r)))
                (full rank)
            ∧ ∀ v, v ∈ full rank ↔
                ∃ ch c creator,
                  contact_history db !! ContactHistoryController.id v = Some ch
                  ∧ customers db !! contact_customerId ch = Some c
                  ∧ users db !! contact_createdBy ch = Some creator
                  ∧ ContactHistoryController.matches org cid t ch c
                  ∧ v = ContactHistoryController.withRelations
                          (ContactHistoryController.id v) ch c creator)
       ∧ (∀ rank,
            (∀ v w, v ∈ full rank → w ∈ full rank →
                    contact_createdAt (ContactHistoryController.contact v)
                    = contact_createdAt (ContactHistoryController.contact w) → v = w) →
            ∀ (ranks : nat → string → Z) (n : nat),
              (length (full rank) ≤ n * limit)%nat →
              concat ((λ k, limitOffset limit (k * limit)%nat (full (ranks k))) <$> seq 0 n)
              = full rank)).
Proof.
  split.
  - eexists _, _, _, _, _, _. split_and!; vm_compute; reflexivity.
  - intros db userId u customerId type t limitText limit Hu Ht Hlimit Hpos Hmax org cid full.
    split_and!.
    + intros rank k offsetText Hoffset Hkmax.
      apply (contact_getAll_run rank db userId u
               (ContactHistoryController.mkQuery customerId type (Some limitText)
                  (Some offsetText)) t limit (k * limit)); [done..| |];
        by apply rowCount_of_nat.
    + intros rank. split_and!.
      * apply select_ordered_NoDup.
      * apply select_ordered_sorted.
      * apply elem_of_select_ordered.
    + intros rank Hdistinct ranks n Hn.
      transitivity (concat ((λ k, limitOffset limit (k * limit)%nat (full rank))
                              <$> seq 0 n)); [|by apply concat_windows_all].
      f_equal. apply list_fmap_ext. intros _ k _. simpl.
      unfold full. by rewrite (select_ordered_unique db org cid t rank (ranks k)).
Qed.

(** The four entries of customer [c1] were created at four instants: in
    pages of two, whatever the executions, they come back once each, newest
    first. *)
Lemma contact_history_pagination_witness :
  ∃ page0 page2 meta0 meta2,
    ContactHistoryController.getAll Example.h4First "u1"
      (ContactHistoryController.mkQuery (Some "c1") None (Some "2") (Some "0")) Example.db
    = (Ok (page0, meta0), Example.db)
    ∧ ContactHistoryController.getAll Example.h3First "u1"
        (ContactHistoryController.mkQuery (Some "c1") None (Some "2") (Some "2")) Example.db
      = (Ok (page2, meta2), Example.db)
    ∧ page0 ++ page2
      = ContactHistoryController.select_ordered Example.h4First "orgA" (Some "c1") None
          Example.db
    ∧ ContactHistoryController.id <$> (page0 ++ page2) = ["h5"; "h4"; "h2"; "h1"].
Proof.
  destruct (proj2 contact_history_pagination Example.db "u1"
              (mkUser "admin@acme.com" "Ann" "Admin" "orgA") (Some "c1") None None "2" 2%nat)
    as (Hpage & _ & Hconcat).
  - vm_compute. reflexivity.
  - vm_compute. reflexivity.
  - vm_compute. reflexivity.
  - lia.
  - vm_compute. discriminate.
  - destruct (Hpage Example.h4First 0%nat "0") as [meta0 H0];
      [vm_compute; reflexivity|vm_compute; discriminate|].
    destruct (Hpage Example.h3First 1%nat "2") as [meta2 H2];
      [vm_compute; reflexivity|vm_compute; discriminate|].
    eexists _, _, meta0, meta2.
    split; [exact H0|]. split; [exact H2|].
    assert (Hc := Hconcat Example.h4First).
    split.
    + assert (Hdistinct : NoDup
                ((λ v, contact_createdAt (ContactHistoryController.contact v))
                   <$> ContactHistoryController.select_ordered Example.h4First "orgA"
                         (Some "c1") None Example.db))
        by (apply (bool_decide_unpack _); vm_compute; reflexivity).
      specialize (Hc (NoDup_fmap_key _ _ Hdistinct)
                     (λ k, if Nat.eqb k 0 then Example.h4First else Example.h3First)
                     2%nat).
      change (seq 0 2) with [0; 1]%nat in Hc.
      rewrite !fmap_cons, fmap_nil in Hc. cbn [concat Nat.eqb] in Hc.
      rewrite app_nil_r in Hc. apply Hc. vm_compute. lia.
    + vm_compute. reflexivity.
Defined.
(** * Further properties of the controllers and of the database layer *)

(** ** The parser of [TEXT[]] values *)

(** The parser inverts the text form of an array whose elements are not
    empty and hold no comma: [{value1,value2}] comes back as the list of
    its values, and [{}] as the empty list. *)
Theorem parseTextArray_arrayText (elements : list string) :
  Forall (λ e, truthy e = true ∧ hasChar "," e = false) elements →
  Database.parseTextArray (arrayText elements) = elements.
Proof.
  intros Hall. destruct elements as [|x xs]; [done|].
  unfold arrayText. by apply parseTextArray_braces.
Qed.

Lemma parseTextArray_arrayText_witness :
  Database.parseTextArray (arrayText ["vip"; "lead"]) = ["vip"; "lead"].
Proof.
  apply parseTextArray_arrayText. repeat constructor.
Defined.

(** Whatever the text, no value the parser returns is empty or holds a
    comma: an empty element is dropped, and an element with a comma in it
    is never returned in one piece. *)
Theorem parseTextArray_pieces (val x : string) :
  x ∈ Database.parseTextArray val → truthy x = true ∧ hasChar "," x = false.
Proof.
  unfold Database.parseTextArray.
  destruct (negb (truthy val)); [by intros ?%elem_of_nil|].
  destruct (String.eqb val "{}"); [by intros ?%elem_of_nil|].
  intros [Ht Hin]%list_elem_of_filter. split; [done|].
  pose proof (split_pieces ","%char (Database.slice_1_minus1 val)) as Hall.
  rewrite Forall_forall in Hall. by apply Hall.
Qed.

Lemma parseTextArray_pieces_witness :
  "a" ∈ Database.parseTextArray "{a,,b}"
  ∧ truthy "a" = true ∧ hasChar "," "a" = false.
Proof.
  assert (Hin : "a" ∈ Database.parseTextArray "{a,,b}") by (vm_compute; left).
  split; [exact Hin|]. exact (parseTextArray_pieces _ _ Hin).
Defined.

(** ** The customer guard shared by the controllers *)

Lemma customer_guard_head select org cid db :
  select = TaskController.select_customer ∨ select = DealController.select_customer
  ∨ select = ContactHistoryController.select_customer →
  head (select cid org db)
  = match customers db !! cid with
    | Some c => if decide (CustomerController.visibleIn org c) then Some cid else None
    | None => None
    end.
Proof.
  intros [->|[->| ->]];
    unfold TaskController.select_customer, DealController.select_customer,
      ContactHistoryController.select_customer, CustomerController.select_by_id;
    (destruct (customers db !! cid); [by case_decide|done]).
Qed.

(** ** Customers: creation, listing, update *)

Lemma filter_is_nil {A} (P : A → Prop) `{!∀ x, Decision (P x)} (l : list A) :
  filter P l = [] ↔ ∀ x, x ∈ l → ¬ P x.
Proof.
  split.
  - intros Hnil x Hx HP. by eapply filter_nil_not_elem_of.
  - intros Hall. destruct (filter P l) as [|y ys] eqn:Hf; [done|].
    assert (y ∈ filter P l) as [HP Hin]%list_elem_of_filter by (rewrite Hf; left).
    by destruct (Hall y Hin).
Qed.

Lemma customer_getById_run db userId u id :
  users db !! userId = Some u →
  CustomerController.getById userId id db
  = match customers db !! id with
    | Some c =>
        if decide (CustomerController.visibleIn (user_organizationId u) c)
        then (Ok (id, CustomerController.parsed c), db)
        else (Err (App (NotFoundError "Customer not found")), db)
    | None => (Err (App (NotFoundError "Customer not found")), db)
    end.
Proof.
  intros Hu. unfold CustomerController.getById. ctrl.
  unfold select_user_organization. rewrite Hu. simpl.
  unfold CustomerController.select_by_id.
  destruct (customers db !! id) as [c|]; [|done].
  by case_decide.
Qed.

Lemma customer_getAll_run db userId u :
  users db !! userId = Some u →
  CustomerController.getAll userId db
  = (Ok (CustomerController.select_all (user_organizationId u) db), db).
Proof.
  intros Hu. unfold CustomerController.getAll. ctrl.
  unfold select_user_organization. by rewrite Hu.
Qed.

(** The email check of creation finds nothing exactly when no customer the
    organization can see holds the email. *)
Lemma head_select_by_email email org db :
  head (CustomerController.select_by_email email org db) = None
  ↔ ∀ id c, customers db !! id = Some c → CustomerController.visibleIn org c →
            customer_email c ≠ email.
Proof.
  rewrite head_is_None. unfold CustomerController.select_by_email.
  split.
  - intros Hall%fmap_nil_inv id c Hc Hv He. rewrite filter_is_nil in Hall.
    apply (Hall (id, c)); [by apply elem_of_map_to_list|done].
  - intros Hall.
    assert (filter (λ r : string * Customer, customer_email r.2 = email
                      ∧ CustomerController.visibleIn org r.2)
              (map_to_list (customers db)) = []) as ->; [|done].
    apply filter_is_nil. intros [id c] Hin%elem_of_map_to_list [He Hv]. by eapply Hall.
Qed.

Lemma emailOrPhoneTaken_false new db :
  CustomerController.emailOrPhoneTaken new db = false
  ↔ ∀ id c, customers db !! id = Some c →
            customer_email c ≠ customer_email new ∧ customer_phone c ≠ customer_phone new.
Proof.
  unfold CustomerController.emailOrPhoneTaken.
  rewrite bool_decide_eq_false, <- Forall_Exists_neg, Forall_forall. split.
  - intros Hall id c Hc. specialize (Hall (id, c)). simpl in Hall.
    apply elem_of_map_to_list in Hc. specialize (Hall Hc). tauto.
  - intros Hall [id c] Hin%elem_of_map_to_list. specialize (Hall id c Hin). simpl. tauto.
Qed.

(** Customer creation for a known caller, guard by guard. *)
Lemma customer_create_run db now newId userId body u :
  users db !! userId = Some u →
  let org := user_organizationId u in
  let row := CustomerController.newCustomer now userId org body in
  CustomerController.create now newId userId body db
  = match head (CustomerController.select_by_email
                  (toLowerCase (CustomerController.c_email body)) org db) with
    | Some _ => (Err (App (ValidationError "Customer with this email already exists")), db)
    | None =>
        match CustomerController.refused body with
        | Some reason => (Err (OtherError reason), db)
        | None =>
            match customers db !! newId with
            | Some _ =>
                (Err (OtherError "duplicate key value violates unique constraint"), db)
            | None =>
                if CustomerController.emailOrPhoneTaken row db
                then (Err (OtherError "duplicate key value violates unique constraint"), db)
                else if bool_decide (is_Some (organizations db !! org))
                then (Ok (Some (newId, CustomerController.parsed row)),
                      set_customers (insert newId row) db)
                else (Err (OtherError "insert or update violates foreign key constraint"),
                      db)
            end
        end
    end.
Proof.
  intros Hu org row. unfold CustomerController.create. ctrl.
  unfold select_user_organization. rewrite Hu. simpl. fold org.
  destruct (head (CustomerController.select_by_email _ org db)); [done|].
  unfold CustomerController.insert_stmt. fold row.
  destruct (CustomerController.refused body); [done|].
  destruct (customers db !! newId); [done|].
  destruct (CustomerController.emailOrPhoneTaken row db); [done|].
  simpl. rewrite Hu. rewrite (bool_decide_eq_true_2 (is_Some (Some u))) by eauto.
  rewrite andb_true_r.
  by destruct (bool_decide (is_Some (organizations db !! org))).
Qed.





(** For a known caller, creation throws the [ValidationError] of a taken
    email exactly when a customer of the caller's organization that is not
    deleted already holds the email, compared in lower case; nothing is
    written then. *)
Theorem customer_create_duplicate_email db now newId userId body u :
  users db !! userId = Some u →
  CustomerController.create now newId userId body db
  = (Err (App (ValidationError "Customer with this email already exists")), db)
  ↔ ∃ id c, customers db !! id = Some c
            ∧ CustomerController.visibleIn (user_organizationId u) c
            ∧ customer_email c = toLowerCase (CustomerController.c_email body).
Proof.
  intros Hu. rewrite (customer_create_run db now newId userId body u Hu). cbv zeta.
  destruct (head (CustomerController.select_by_email _ _ db)) as [id|] eqn:Hh.
  - split; [intros _|done].
    apply head_Some_elem_of in Hh. unfold CustomerController.select_by_email in Hh.
    apply list_elem_of_fmap in Hh as ([id' c] & -> & [[He Hv] Hin%elem_of_map_to_list]%list_elem_of_filter).
    by exists id', c.
  - split.
    + destruct (CustomerController.refused body); [done|].
      destruct (customers db !! newId); [done|].
      destruct (CustomerController.emailOrPhoneTaken _ db); [done|].
      by destruct (bool_decide _).
    + intros (id & c & Hc & Hv & He).
      eapply head_select_by_email in Hh; [|exact Hc|exact Hv]. done.
Qed.

Lemma customer_create_duplicate_email_witness :
  CustomerController.create 200 "c9" "u1"
    (CustomerController.mkCreateBody "Al" "Doe" "JOHN@x.com" "+9" None None None)
    Example.db
  = (Err (App (ValidationError "Customer with this email already exists")), Example.db).
Proof.
  apply (customer_create_duplicate_email Example.db 200 "c9" "u1" _
           (mkUser "admin@acme.com" "Ann" "Admin" "orgA")); [reflexivity|].
  exists "c1", (Example.customerOf "John" "john@x.com" "+1" "orgA" "u1" 10).
  repeat split.
Defined.

(** The email check of creation looks only at the customers the caller's
    organization can see, the unique index at the whole table: when the
    email is held only by customers of other organizations or by deleted
    ones, the check passes and the [INSERT] is refused by the database, by
    the first column that does not take its value if there is one and by the
    unique index otherwise; the caller gets an error that is not an
    [AppError], and nothing is written. *)
Theorem customer_create_email_held_elsewhere db now newId userId body u id c :
  users db !! userId = Some u →
  customers db !! id = Some c →
  customer_email c
  = Database.varchar 255 (toLowerCase (CustomerController.c_email body)) →
  (∀ id' c', customers db !! id' = Some c' →
             CustomerController.visibleIn (user_organizationId u) c' →
             customer_email c' ≠ toLowerCase (CustomerController.c_email body)) →
  CustomerController.create now newId userId body db
  = (Err (OtherError (default "duplicate key value violates unique constraint"
                        (CustomerController.refused body))), db).
Proof.
  intros Hu Hc He Hfree.
  rewrite (customer_create_run db now newId userId body u Hu). cbv zeta.
  assert (head (CustomerController.select_by_email
            (toLowerCase (CustomerController.c_email body)) (user_organizationId u) db)
          = None) as -> by by apply head_select_by_email.
  destruct (CustomerController.refused body); [done|]. simpl.
  destruct (customers db !! newId); [done|].
  destruct (CustomerController.emailOrPhoneTaken _ db) eqn:Ht; [done|].
  by destruct (proj1 (emailOrPhoneTaken_false _ _) Ht id c Hc).
Qed.

Lemma customer_create_email_held_elsewhere_witness :
  customerOrganization "c3" Example.db = Some "orgB"
  ∧ CustomerController.create 200 "c9" "u1"
      (CustomerController.mkCreateBody "Al" "Doe" "jack@y.com" "+9" None None None)
      Example.db
    = (Err (OtherError "duplicate key value violates unique constraint"), Example.db).
Proof.
  split; [reflexivity|].
  rewrite (customer_create_email_held_elsewhere Example.db 200 "c9" "u1" _
             (mkUser "admin@acme.com" "Ann" "Admin" "orgA") "c3"
             (Example.customerOf "Jack" "jack@y.com" "+3" "orgB" "u2" 30));
    [reflexivity|reflexivity|reflexivity|reflexivity|].
  intros id' c' Hc' Hv. apply elem_of_map_to_list in Hc'.
  vm_compute in Hc'.
  repeat (apply elem_of_cons in Hc' as [Hc'|Hc']; [injection Hc' as -> ->; first [by vm_compute | by destruct Hv]|]).
  by apply elem_of_nil in Hc'.
Defined.

(** The listing of customers for a known caller: each customer once, newest
    first, and a row is listed exactly when the caller reads it by its id. *)
Theorem customer_getAll_lists_readable db userId u :
  users db !! userId = Some u →
  ∃ rows,
    CustomerController.getAll userId db = (Ok rows, db)
    ∧ NoDup rows.*1
    ∧ StronglySorted (descBy (λ r, customer_createdAt r.2)) rows
    ∧ (∀ id c, (id, c) ∈ rows
               ↔ CustomerController.getById userId id db = (Ok (id, c), db)).
Proof.
  intros Hu. exists (CustomerController.select_all (user_organizationId u) db).
  split_and!.
  - by apply customer_getAll_run.
  - unfold CustomerController.select_all, orderByDesc.
    rewrite <- list_fmap_compose.
    change (fst ∘ CustomerController.received) with (@fst string Customer).
    rewrite merge_sort_Permutation.
    eapply sublist_NoDup; [|apply fmap_sublist, sublist_filter].
    apply NoDup_fst_map_to_list.
  - unfold CustomerController.select_all.
    eapply StronglySorted_fmap; [|apply (StronglySorted_merge_sort _)].
    by intros x y.
  - intros id c. rewrite elem_of_customer_select_all.
    rewrite (customer_getById_run db userId u id Hu).
    destruct (customers db !! id) as [c'|]; [|split; [by intros (? & ? & _)|done]].
    case_decide as Hv; split.
    + intros (stored & Heq & _ & Hc). by simplify_eq.
    + intros [= <-]. by exists c'.
    + intros (stored & Heq & ? & _). by simplify_eq.
    + done.
Qed.

Lemma customer_getAll_lists_readable_witness :
  ∃ rows,
    CustomerController.getAll "u1" Example.db = (Ok rows, Example.db)
    ∧ rows.*1 = ["c2"; "c1"].
Proof.
  destruct (customer_getAll_lists_readable Example.db "u1"
              (mkUser "admin@acme.com" "Ann" "Admin" "orgA") eq_refl)
    as (rows & Hrun & _).
  exists rows. split; [exact Hrun|].
  vm_compute in Hrun. injection Hrun as <-. reflexivity.
Defined.

Lemma customer_assign_frame now c updates :
  let c' := foldl (CustomerController.assign now) c updates in
  customer_organizationId c' = customer_organizationId c
  ∧ customer_createdBy c' = customer_createdBy c
  ∧ customer_createdAt c' = customer_createdAt c
  ∧ customer_deletedAt c' = customer_deletedAt c.
Proof.
  revert c. induction updates as [|a l IH]; intros c; [done|].
  simpl. destruct (IH (CustomerController.assign now c a)) as (-> & -> & -> & ->).
  by destruct a.
Qed.

Lemma customer_assign_fields now c body :
  let c' := foldl (CustomerController.assign now) c
              (CustomerController.buildUpdates body ++ [CustomerController.SetUpdatedAtNow]) in
  customer_firstName c'
  = default (customer_firstName c)
      (Database.varchar 100 <$> CustomerController.firstName body)
  ∧ customer_lastName c'
    = default (customer_lastName c)
        (Database.varchar 100 <$> CustomerController.lastName body)
  ∧ customer_email c'
    = default (customer_email c)
        (Database.varchar 255 ∘ toLowerCase <$> CustomerController.email body)
  ∧ customer_phone c'
    = default (customer_phone c) (Database.varchar 20 <$> CustomerController.phone body)
  ∧ customer_company c'
    = default (customer_company c)
        (fmap (Database.varchar 200) ∘ orNull <$> CustomerController.company body)
  ∧ customer_tags c' = default (customer_tags c) (CustomerController.tags body)
  ∧ customer_customFields c'
    = default (customer_customFields c) (CustomerController.customFields body)
  ∧ customer_updatedAt c' = now.
Proof.
  destruct body as [[?|] [?|] [?|] [?|] [?|] [?|] [?|]]; done.
Qed.

(** What a customer update can do: fail without a write, answer with the
    stored row when the body carries no field, or rewrite the one row. *)
Lemma customer_update_inv now userId id body db r db' :
  CustomerController.update now userId id body db = (r, db') →
  (∃ e, r = Err e ∧ db' = db)
  ∨ (∃ u c, users db !! userId = Some u
       ∧ customers db !! id = Some c
       ∧ CustomerController.visibleIn (user_organizationId u) c
       ∧ ((r = Ok (Some (id, CustomerController.parsed c)) ∧ db' = db
           ∧ CustomerController.buildUpdates body = [])
          ∨ (let c' := foldl (CustomerController.assign now) c
                         (CustomerController.buildUpdates body
                          ++ [CustomerController.SetUpdatedAtNow]) in
             r = Ok (Some (id, CustomerController.parsed c'))
             ∧ db' = set_customers (insert id c') db
             ∧ CustomerController.buildUpdates body ≠ []))).
Proof.
  unfold CustomerController.update. ctrl. unfold select_user_organization.
  destruct (users db !! userId) as [u|] eqn:Hu; simpl; [|intros [= <- <-]; eauto].
  unfold CustomerController.select_by_id.
  destruct (customers db !! id) as [c|] eqn:Hc; simpl; [|intros [= <- <-]; eauto].
  case_decide as Hv; simpl; [|intros [= <- <-]; eauto].
  destruct (CustomerController.email body) as [e|] eqn:He;
    [destruct (truthy e && negb (String.eqb (toLowerCase e) (customer_email c))) eqn:Hchk;
     [destruct (bool_decide (is_Some (head (CustomerController.select_email_taken
                  (toLowerCase e) (user_organizationId u) id db)))) eqn:Htaken; simpl;
      [intros [= <- <-]; eauto|]|]|].
  all: case_decide as Hlen; simpl;
    [unfold CustomerController.select_unscoped; rewrite Hc; simpl
    |unfold CustomerController.update_stmt; rewrite Hc; simpl;
     rewrite decide_True by done;
     destruct (Database.firstRefusal _); simpl; [intros [= <- <-]; eauto|];
     destruct (CustomerController.violatesUnique _ _ _ _); simpl;
       [intros [= <- <-]; eauto|]].
  all: intros [= <- <-]; right; exists u, c; split_and!; try done.
  all: first [ left; split_and!; [done|done|by apply nil_length_inv]
             | right; split_and!; [done|done|by intros Heq; rewrite Heq in Hlen] ].
Qed.

(** A successful customer update stores a row that keeps its organization,
    creator, creation time and deletion mark; every field the body carries
    is stored as its column takes it (a text cut to the length of its
    column, which drops nothing but blanks when the update succeeds), the
    email in lower case and an empty company as [NULL]; every other field
    and every other row stay as they were; the caller gets from get-by-id
    the answer the update gave. *)
Theorem customer_update_stores db now userId id body x db' :
  CustomerController.update now userId id body db = (Ok x, db') →
  ∃ c c' shown,
    customers db !! id = Some c
    ∧ customers db' !! id = Some c'
    ∧ customer_organizationId c' = customer_organizationId c
    ∧ customer_createdBy c' = customer_createdBy c
    ∧ customer_createdAt c' = customer_createdAt c
    ∧ customer_deletedAt c' = None
    ∧ customer_firstName c'
      = default (customer_firstName c)
          (Database.varchar 100 <$> CustomerController.firstName body)
    ∧ customer_lastName c'
      = default (customer_lastName c)
          (Database.varchar 100 <$> CustomerController.lastName body)
    ∧ customer_email c'
      = default (customer_email c)
          (Database.varchar 255 ∘ toLowerCase <$> CustomerController.email body)
    ∧ customer_phone c'
      = default (customer_phone c) (Database.varchar 20 <$> CustomerController.phone body)
    ∧ customer_company c'
      = default (customer_company c)
          (fmap (Database.varchar 200) ∘ orNull <$> CustomerController.company body)
    ∧ customer_tags c' = default (customer_tags c) (CustomerController.tags body)
    ∧ customer_customFields c'
      = default (customer_customFields c) (CustomerController.customFields body)
    ∧ (∀ id', id' ≠ id → customers db' !! id' = customers db !! id')
    ∧ x = Some shown
    ∧ shown.1 = id
    ∧ CustomerController.getById userId id db' = (Ok shown, db').
Proof.
  intros [(e & [=] & _)|(u & c & Hu & Hc & Hv & Hcase)]%customer_update_inv.
  destruct Hcase as [([= ->] & -> & Hnil)|Hcase].
  - exists c, c, (id, CustomerController.parsed c). destruct Hv as [Ho Hd].
    assert (Hb : body = CustomerController.mkUpdateBody None None None None None None None).
    { destruct body as [[?|] [?|] [?|] [?|] [?|] [?|] [?|]]; by simplify_eq/=. }
    subst body. split_and!; try done.
    rewrite (customer_getById_run db userId u id Hu), Hc. by rewrite decide_True.
  - cbv zeta in Hcase. destruct Hcase as ([= ->] & -> & _).
    eexists c, _, (id, _). split; [done|]. split; [apply lookup_insert_eq|].
    destruct (customer_assign_frame now c
                (CustomerController.buildUpdates body ++ [CustomerController.SetUpdatedAtNow]))
      as (Ho' & Hb' & Ha' & Hd').
    destruct (customer_assign_fields now c body) as (? & ? & ? & ? & ? & ? & ? & ?).
    destruct Hv as [Ho Hd].
    split_and!; try done.
    + congruence.
    + intros id' Hne. simpl. by rewrite lookup_insert_ne.
    + rewrite (customer_getById_run _ userId u id) by done. simpl.
      rewrite lookup_insert_eq. rewrite decide_True; [done|].
      split; congruence.
Qed.

Lemma customer_update_stores_witness :
  ∃ x db',
    CustomerController.update 200 "u1" "c1"
      (CustomerController.mkUpdateBody None None (Some "John@Acme.com") None
         (Some (Some "")) None None) Example.db
    = (Ok x, db')
    ∧ (customer_email <$> customers db' !! "c1") = Some "john@acme.com"
    ∧ (customer_company <$> customers db' !! "c1") = Some None
    ∧ (customer_organizationId <$> customers db' !! "c1") = Some "orgA".
Proof.
  destruct (CustomerController.update 200 "u1" "c1"
      (CustomerController.mkUpdateBody None None (Some "John@Acme.com") None
         (Some (Some "")) None None) Example.db) as [[x|e] db'] eqn:Hrun;
    [|by vm_compute in Hrun].
  exists x, db'. split; [reflexivity|].
  destruct (customer_update_stores _ _ _ _ _ _ _ Hrun)
    as (c & c' & shown & Hc & Hc' & Ho & _ & _ & _ & _ & _ & He & _ & Hco & _).
  vm_compute in Hc. injection Hc as <-.
  rewrite Hc'. simpl. rewrite He, Hco, Ho. repeat split.
Defined.

Lemma head_select_email_taken email org id db :
  is_Some (head (CustomerController.select_email_taken email org id db))
  ↔ ∃ id' c', id' ≠ id ∧ customers db !! id' = Some c'
              ∧ CustomerController.visibleIn org c' ∧ customer_email c' = email.
Proof.
  unfold CustomerController.select_email_taken. split.
  - intros [x Hx]. apply head_Some_elem_of in Hx.
    apply list_elem_of_fmap in Hx
      as ([id' c'] & -> & [(He & Hv & Hne) Hin%elem_of_map_to_list]%list_elem_of_filter).
    by exists id', c'.
  - intros (id' & c' & Hne & Hc' & Hv & He).
    apply head_is_Some. intros Hnil%fmap_nil_inv.
    rewrite filter_is_nil in Hnil.
    apply (Hnil (id', c')); [by apply elem_of_map_to_list|done].
Qed.

(** For a known caller and a customer the caller can see, an update that
    carries an email throws the [ValidationError] of a taken email exactly
    when the email is not empty, differs in lower case from the stored one,
    and is held by another customer the organization can see; nothing is
    written then. *)
Theorem customer_update_email_taken db now userId id body u c e :
  users db !! userId = Some u →
  customers db !! id = Some c →
  CustomerController.visibleIn (user_organizationId u) c →
  CustomerController.email body = Some e →
  CustomerController.update now userId id body db
  = (Err (App (ValidationError "Customer with this email already exists")), db)
  ↔ truthy e = true
    ∧ toLowerCase e ≠ customer_email c
    ∧ ∃ id' c', id' ≠ id ∧ customers db !! id' = Some c'
                ∧ CustomerController.visibleIn (user_organizationId u) c'
                ∧ customer_email c' = toLowerCase e.
Proof.
  intros Hu Hc Hv He.
  rewrite <- head_select_email_taken.
  unfold CustomerController.update. ctrl. unfold select_user_organization.
  rewrite Hu. simpl. unfold CustomerController.select_by_id. rewrite Hc.
  rewrite decide_True by done. simpl. rewrite He.
  assert (Hlen : length (CustomerController.buildUpdates body) ≠ 0%nat).
  { unfold CustomerController.buildUpdates. rewrite He. rewrite !length_app. simpl. lia. }
  destruct (truthy e) eqn:Ht; simpl.
  - destruct (String.eqb_spec (toLowerCase e) (customer_email c)) as [Heq|Hne]; simpl.
    + rewrite decide_False by done.
      unfold CustomerController.update_stmt. rewrite Hc. rewrite decide_True by done.
      simpl. split; [|by intros (_ & ? & _)].
      destruct (Database.firstRefusal _); [done|].
      by destruct (CustomerController.violatesUnique _ _ _ _).
    + case_bool_decide as Htaken; simpl.
      * done.
      * rewrite decide_False by done.
        unfold CustomerController.update_stmt. rewrite Hc. rewrite decide_True by done.
        simpl. split; [|by intros (_ & _ & ?)].
        destruct (Database.firstRefusal _); [done|].
      by destruct (CustomerController.violatesUnique _ _ _ _).
  - rewrite decide_False by done.
    unfold CustomerController.update_stmt. rewrite Hc. rewrite decide_True by done.
    simpl. split; [|by intros (? & _)].
    destruct (Database.firstRefusal _); [done|].
      by destruct (CustomerController.violatesUnique _ _ _ _).
Qed.

Lemma customer_update_email_taken_witness :
  CustomerController.update 200 "u1" "c1"
    (CustomerController.mkUpdateBody None None (Some "Jane@X.com") None None None None)
    Example.db
  = (Err (App (ValidationError "Customer with this email already exists")), Example.db).
Proof.
  apply (customer_update_email_taken Example.db 200 "u1" "c1" _
           (mkUser "admin@acme.com" "Ann" "Admin" "orgA")
           (Example.customerOf "John" "john@x.com" "+1" "orgA" "u1" 10) "Jane@X.com");
    [reflexivity|reflexivity|by vm_compute|reflexivity|].
  split; [reflexivity|]. split; [by vm_compute|].
  exists "c2", (Example.customerOf "Jane" "jane@x.com" "+2" "orgA" "u1" 20).
  by vm_compute.
Defined.

(** A customer that carries a deletion mark is gone for every method and
    every caller: reading, updating and deleting it throw [NotFoundError]
    and write nothing, so a second delete does not move the mark. *)
Theorem customer_deleted_is_gone db id c :
  customers db !! id = Some c →
  customer_deletedAt c ≠ None →
  ∀ userId,
    failsNotFoundAs "Customer not found" (CustomerController.getById userId id) db
    ∧ (∀ now body, failsNotFoundAs "Customer not found"
         (CustomerController.update now userId id body) db)
    ∧ (∀ now, failsNotFoundAs "Customer not found"
         (CustomerController.delete now userId id) db).
Proof.
  intros Hc Hd userId. unfold failsNotFoundAs.
  destruct (users db !! userId) as [u|] eqn:Hu.
  - assert (Hsel : ∀ org, CustomerController.select_by_id id org db = []).
    { intros org. unfold CustomerController.select_by_id. rewrite Hc.
      rewrite decide_False; [done|]. by intros [_ ?]. }
    split_and!; [|intros now body|intros now]; right.
    + unfold CustomerController.getById. ctrl. unfold select_user_organization.
      rewrite Hu. simpl. by rewrite Hsel.
    + unfold CustomerController.update. ctrl. unfold select_user_organization.
      rewrite Hu. simpl. by rewrite Hsel.
    + unfold CustomerController.delete. ctrl. unfold select_user_organization.
      rewrite Hu. simpl. unfold CustomerController.soft_delete_stmt. rewrite Hc.
      rewrite decide_False; [done|]. by intros [_ ?].
  - split_and!; [|intros now body|intros now]; left.
    + unfold CustomerController.getById.
      by rewrite (bind_err _ _ _ _ _ (resolveOrganization_unknown _ _ Hu)).
    + unfold CustomerController.update.
      by rewrite (bind_err _ _ _ _ _ (resolveOrganization_unknown _ _ Hu)).
    + unfold CustomerController.delete.
      by rewrite (bind_err _ _ _ _ _ (resolveOrganization_unknown _ _ Hu)).
Qed.

Lemma customer_deleted_is_gone_witness :
  ∃ db',
    CustomerController.delete 200 "u1" "c1" Example.db
    = (Ok "Customer deleted successfully", db')
    ∧ failsNotFoundAs "Customer not found" (CustomerController.delete 300 "u1" "c1") db'.
Proof.
  eexists. split; [reflexivity|].
  eapply (customer_deleted_is_gone _ "c1"); [reflexivity|done].
Defined.

(** ** Deals: creation, listing, update, deletion *)

Lemma deal_getById_run db userId u id :
  users db !! userId = Some u →
  DealController.getById userId id db
  = match head (DealController.select_by_id id (user_organizationId u) db) with
    | Some v => (Ok v, db)
    | None => (Err (App (NotFoundError "Deal not found")), db)
    end.
Proof.
  intros Hu. unfold DealController.getById. ctrl.
  unfold select_user_organization. rewrite Hu. simpl.
  by destruct (head _).
Qed.

Lemma deal_getAll_run db userId u q :
  users db !! userId = Some u →
  DealController.getAll userId q db
  = (Ok (DealController.select_all (user_organizationId u) q db), db).
Proof.
  intros Hu. unfold DealController.getAll. ctrl.
  unfold select_user_organization. by rewrite Hu.
Qed.

(** The row of a deal in the listing: the joins find its customer, owner,
    pipeline and organization, and the filter accepts it. *)
Lemma elem_of_deal_select_all org q db v :
  v ∈ DealController.select_all org q db
  ↔ ∃ d c u p,
      deals db !! DealController.id v = Some d
      ∧ customers db !! deal_customerId d = Some c
      ∧ users db !! deal_ownerId d = Some u
      ∧ pipelines db !! deal_pipelineId d = Some p
      ∧ is_Some (organizations db !! customer_organizationId c)
      ∧ DealController.matches org q d c
      ∧ v = DealController.withRelations (DealController.id v) d c u p.
Proof.
  unfold DealController.select_all. rewrite elem_of_orderByDesc, list_elem_of_omap.
  unfold DealController.listed. split.
  - intros ([id d] & Hin%elem_of_map_to_list & Hl). simpl in Hl.
    destruct (customers db !! deal_customerId d) as [c|] eqn:Hc; simpl in Hl; [|done].
    destruct (users db !! deal_ownerId d) as [u|] eqn:Hu; simpl in Hl; [|done].
    destruct (pipelines db !! deal_pipelineId d) as [p|] eqn:Hp; simpl in Hl; [|done].
    destruct (organizations db !! customer_organizationId c) as [o|] eqn:Ho;
      simpl in Hl; [|done].
    case_decide as Hm; [|done]. injection Hl as <-. simpl.
    exists d, c, u, p. split_and!; first [done|by exists o].
  - intros (d & c & u & p & Hd & Hc & Hu & Hp & [o Ho] & Hm & Hv).
    exists (DealController.id v, d). split; [by apply elem_of_map_to_list|].
    simpl. rewrite Hc. simpl. rewrite Hu. simpl. rewrite Hp. simpl. rewrite Ho. simpl.
    rewrite decide_True by done. by rewrite <- Hv.
Qed.









(** Deleting a deal of the caller's organization removes exactly that deal,
    also when its customer is deleted; afterwards reading, updating and
    deleting it throw [NotFoundError] for every caller, and no listing
    holds it. *)
Theorem deal_delete_removes db userId id u d c :
  users db !! userId = Some u →
  deals db !! id = Some d →
  customers db !! deal_customerId d = Some c →
  customer_organizationId c = user_organizationId u →
  ∃ db',
    DealController.delete userId id db = (Ok "Deal deleted successfully", db')
    ∧ deals db' = base.delete id (deals db)
    ∧ (∀ caller,
         failsNotFoundAs "Deal not found" (DealController.getById caller id) db'
         ∧ (∀ now body, failsNotFoundAs "Deal not found"
                          (DealController.update now caller id body) db')
         ∧ failsNotFoundAs "Deal not found" (DealController.delete caller id) db'
         ∧ (∀ q rows, DealController.getAll caller q db' = (Ok rows, db') →
                      id ∉ DealController.id <$> rows)).
Proof.
  intros Hu Hd Hc Ho.
  exists (set_deals (base.delete id) db). split_and!.
  - unfold DealController.delete. ctrl. unfold select_user_organization.
    rewrite Hu. simpl. unfold DealController.delete_stmt.
    rewrite Hd, Hc. by rewrite decide_True.
  - done.
  - intros caller. unfold failsNotFoundAs.
    set (db' := set_deals (base.delete id) db).
    assert (Hgone : deals db' !! id = None) by apply lookup_delete_eq.
    destruct (users db' !! caller) as [u'|] eqn:Hu'.
    + split_and!; [|intros now body| |intros q rows].
      * right. unfold DealController.getById. ctrl. unfold select_user_organization.
        rewrite Hu'. simpl. unfold DealController.select_by_id. by rewrite Hgone.
      * right. unfold DealController.update. ctrl. unfold select_user_organization.
        rewrite Hu'. simpl. unfold DealController.select_existing. by rewrite Hgone.
      * right. unfold DealController.delete. ctrl. unfold select_user_organization.
        rewrite Hu'. simpl. unfold DealController.delete_stmt. by rewrite Hgone.
      * rewrite (deal_getAll_run db' caller u' q Hu'). intros [= <-].
        intros (v & -> & Hin)%list_elem_of_fmap.
        apply elem_of_deal_select_all in Hin as (d' & ? & ? & ? & Hd' & _).
        by rewrite Hgone in Hd'.
    + split_and!; [|intros now body| |intros q rows].
      * left. unfold DealController.getById.
        by rewrite (bind_err _ _ _ _ _ (resolveOrganization_unknown _ _ Hu')).
      * left. unfold DealController.update.
        by rewrite (bind_err _ _ _ _ _ (resolveOrganization_unknown _ _ Hu')).
      * left. unfold DealController.delete.
        by rewrite (bind_err _ _ _ _ _ (resolveOrganization_unknown _ _ Hu')).
      * unfold DealController.getAll.
        by rewrite (bind_err _ _ _ _ _ (resolveOrganization_unknown _ _ Hu')).
Qed.

Lemma deal_delete_removes_witness :
  ∃ db',
    DealController.delete "u1" "d1" Example.db = (Ok "Deal deleted successfully", db')
    ∧ deals db' !! "d1" = None
    ∧ failsNotFoundAs "Deal not found" (DealController.getById "u1" "d1") db'.
Proof.
  destruct (deal_delete_removes Example.db "u1" "d1"
              (mkUser "admin@acme.com" "Ann" "Admin" "orgA")
              (Example.dealOf "c1" "p1" "1" "u1" 10)
              (Example.customerOf "John" "john@x.com" "+1" "orgA" "u1" 10))
    as (db' & Hrun & Hrows & Hgone); [reflexivity..|].
  exists db'. split_and!; [exact Hrun| |apply Hgone].
  rewrite Hrows. apply lookup_delete_eq.
Defined.

(** The deal of a customer that carries a deletion mark is hidden from the
    reads of its organization, but not from its writes: reading it by id
    throws [NotFoundError] and no listing holds it, while an update without
    fields answers with the deal and its customer's name, and a delete
    removes it. *)
Theorem deal_of_deleted_customer db userId id u d c owner p :
  users db !! userId = Some u →
  deals db !! id = Some d →
  customers db !! deal_customerId d = Some c →
  customer_organizationId c = user_organizationId u →
  customer_deletedAt c ≠ None →
  users db !! deal_ownerId d = Some owner →
  pipelines db !! deal_pipelineId d = Some p →
  DealController.getById userId id db = (Err (App (NotFoundError "Deal not found")), db)
  ∧ (∀ q rows, DealController.getAll userId q db = (Ok rows, db) →
               id ∉ DealController.id <$> rows)
  ∧ (∀ now, DealController.update now userId id
              (DealController.mkUpdateBody None None None None None None None None None) db
            = (Ok (Some (DealController.withRelations id d c owner p)), db))
  ∧ DealController.delete userId id db
    = (Ok "Deal deleted successfully", set_deals (base.delete id) db).
Proof.
  intros Hu Hd Hc Ho Hdel Hown Hp. split_and!.
  - rewrite (deal_getById_run db userId u id Hu).
    unfold DealController.select_by_id. rewrite Hd. simpl. rewrite Hc. simpl.
    rewrite Hown. simpl. rewrite Hp. simpl.
    destruct (organizations db !! _); simpl; [|done].
    rewrite decide_False; [done|]. by intros [_ ?].
  - intros q rows. rewrite (deal_getAll_run db userId u q Hu). intros [= <-].
    intros (v & -> & Hin)%list_elem_of_fmap.
    apply elem_of_deal_select_all in Hin
      as (d' & c' & ? & ? & Hd' & Hc' & _ & _ & _ & (_ & Hlive & _) & _).
    simplify_eq.
  - intros now. unfold DealController.update. ctrl. unfold select_user_organization.
    rewrite Hu. simpl. unfold DealController.select_existing. rewrite Hd. simpl.
    rewrite Hc. simpl. rewrite decide_True by done. simpl.
    unfold DealController.select_with_relations. rewrite Hd. simpl. rewrite Hc. simpl.
    rewrite Hown. simpl. by rewrite Hp.
  - unfold DealController.delete. ctrl. unfold select_user_organization.
    rewrite Hu. simpl. unfold DealController.delete_stmt.
    rewrite Hd, Hc. by rewrite decide_True.
Qed.

Lemma deal_of_deleted_customer_witness :
  ∃ db',
    CustomerController.delete 200 "u1" "c1" Example.db
    = (Ok "Customer deleted successfully", db')
    ∧ DealController.getById "u1" "d1" db'
      = (Err (App (NotFoundError "Deal not found")), db')
    ∧ DealController.delete "u1" "d1" db'
      = (Ok "Deal deleted successfully", set_deals (base.delete "d1") db').
Proof.
  eexists. split; [reflexivity|].
  destruct (deal_of_deleted_customer
              (set_customers
                 (insert "c1" (CustomerController.softDeleted 200
                    (Example.customerOf "John" "john@x.com" "+1" "orgA" "u1" 10)))
                 Example.db)
              "u1" "d1"
              (mkUser "admin@acme.com" "Ann" "Admin" "orgA")
              (Example.dealOf "c1" "p1" "1" "u1" 10)
              (CustomerController.softDeleted 200
                 (Example.customerOf "John" "john@x.com" "+1" "orgA" "u1" 10))
              (mkUser "admin@acme.com" "Ann" "Admin" "orgA")
              (mkPipeline "Default Sales Pipeline" Example.seedStages true 50 50 "u1" "orgA"))
    as (Hget & _ & _ & Hdelete);
    [reflexivity|reflexivity|reflexivity|reflexivity|done|reflexivity|reflexivity|].
  split; [exact Hget|exact Hdelete].
Defined.

(** What a deal delete can do: fail without a write, or remove the one
    row. *)
Lemma deal_delete_inv userId id db r db' :
  DealController.delete userId id db = (r, db') →
  db' = db
  ∨ ∃ u d c, users db !! userId = Some u ∧ deals db !! id = Some d
             ∧ customers db !! deal_customerId d = Some c
             ∧ customer_organizationId c = user_organizationId u
             ∧ r = Ok "Deal deleted successfully"
             ∧ db' = set_deals (base.delete id) db.
Proof.
  unfold DealController.delete. ctrl. unfold select_user_organization.
  destruct (users db !! userId) as [u|] eqn:Hu; simpl; [|intros [= <- <-]; eauto].
  unfold DealController.delete_stmt.
  destruct (deals db !! id) as [d|] eqn:Hd; simpl; [|intros [= <- <-]; eauto].
  destruct (customers db !! deal_customerId d) as [c|] eqn:Hc; simpl;
    [|intros [= <- <-]; eauto].
  case_decide as Ho; simpl; intros [= <- <-]; [|eauto].
  right. by exists u, d, c.
Qed.

Lemma deal_assign_frame now d updates :
  let d' := foldl (DealController.assign now) d updates in
  deal_customerId d' = deal_customerId d
  ∧ deal_pipelineId d' = deal_pipelineId d
  ∧ deal_ownerId d' = deal_ownerId d
  ∧ deal_createdAt d' = deal_createdAt d.
Proof.
  revert d. induction updates as [|a l IH]; intros d; [done|].
  simpl. destruct (IH (DealController.assign now d a)) as (-> & -> & -> & ->).
  by destruct a.
Qed.

(** The deal controller keeps every deal in a stage of its pipeline: when
    this holds of the database, it holds after a create and after a delete,
    however they end, and after an update whose body does not carry the
    empty string as stage. *)
Theorem deal_stage_membership_kept db userId :
  stagesValid db →
  (∀ now newId body r db',
     DealController.create now newId userId body db = (r, db') → stagesValid db')
  ∧ (∀ now id body r db',
     DealController.stageId body ≠ Some "" →
     DealController.update now userId id body db = (r, db') → stagesValid db')
  ∧ (∀ id r db',
     DealController.delete userId id db = (r, db') → stagesValid db').
Proof.
  intros Hvalid. split_and!.
  - intros now newId body r db' [(e & _ & ->)|Hok]%deal_create_inv; [done|].
    destruct Hok as (x & u & c & p & _ & _ & _ & _ & Hp & _ & Hst & _ & _ & Hnew & ->).
    intros id d p'. simpl.
    destruct (decide (id = newId)) as [->|Hne].
    + rewrite lookup_insert_eq. intros [= <-]. simpl. rewrite Hp. intros [= <-].
      by apply stageExists_elem_of.
    + rewrite lookup_insert_ne by done. exact (Hvalid id d p').
  - intros now id body r db' Hempty [(e & _ & ->)|Hok]%deal_update_inv; [done|].
    destruct Hok as (x & u & d & c & _ & _ & Hd & _ & _ & Hst & _ & [[-> _]|[_ ->]]);
      [done|].
    intros id' d' p. simpl.
    destruct (decide (id' = id)) as [->|Hne];
      [|rewrite lookup_insert_ne by done; exact (Hvalid id' d' p)].
    rewrite lookup_insert_eq. intros [= <-].
    destruct (deal_assign_frame now d
                (DealController.buildUpdates body ++ [DealController.SetUpdatedAtNow]))
      as (_ & -> & _).
    rewrite deal_assign_stageId. intros Hp.
    destruct (DealController.stageId body) as [s|] eqn:Hs; simpl.
    + apply stageExists_elem_of, (Hst s p); [done| |done].
      destruct s; [done|done].
    + by apply (Hvalid id d p).
  - intros id r db' [->|(u & d & c & _ & _ & _ & _ & _ & ->)]%deal_delete_inv; [done|].
    intros id' d' p. simpl. intros Hd'%lookup_delete_Some. destruct Hd' as [_ Hd'].
    by apply (Hvalid id' d' p).
Qed.

Lemma deal_stage_membership_kept_witness :
  stagesValid Example.db
  ∧ ∀ r db',
      DealController.update 200 "u1" "d1"
        (DealController.mkUpdateBody None None None None None None (Some "2") None None)
        Example.db = (r, db') →
      stagesValid db'.
Proof.
  assert (Hvalid : stagesValid Example.db).
  { intros id d p Hd%elem_of_map_to_list. vm_compute in Hd.
    repeat (apply elem_of_cons in Hd as [Hd|Hd];
            [injection Hd as -> ->; intros [= <-]; vm_compute; repeat constructor|]).
    by apply elem_of_nil in Hd. }
  split; [exact Hvalid|].
  destruct (deal_stage_membership_kept Example.db "u1" Hvalid) as (_ & Hupdate & _).
  intros r db'. by apply Hupdate.
Defined.





(** ** Pipelines: the listing *)

Lemma pipeline_getAll_run db userId u :
  users db !! userId = Some u →
  PipelineController.getAll userId db
  = (Ok (PipelineController.select_all (user_organizationId u) db), db).
Proof.
  intros Hu. unfold PipelineController.getAll. ctrl.
  unfold select_user_organization. by rewrite Hu.
Qed.

#[global] Instance defaultFirst_trans : Transitive PipelineController.defaultFirst.
Proof.
  intros a b c. unfold PipelineController.defaultFirst.
  destruct (pipeline_isDefault a.2), (pipeline_isDefault b.2), (pipeline_isDefault c.2);
    intros [[? ?]|[? ?]] [[? ?]|[? ?]]; try done; try (by left); right; (split; [done|lia]).
Qed.

#[global] Instance defaultFirst_total : Total PipelineController.defaultFirst.
Proof.
  intros a b. unfold PipelineController.defaultFirst.
  destruct (pipeline_isDefault a.2), (pipeline_isDefault b.2);
    destruct (Z.le_ge_cases (pipeline_createdAt a.2) (pipeline_createdAt b.2));
    first [ by left; left | by left; right | by right; left | by right; right ].
Qed.

Lemma elem_of_pipeline_select_all org db r :
  r ∈ PipelineController.select_all org db ↔ pipelineOf org db r.
Proof.
  unfold PipelineController.select_all, pipelineOf.
  rewrite merge_sort_Permutation, list_elem_of_filter.
  destruct r as [id p]. rewrite elem_of_map_to_list. simpl. tauto.
Qed.

(** The listing of pipelines for a known caller holds exactly the pipelines
    of the caller's organization, each once and each readable by its id; a
    pipeline marked default comes before every one that is not, and within
    each group the older comes first.  So when the organization has a
    default pipeline the listing starts with one, and the pipeline that
    get-default answers with is in the listing. *)
Theorem pipeline_getAll_lists db userId u :
  users db !! userId = Some u →
  ∃ rows,
    PipelineController.getAll userId db = (Ok rows, db)
    ∧ NoDup rows.*1
    ∧ StronglySorted PipelineController.defaultFirst rows
    ∧ (∀ r, r ∈ rows ↔ PipelineController.getById userId r.1 db = (Ok r, db))
    ∧ (∀ r, r ∈ rows → pipeline_isDefault r.2 = true →
            ∃ first, head rows = Some first ∧ pipeline_isDefault first.2 = true)
    ∧ (∀ r, PipelineController.getDefault userId db = (Ok r, db) → r ∈ rows).
Proof.
  intros Hu. exists (PipelineController.select_all (user_organizationId u) db).
  assert (Hsorted : StronglySorted PipelineController.defaultFirst
            (PipelineController.select_all (user_organizationId u) db))
    by apply (StronglySorted_merge_sort _).
  split_and!.
  - by apply pipeline_getAll_run.
  - unfold PipelineController.select_all. rewrite merge_sort_Permutation.
    eapply sublist_NoDup; [|apply fmap_sublist, sublist_filter].
    apply NoDup_fst_map_to_list.
  - done.
  - intros [id p]. rewrite elem_of_pipeline_select_all. unfold pipelineOf. simpl.
    unfold PipelineController.getById. ctrl. unfold select_user_organization.
    rewrite Hu. simpl. unfold PipelineController.select_by_id.
    destruct (pipelines db !! id) as [p'|]; [|split; [by intros []|done]].
    case_decide as Ho; simpl; split.
    + by intros [[= ->] _].
    + by intros [= ->].
    + intros [[= ->] ?]. done.
    + done.
  - intros r Hin Hdef.
    destruct (PipelineController.select_all (user_organizationId u) db)
      as [|first rest]; [by apply elem_of_nil in Hin|].
    exists first. split; [done|].
    apply elem_of_cons in Hin as [->|Hin]; [done|].
    apply StronglySorted_inv in Hsorted as [_ Hall].
    rewrite Forall_forall in Hall.
    destruct (Hall r Hin) as [[? _]|[Heq _]]; congruence.
  - intros r. rewrite (getDefault_run db userId u Hu).
    destruct (head (PipelineController.select_default _ db)) as [r'|] eqn:Hd.
    + intros [= ->]. apply elem_of_pipeline_select_all.
      by apply (head_select_default db u r Hd).
    + destruct (head (PipelineController.select_first _ db)) as [r'|] eqn:Hf; [|done].
      intros [= ->]. apply elem_of_pipeline_select_all.
      by apply (head_select_first db u r Hf).
Qed.

Lemma pipeline_getAll_lists_witness :
  ∃ rows,
    PipelineController.getAll "u1" Example.db = (Ok rows, Example.db)
    ∧ rows.*1 = ["p1"; "p0"].
Proof.
  destruct (pipeline_getAll_lists Example.db "u1"
              (mkUser "admin@acme.com" "Ann" "Admin" "orgA") eq_refl)
    as (rows & Hrun & _).
  exists rows. split; [exact Hrun|].
  vm_compute in Hrun. injection Hrun as <-. reflexivity.
Defined.

(** ** Tasks: creation, update, deletion *)

Lemma select_assignee_found org a db :
  head (TaskController.select_assignee a org db) ≠ None → assigneeInOrg org a db.
Proof.
  unfold TaskController.select_assignee, assigneeInOrg.
  destruct (users db !! a) as [x|]; [|done].
  case_decide; [|done]. intros _. by exists x.
Qed.

(** What a task update can do: fail without a write, answer with the stored
    row when the body carries no field, or rewrite the one row. *)
Lemma task_update_inv now nowIso userId id body db r db' :
  TaskController.update now nowIso userId id body db = (r, db') →
  (∃ e, r = Err e ∧ db' = db)
  ∨ (∃ u t assignee, users db !! userId = Some u
       ∧ tasks db !! id = Some t
       ∧ users db !! task_assigneeId t = Some assignee
       ∧ user_organizationId assignee = user_organizationId u
       ∧ (∀ a, TaskController.assigneeId body = Some a → truthy a = true →
               assigneeInOrg (user_organizationId u) a db)
       ∧ ((r = Ok (Some (TaskController.withRelations id t assignee db)) ∧ db' = db
           ∧ TaskController.buildUpdates body = [])
          ∨ (let t' := foldl (TaskController.assign now) t
                         (TaskController.buildUpdates body
                          ++ [TaskController.SetUpdatedAtNow]) in
             r = Ok (head (TaskController.select_with_relations id
                             (set_tasks (insert id t') db)))
             ∧ db' = set_tasks (insert id t') db
             ∧ TaskController.assigneeKnown t' db = true))).
Proof.
  destruct (users db !! userId) as [u|] eqn:Hu.
  2:{ unfold TaskController.update.
      rewrite (bind_err _ _ _ _ _ (resolveOrganization_unknown _ _ Hu)).
      intros [= <- <-]. eauto. }
  destruct (TaskController.select_existing id (user_organizationId u) db) as [|x l] eqn:Hex.
  { unfold TaskController.update. ctrl. unfold select_user_organization.
    rewrite Hu. simpl. rewrite Hex. simpl. intros [= <- <-]. eauto. }
  unfold TaskController.select_existing in Hex.
  destruct (tasks db !! id) as [t|] eqn:Ht; simpl in Hex; [|done].
  destruct (users db !! task_assigneeId t) as [assignee|] eqn:Ha; simpl in Hex; [|done].
  case_decide as Ho; [|done]. clear Hex.
  rewrite (task_update_run db userId u Hu now nowIso id body t assignee Ht Ha Ho).
  cbv zeta.
  destruct (TaskController.assigneeId body) as [a|] eqn:Hbody.
  - destruct (truthy a) eqn:Htr; simpl.
    + case_bool_decide as Hmiss; simpl; [intros [= <- <-]; eauto|].
      assert (Hin : assigneeInOrg (user_organizationId u) a db).
      { by apply select_assignee_found. }
      destruct (match orNull _ with Some c => _ | None => false end);
        [intros [= <- <-]; eauto|].
      case_decide as Hlen; [intros [= <- <-]; right; exists u, t, assignee;
        split_and!; try done; [by intros ? [= <-]|left; split_and!; try done; by apply nil_length_inv]|].
      destruct (TaskController.timeSpent body ≫= _); [intros [= <- <-]; eauto|].
      destruct (TaskController.title body ≫= _); [intros [= <- <-]; eauto|].
      destruct (TaskController.assigneeKnown _ db) eqn:Hfk; intros [= <- <-]; [|eauto].
      right. exists u, t, assignee. split_and!; try done; [by intros ? [= <-]|by right].
    + destruct (match orNull _ with Some c => _ | None => false end);
        [intros [= <- <-]; eauto|].
      case_decide as Hlen; [intros [= <- <-]; right; exists u, t, assignee;
        split_and!; try done; [by intros ? [= <-] ?; congruence|left; split_and!; try done; by apply nil_length_inv]|].
      destruct (TaskController.timeSpent body ≫= _); [intros [= <- <-]; eauto|].
      destruct (TaskController.title body ≫= _); [intros [= <- <-]; eauto|].
      destruct (TaskController.assigneeKnown _ db) eqn:Hfk; intros [= <- <-]; [|eauto].
      right. exists u, t, assignee. split_and!; try done;
        [by intros ? [= <-] ?; congruence|by right].
  - simpl.
    destruct (match orNull _ with Some c => _ | None => false end);
      [intros [= <- <-]; eauto|].
    case_decide as Hlen; [intros [= <- <-]; right; exists u, t, assignee;
      split_and!; try done; left; split_and!; try done; by apply nil_length_inv|].
    destruct (TaskController.timeSpent body ≫= _); [intros [= <- <-]; eauto|].
    destruct (TaskController.title body ≫= _); [intros [= <- <-]; eauto|].
    destruct (TaskController.assigneeKnown _ db) eqn:Hfk; intros [= <- <-]; [|eauto].
    right. exists u, t, assignee. split_and!; try done. by right.
Qed.

Lemma task_delete_inv userId id db r db' :
  TaskController.delete userId id db = (r, db') →
  db' = db
  ∨ ∃ u t assignee, users db !! userId = Some u ∧ tasks db !! id = Some t
             ∧ users db !! task_assigneeId t = Some assignee
             ∧ user_organizationId assignee = user_organizationId u
             ∧ r = Ok "Task deleted successfully"
             ∧ db' = set_tasks (base.delete id) db.
Proof.
  unfold TaskController.delete. ctrl. unfold select_user_organization.
  destruct (users db !! userId) as [u|] eqn:Hu; simpl; [|intros [= <- <-]; eauto].
  unfold TaskController.delete_stmt.
  destruct (tasks db !! id) as [t|] eqn:Ht; simpl; [|intros [= <- <-]; eauto].
  destruct (users db !! task_assigneeId t) as [a|] eqn:Ha; simpl;
    [|intros [= <- <-]; eauto].
  case_decide as Ho; simpl; intros [= <- <-]; [|eauto].
  right. by exists u, t, a.
Qed.

Lemma task_create_inv now newId userId body db r db' :
  TaskController.create now newId userId body db = (r, db') →
  (∃ e, r = Err e ∧ db' = db)
  ∨ (∃ u, users db !! userId = Some u
       ∧ assigneeInOrg (user_organizationId u)
           (TaskController.assigneeOr (TaskController.c_assigneeId body) userId) db
       ∧ tasks db !! newId = None
       ∧ db' = set_tasks (insert newId (TaskController.newTask now userId body)) db
       ∧ r = Ok (head (TaskController.select_with_relations newId db'))).
Proof.
  destruct (users db !! userId) as [u|] eqn:Hu.
  2:{ unfold TaskController.create.
      rewrite (bind_err _ _ _ _ _ (resolveOrganization_unknown _ _ Hu)).
      intros [= <- <-]. eauto. }
  rewrite (task_create_run db userId u Hu). cbv zeta.
  destruct (head (TaskController.select_assignee _ _ db)) eqn:Ha;
    [|intros [= <- <-]; eauto].
  assert (Hin : assigneeInOrg (user_organizationId u)
            (TaskController.assigneeOr (TaskController.c_assigneeId body) userId) db).
  { apply select_assignee_found. by rewrite Ha. }
  destruct (orNull _);
    [destruct (head (TaskController.select_customer _ _ db)); [|intros [= <- <-]; eauto]|].
  all: destruct (TaskController.refused body); [intros [= <- <-]; eauto|].
  all: destruct (tasks db !! newId) eqn:Hnew; intros [= <- <-]; [eauto|].
  all: right; by exists u.
Qed.





(** Deleting a task of the caller's organization removes exactly that task;
    afterwards reading, updating and deleting it throw [NotFoundError] for
    every caller. *)
Theorem task_delete_removes db userId id u t assignee :
  users db !! userId = Some u →
  tasks db !! id = Some t →
  users db !! task_assigneeId t = Some assignee →
  user_organizationId assignee = user_organizationId u →
  ∃ db',
    TaskController.delete userId id db = (Ok "Task deleted successfully", db')
    ∧ tasks db' = base.delete id (tasks db)
    ∧ (∀ caller,
         failsNotFoundAs "Task not found" (TaskController.getById caller id) db'
         ∧ (∀ now nowIso body, failsNotFoundAs "Task not found"
              (TaskController.update now nowIso caller id body) db')
         ∧ failsNotFoundAs "Task not found" (TaskController.delete caller id) db').
Proof.
  intros Hu Ht Ha Ho.
  exists (set_tasks (base.delete id) db). split_and!.
  - unfold TaskController.delete. ctrl. unfold select_user_organization.
    rewrite Hu. simpl. unfold TaskController.delete_stmt.
    rewrite Ht, Ha. by rewrite decide_True.
  - done.
  - intros caller. unfold failsNotFoundAs.
    set (db' := set_tasks (base.delete id) db).
    assert (Hgone : tasks db' !! id = None) by apply lookup_delete_eq.
    destruct (users db' !! caller) as [u'|] eqn:Hu'.
    + split_and!; [|intros now nowIso body|]; right.
      * unfold TaskController.getById. ctrl. unfold select_user_organization.
        rewrite Hu'. simpl. unfold TaskController.select_by_id. by rewrite Hgone.
      * unfold TaskController.update. ctrl. unfold select_user_organization.
        rewrite Hu'. simpl. unfold TaskController.select_existing. by rewrite Hgone.
      * unfold TaskController.delete. ctrl. unfold select_user_organization.
        rewrite Hu'. simpl. unfold TaskController.delete_stmt. by rewrite Hgone.
    + split_and!; [|intros now nowIso body|]; left.
      * unfold TaskController.getById.
        by rewrite (bind_err _ _ _ _ _ (resolveOrganization_unknown _ _ Hu')).
      * unfold TaskController.update.
        by rewrite (bind_err _ _ _ _ _ (resolveOrganization_unknown _ _ Hu')).
      * unfold TaskController.delete.
        by rewrite (bind_err _ _ _ _ _ (resolveOrganization_unknown _ _ Hu')).
Qed.

Lemma task_delete_removes_witness :
  ∃ db',
    TaskController.delete "u1" "t1" Example.db = (Ok "Task deleted successfully", db')
    ∧ tasks db' !! "t1" = None
    ∧ failsNotFoundAs "Task not found" (TaskController.getById "u1" "t1") db'.
Proof.
  destruct (task_delete_removes Example.db "u1" "t1"
              (mkUser "admin@acme.com" "Ann" "Admin" "orgA")
              (Example.taskOf "u1" PENDING None)
              (mkUser "admin@acme.com" "Ann" "Admin" "orgA"))
    as (db' & Hrun & Hrows & Hgone); [reflexivity..|].
  exists db'. split_and!; [exact Hrun| |apply Hgone].
  rewrite Hrows. apply lookup_delete_eq.
Defined.

Lemma task_assign_frame now t updates :
  let t' := foldl (TaskController.assign now) t updates in
  task_isRecurring t' = task_isRecurring t
  ∧ task_recurrenceRule t' = task_recurrenceRule t
  ∧ task_createdAt t' = task_createdAt t.
Proof.
  revert t. induction updates as [|a l IH]; intros t; [done|].
  simpl. destruct (IH (TaskController.assign now t a)) as (-> & -> & ->).
  by destruct a.
Qed.

Lemma task_assign_fields now t body :
  let t' := foldl (TaskController.assign now) t
              (TaskController.buildUpdates body ++ [TaskController.SetUpdatedAtNow]) in
  task_title t'
  = default (task_title t) (Database.varchar 255 <$> TaskController.title body)
  ∧ task_description t'
    = default (task_description t) (orNull <$> TaskController.description body)
  ∧ task_priority t' = default (task_priority t) (TaskController.priority body)
  ∧ task_dueDate t' = default (task_dueDate t) (orNull <$> TaskController.dueDate body)
  ∧ task_assigneeId t' = default (task_assigneeId t) (TaskController.assigneeId body)
  ∧ task_relatedCustomerId t'
    = default (task_relatedCustomerId t) (orNull <$> TaskController.relatedCustomerId body)
  ∧ task_timeSpent t'
    = default (task_timeSpent t) (orNullZ <$> TaskController.timeSpent body)
  ∧ task_updatedAt t' = now.
Proof.
  destruct body as [[?|] [?|] [?|] [[]|] [?|] [?|] [?|] [?|] [?|] ?]; repeat split.
Qed.

(** A successful task update keeps what the body does not carry and stores
    what it does, an empty description, date, customer or deal and a time
    spent of zero as [NULL], a title cut to the length of its column (which
    drops nothing but blanks when the update succeeds); the related deal is
    stored as sent, whatever it names; the completion time follows the
    status the body carries, [now] for [COMPLETE] and [NULL] otherwise, and
    stays as it was when the body carries no status; the recurrence and the
    creation time are never touched.  Unless the body carries the empty
    string as assignee, the task stays in the caller's organization. *)
Theorem task_update_stores db now nowIso userId id body x db' :
  TaskController.update now nowIso userId id body db = (Ok x, db') →
  ∃ t t',
    tasks db !! id = Some t
    ∧ tasks db' !! id = Some t'
    ∧ task_isRecurring t' = task_isRecurring t
    ∧ task_recurrenceRule t' = task_recurrenceRule t
    ∧ task_createdAt t' = task_createdAt t
    ∧ task_title t'
      = default (task_title t) (Database.varchar 255 <$> TaskController.title body)
    ∧ task_description t'
      = default (task_description t) (orNull <$> TaskController.description body)
    ∧ task_priority t' = default (task_priority t) (TaskController.priority body)
    ∧ task_status t' = default (task_status t) (TaskController.status body)
    ∧ task_completedAt t'
      = match TaskController.status body with
        | Some COMPLETE => Some now
        | Some _ => None
        | None => task_completedAt t
        end
    ∧ task_dueDate t'
      = default (task_dueDate t) (orNull <$> TaskController.dueDate body)
    ∧ task_assigneeId t'
      = default (task_assigneeId t) (TaskController.assigneeId body)
    ∧ task_relatedCustomerId t'
      = default (task_relatedCustomerId t)
          (orNull <$> TaskController.relatedCustomerId body)
    ∧ task_relatedDealId t'
      = default (task_relatedDealId t) (orNull <$> TaskController.relatedDealId body)
    ∧ task_timeSpent t'
      = default (task_timeSpent t) (orNullZ <$> TaskController.timeSpent body)
    ∧ (∀ id', id' ≠ id → tasks db' !! id' = tasks db !! id')
    ∧ (TaskController.assigneeId body ≠ Some "" →
       taskOrganization id db' = callerOrganization userId db
       ∧ taskOrganization id db = callerOrganization userId db).
Proof.
  intros [(e & [=] & _)|Hok]%task_update_inv.
  destruct Hok as (u & t & assignee & Hu & Ht & Ha & Ho & Hguard & Hcase).
  assert (Hbefore : taskOrganization id db = callerOrganization userId db).
  { unfold taskOrganization, callerOrganization. rewrite Ht. simpl.
    rewrite Ha, Hu. simpl. by rewrite Ho. }
  destruct Hcase as [(_ & -> & Hnil)|Hcase].
  - exists t, t.
    assert (Hb : ∃ c, body = TaskController.mkUpdateBody None None None None None None
                               None None None c).
    { destruct body as [[?|] [?|] [?|] [[]|] [?|] [?|] [?|] [?|] [?|] c];
        simplify_eq/=. by exists c. }
    destruct Hb as [c ->]. split_and!; done.
  - cbv zeta in Hcase. destruct Hcase as (_ & -> & _).
    eexists t, _. split; [done|]. split; [apply lookup_insert_eq|].
    destruct (task_assign_frame now t
                (TaskController.buildUpdates body ++ [TaskController.SetUpdatedAtNow]))
      as (? & ? & ?).
    destruct (task_assign_fields now t body) as (? & ? & ? & ? & Hasg & ? & ? & ?).
    split_and!; try done.
    + apply task_assign_status.
    + rewrite task_assign_completedAt.
      by destruct (TaskController.status body) as [[]|].
    + rewrite task_assign_relatedDealId.
      by destruct (TaskController.relatedDealId body).
    + intros id' Hne. simpl. by rewrite lookup_insert_ne.
    + intros Hempty. split; [|done].
      unfold taskOrganization. simpl. rewrite lookup_insert_eq. simpl.
      rewrite Hasg. unfold callerOrganization. rewrite Hu. simpl.
      destruct (TaskController.assigneeId body) as [a|] eqn:Hb; simpl.
      * destruct (Hguard a eq_refl) as (au & Hau & Hao).
        { destruct a; [by destruct Hempty|done]. }
        rewrite Hau. simpl. by rewrite Hao.
      * rewrite Ha. simpl. by rewrite Ho.
Qed.

Lemma task_update_stores_witness :
  ∃ x db',
    TaskController.update 200 "2026-01-01T00:00:00.000Z" "u1" "t1"
      (TaskController.mkUpdateBody None (Some (Some "")) (Some HIGH) None None None None
         None (Some (Some 0)) None) Example.db
    = (Ok x, db')
    ∧ (task_priority <$> tasks db' !! "t1") = Some HIGH
    ∧ (task_timeSpent <$> tasks db' !! "t1") = Some None
    ∧ taskOrganization "t1" db' = Some "orgA".
Proof.
  destruct (TaskController.update 200 "2026-01-01T00:00:00.000Z" "u1" "t1"
      (TaskController.mkUpdateBody None (Some (Some "")) (Some HIGH) None None None None
         None (Some (Some 0)) None) Example.db) as [[x|e] db'] eqn:Hrun;
    [|by vm_compute in Hrun].
  exists x, db'. split; [reflexivity|].
  destruct (task_update_stores _ _ _ _ _ _ _ _ Hrun)
    as (t & t' & Ht & Ht' & _ & _ & _ & _ & _ & Hpr & _ & _ & _ & _ & _ & _ & Hts & _
        & Horg).
  vm_compute in Ht. injection Ht as <-.
  destruct Horg as [-> _]; [done|].
  rewrite Ht'. simpl. rewrite Hpr, Hts. repeat split.
Defined.

(** ** Contact history: creation, update, deletion *)

(** The labels [contactTypeOfLabel] recognizes are the four of the enum. *)
Lemma contactTypeOfLabel_None s :
  ContactHistoryController.contactTypeOfLabel s = None
  ↔ s ∉ ["CALL"; "EMAIL"; "MEETING"; "NOTE"].
Proof.
  unfold ContactHistoryController.contactTypeOfLabel.
  destruct (String.eqb_spec s "CALL") as [->|H1];
    [split; [done|intros Hn; destruct Hn; repeat constructor]|].
  destruct (String.eqb_spec s "EMAIL") as [->|H2];
    [split; [done|intros Hn; destruct Hn; repeat constructor]|].
  destruct (String.eqb_spec s "MEETING") as [->|H3];
    [split; [done|intros Hn; destruct Hn; repeat constructor]|].
  destruct (String.eqb_spec s "NOTE") as [->|H4];
    [split; [done|intros Hn; destruct Hn; repeat constructor]|].
  split; [|done]. intros _ Hin.
  repeat (apply elem_of_cons in Hin as [->|Hin]; [done|]).
  by apply elem_of_nil in Hin.
Qed.

(** Contact creation for a known caller, guard by guard. *)
Lemma contact_create_run db now newId userId b u :
  users db !! userId = Some u →
  ContactHistoryController.create now newId userId b db
  = match customers db !! ContactHistoryController.c_customerId b with
    | Some c =>
        if decide (CustomerController.visibleIn (user_organizationId u) c) then
          match ContactHistoryController.contactTypeOfLabel
                  (ContactHistoryController.c_type b) with
          | None =>
              (Err (App (ValidationError
                 "Invalid contact type. Must be one of: CALL, EMAIL, MEETING, NOTE")), db)
          | Some type =>
              if ContactHistoryController.negativeDuration
                   (ContactHistoryController.c_duration b)
              then (Err (App (ValidationError "Duration must be a positive number")), db)
              else
                match ContactHistoryController.refused b with
                | Some reason => (Err (OtherError reason), db)
                | None =>
                    match contact_history db !! newId with
                    | Some _ =>
                        (Err (OtherError "duplicate key value violates unique constraint"),
                         db)
                    | None =>
                        let ch := ContactHistoryController.newContact now userId type b in
                        (Ok (Some (ContactHistoryController.withRelations newId ch c u)),
                         set_contact_history (insert newId ch) db)
                    end
                end
          end
        else (Err (App (NotFoundError "Customer not found")), db)
    | None => (Err (App (NotFoundError "Customer not found")), db)
    end.
Proof.
  intros Hu. unfold ContactHistoryController.create. ctrl.
  unfold select_user_organization. rewrite Hu. simpl.
  rewrite (customer_guard_head ContactHistoryController.select_customer) by auto.
  destruct (customers db !! ContactHistoryController.c_customerId b) as [c|] eqn:Hc;
    [|done].
  case_decide as Hv; [|done].
  destruct (ContactHistoryController.contactTypeOfLabel _) as [type|]; [|done].
  destruct (ContactHistoryController.negativeDuration _); [done|]. simpl.
  unfold ContactHistoryController.insert_stmt.
  destruct (ContactHistoryController.refused b); [done|].
  destruct (contact_history db !! newId) eqn:Hnew; [done|].
  simpl. rewrite Hc, Hu. simpl.
  unfold ContactHistoryController.select_with_relations. simpl.
  rewrite lookup_insert_eq. simpl. rewrite Hc. simpl. by rewrite Hu.
Qed.

(** The guards of contact creation, in the order they apply, for a known
    caller: a customer that is absent, deleted or of another organization
    gives [NotFoundError] whatever else the body holds; then a type that is
    not one of the four labels gives a [ValidationError]; then a negative
    duration gives a [ValidationError].  Nothing is written in any of these
    cases. *)
Theorem contact_create_guards db now newId userId b u :
  users db !! userId = Some u →
  let org := user_organizationId u in
  (¬ customerInOrg org (ContactHistoryController.c_customerId b) db →
     ContactHistoryController.create now newId userId b db
     = (Err (App (NotFoundError "Customer not found")), db))
  ∧ (customerInOrg org (ContactHistoryController.c_customerId b) db →
     ContactHistoryController.c_type b ∉ ["CALL"; "EMAIL"; "MEETING"; "NOTE"] →
     ContactHistoryController.create now newId userId b db
     = (Err (App (ValidationError
          "Invalid contact type. Must be one of: CALL, EMAIL, MEETING, NOTE")), db))
  ∧ (customerInOrg org (ContactHistoryController.c_customerId b) db →
     ContactHistoryController.c_type b ∈ ["CALL"; "EMAIL"; "MEETING"; "NOTE"] →
     ∀ d, ContactHistoryController.c_duration b = Some (Some d) → d < 0 →
     ContactHistoryController.create now newId userId b db
     = (Err (App (ValidationError "Duration must be a positive number")), db)).
Proof.
  intros Hu org. rewrite (contact_create_run db now newId userId b u Hu). fold org.
  unfold customerInOrg. split_and!.
  - intros Hno. destruct (customers db !! _) as [c|]; [|done].
    case_decide; [|done]. destruct Hno. by exists c.
  - intros (c & -> & Hv) Hty. rewrite decide_True by done.
    by rewrite (proj2 (contactTypeOfLabel_None _) Hty).
  - intros (c & -> & Hv) Hty d Hd Hneg. rewrite decide_True by done.
    unfold ContactHistoryController.negativeDuration. rewrite Hd. simpl.
    assert ((d <? 0) = true) as -> by lia.
    destruct (ContactHistoryController.contactTypeOfLabel _) eqn:Hl; [done|].
    by apply contactTypeOfLabel_None in Hl.
Qed.

Lemma contact_create_guards_witness :
  ContactHistoryController.create 200 "h9" "u1"
    (ContactHistoryController.mkCreateBody "c3" "SMS" None "Hello" (Some (Some (-5)))
       None None) Example.db
  = (Err (App (NotFoundError "Customer not found")), Example.db).
Proof.
  apply (contact_create_guards Example.db 200 "h9" "u1" _
           (mkUser "admin@acme.com" "Ann" "Admin" "orgA") eq_refl).
  intros (c & Hc & Hv). vm_compute in Hc. injection Hc as <-. by destruct Hv.
Defined.




Lemma contact_assign_frame ch updates :
  let ch' := foldl ContactHistoryController.assign ch updates in
  contact_customerId ch' = contact_customerId ch
  ∧ contact_type ch' = contact_type ch
  ∧ contact_createdAt ch' = contact_createdAt ch
  ∧ contact_createdBy ch' = contact_createdBy ch.
Proof.
  revert ch. induction updates as [|a l IH]; intros ch; [done|].
  simpl. destruct (IH (ContactHistoryController.assign ch a)) as (-> & -> & -> & ->).
  by destruct a.
Qed.

Lemma contact_assign_fields ch b :
  let ch' := foldl ContactHistoryController.assign ch
               (ContactHistoryController.buildUpdates b) in
  contact_subject ch'
  = default (contact_subject ch)
      (fmap (Database.varchar 500) ∘ orNull <$> ContactHistoryController.subject b)
  ∧ contact_body ch' = default (contact_body ch) (ContactHistoryController.body b)
  ∧ contact_duration ch'
    = default (contact_duration ch) (orNullZ <$> ContactHistoryController.duration b)
  ∧ contact_attachments ch'
    = default (contact_attachments ch)
        (default [] <$> ContactHistoryController.attachments b)
  ∧ contact_aiSummary ch'
    = default (contact_aiSummary ch) (orNull <$> ContactHistoryController.aiSummary b).
Proof.
  destruct b as [[?|] [?|] [?|] [?|] [?|]]; done.
Qed.

(** What a contact update can do: fail without a write, answer with the
    stored entry when the body carries no field, or rewrite the one entry. *)
Lemma contact_update_inv userId id b db r db' :
  ContactHistoryController.update userId id b db = (r, db') →
  (∃ e, r = Err e ∧ db' = db)
  ∨ (∃ u ch c, users db !! userId = Some u
       ∧ contact_history db !! id = Some ch
       ∧ customers db !! contact_customerId ch = Some c
       ∧ customer_organizationId c = user_organizationId u
       ∧ ((db' = db ∧ ContactHistoryController.buildUpdates b = []
           ∧ r = Ok (head (ContactHistoryController.select_with_relations id db)))
          ∨ (let ch' := foldl ContactHistoryController.assign ch
                          (ContactHistoryController.buildUpdates b) in
             db' = set_contact_history (insert id ch') db
             ∧ r = Ok (head (ContactHistoryController.select_with_relations id db'))))).
Proof.
  unfold ContactHistoryController.update. ctrl. unfold select_user_organization.
  destruct (users db !! userId) as [u|] eqn:Hu; simpl; [|intros [= <- <-]; eauto].
  unfold ContactHistoryController.select_existing.
  destruct (contact_history db !! id) as [ch|] eqn:Hh; simpl; [|intros [= <- <-]; eauto].
  destruct (customers db !! contact_customerId ch) as [c|] eqn:Hc; simpl;
    [|intros [= <- <-]; eauto].
  case_decide as Ho; simpl; [|intros [= <- <-]; eauto].
  case_decide as Hlen; simpl.
  - destruct (head (ContactHistoryController.select_with_relations id db)) eqn:Hsel;
      intros [= <- <-]; [|eauto].
    right. exists u, ch, c. split_and!; try done.
    left. split_and!; try done. by apply nil_length_inv.
  - unfold ContactHistoryController.update_stmt.
    destruct (Database.firstRefusal (ContactHistoryController.unreadable <$> _)); simpl;
      [intros [= <- <-]; eauto|].
    rewrite Hh.
    destruct (Database.firstRefusal (ContactHistoryController.refusal <$> _)); simpl;
      [intros [= <- <-]; eauto|].
    intros [= <- <-]. right. exists u, ch, c. split_and!; try done. by right.
Qed.

Lemma contact_delete_inv userId id db r db' :
  ContactHistoryController.delete userId id db = (r, db') →
  db' = db
  ∨ ∃ u ch c, users db !! userId = Some u ∧ contact_history db !! id = Some ch
             ∧ customers db !! contact_customerId ch = Some c
             ∧ customer_organizationId c = user_organizationId u
             ∧ r = Ok "Contact history entry deleted successfully"
             ∧ db' = set_contact_history (base.delete id) db.
Proof.
  unfold ContactHistoryController.delete. ctrl. unfold select_user_organization.
  destruct (users db !! userId) as [u|] eqn:Hu; simpl; [|intros [= <- <-]; eauto].
  unfold ContactHistoryController.delete_stmt.
  destruct (contact_history db !! id) as [ch|] eqn:Hh; simpl; [|intros [= <- <-]; eauto].
  destruct (customers db !! contact_customerId ch) as [c|] eqn:Hc; simpl;
    [|intros [= <- <-]; eauto].
  case_decide as Ho; simpl; intros [= <- <-]; [|eauto].
  right. by exists u, ch, c.
Qed.

(** A successful contact update never moves the entry: its customer, type,
    creation time and creator are what they were, so it belongs to the same
    organization.  Every field the body carries is stored, an empty subject
    or summary and a duration of zero as [NULL], [null] attachments as the
    empty list, a subject cut to the length of its column (which drops
    nothing but blanks when the update succeeds); the other fields and the
    other entries stay as they were; the answer, when the joins find the
    relations, is about this entry. *)
Theorem contact_update_stores db userId id b x db' :
  ContactHistoryController.update userId id b db = (Ok x, db') →
  ∃ ch ch',
    contact_history db !! id = Some ch
    ∧ contact_history db' !! id = Some ch'
    ∧ contact_customerId ch' = contact_customerId ch
    ∧ contact_type ch' = contact_type ch
    ∧ contact_createdAt ch' = contact_createdAt ch
    ∧ contact_createdBy ch' = contact_createdBy ch
    ∧ contactOrganization id db' = contactOrganization id db
    ∧ contact_subject ch'
      = default (contact_subject ch)
          (fmap (Database.varchar 500) ∘ orNull <$> ContactHistoryController.subject b)
    ∧ contact_body ch' = default (contact_body ch) (ContactHistoryController.body b)
    ∧ contact_duration ch'
      = default (contact_duration ch) (orNullZ <$> ContactHistoryController.duration b)
    ∧ contact_attachments ch'
      = default (contact_attachments ch)
          (default [] <$> ContactHistoryController.attachments b)
    ∧ contact_aiSummary ch'
      = default (contact_aiSummary ch) (orNull <$> ContactHistoryController.aiSummary b)
    ∧ (∀ id', id' ≠ id → contact_history db' !! id' = contact_history db !! id')
    ∧ (∀ v, x = Some v → ContactHistoryController.id v = id).
Proof.
  intros [(e & [=] & _)|(u & ch & c & Hu & Hh & Hc & Ho & Hcase)]%contact_update_inv.
  destruct Hcase as [(-> & Hnil & [= ->])|Hcase].
  - exists ch, ch.
    assert (Hb : b = ContactHistoryController.mkUpdateBody None None None None None).
    { destruct b as [[?|] [?|] [?|] [?|] [?|]]; by simplify_eq/=. }
    subst b. split_and!; try done.
    intros v. unfold ContactHistoryController.select_with_relations.
    rewrite Hh. simpl. rewrite Hc. simpl.
    destruct (users db !! contact_createdBy ch); simpl; [|done]. by intros [= <-].
  - cbv zeta in Hcase. destruct Hcase as (-> & [= ->]).
    eexists ch, _. split; [done|]. split; [apply lookup_insert_eq|].
    destruct (contact_assign_frame ch (ContactHistoryController.buildUpdates b))
      as (Hcid & Hty & Hat & Hby).
    destruct (contact_assign_fields ch b) as (? & ? & ? & ? & ?).
    split_and!; try done.
    + unfold contactOrganization, customerOrganization. simpl.
      rewrite lookup_insert_eq, Hh. simpl. by rewrite Hcid.
    + intros id' Hne. simpl. by rewrite lookup_insert_ne.
    + intros v. unfold ContactHistoryController.select_with_relations. simpl.
      rewrite lookup_insert_eq. simpl. rewrite Hcid, Hby, Hc. simpl.
      destruct (users db !! contact_createdBy ch); simpl; [|done]. by intros [= <-].
Qed.

Lemma contact_update_stores_witness :
  ∃ x db',
    ContactHistoryController.update "u1" "h1"
      (ContactHistoryController.mkUpdateBody (Some (Some "")) None (Some (Some 0))
         None None) Example.db
    = (Ok x, db')
    ∧ (contact_duration <$> contact_history db' !! "h1") = Some None
    ∧ (contact_subject <$> contact_history db' !! "h1") = Some None
    ∧ contactOrganization "h1" db' = Some "orgA".
Proof.
  destruct (ContactHistoryController.update "u1" "h1"
      (ContactHistoryController.mkUpdateBody (Some (Some "")) None (Some (Some 0))
         None None) Example.db) as [[x|e] db'] eqn:Hrun;
    [|by vm_compute in Hrun].
  exists x, db'. split; [reflexivity|].
  destruct (contact_update_stores _ _ _ _ _ _ Hrun)
    as (ch & ch' & Hh & Hh' & _ & _ & _ & _ & Horg & Hs & _ & Hd & _).
  vm_compute in Hh. injection Hh as <-.
  rewrite Hh', Horg. simpl. rewrite Hd, Hs. repeat split.
Defined.

(** Deleting a contact entry of the caller's organization removes exactly
    that entry, also when its customer is deleted; afterwards reading,
    updating and deleting it throw [NotFoundError] for every caller. *)
Theorem contact_delete_removes db userId id u ch c :
  users db !! userId = Some u →
  contact_history db !! id = Some ch →
  customers db !! contact_customerId ch = Some c →
  customer_organizationId c = user_organizationId u →
  ∃ db',
    ContactHistoryController.delete userId id db
    = (Ok "Contact history entry deleted successfully", db')
    ∧ contact_history db' = base.delete id (contact_history db)
    ∧ (∀ caller,
         failsNotFoundAs "Contact history entry not found"
           (ContactHistoryController.getById caller id) db'
         ∧ (∀ b, failsNotFoundAs "Contact history entry not found"
                   (ContactHistoryController.update caller id b) db')
         ∧ failsNotFoundAs "Contact history entry not found"
             (ContactHistoryController.delete caller id) db').
Proof.
  intros Hu Hh Hc Ho.
  exists (set_contact_history (base.delete id) db). split_and!.
  - unfold ContactHistoryController.delete. ctrl. unfold select_user_organization.
    rewrite Hu. simpl. unfold ContactHistoryController.delete_stmt.
    rewrite Hh, Hc. by rewrite decide_True.
  - done.
  - intros caller. unfold failsNotFoundAs.
    set (db' := set_contact_history (base.delete id) db).
    assert (Hgone : contact_history db' !! id = None) by apply lookup_delete_eq.
    destruct (users db' !! caller) as [u'|] eqn:Hu'.
    + split_and!; [|intros b|]; right.
      * unfold ContactHistoryController.getById. ctrl. unfold select_user_organization.
        rewrite Hu'. simpl. unfold ContactHistoryController.select_by_id.
        by rewrite Hgone.
      * unfold ContactHistoryController.update. ctrl. unfold select_user_organization.
        rewrite Hu'. simpl. unfold ContactHistoryController.select_existing.
        by rewrite Hgone.
      * unfold ContactHistoryController.delete. ctrl. unfold select_user_organization.
        rewrite Hu'. simpl. unfold ContactHistoryController.delete_stmt.
        by rewrite Hgone.
    + split_and!; [|intros b|]; left.
      * unfold ContactHistoryController.getById.
        by rewrite (bind_err _ _ _ _ _ (resolveOrganization_unknown _ _ Hu')).
      * unfold ContactHistoryController.update.
        by rewrite (bind_err _ _ _ _ _ (resolveOrganization_unknown _ _ Hu')).
      * unfold ContactHistoryController.delete.
        by rewrite (bind_err _ _ _ _ _ (resolveOrganization_unknown _ _ Hu')).
Qed.

Lemma contact_delete_removes_witness :
  ∃ db',
    ContactHistoryController.delete "u1" "h1" Example.db
    = (Ok "Contact history entry deleted successfully", db')
    ∧ contact_history db' !! "h1" = None
    ∧ failsNotFoundAs "Contact history entry not found"
        (ContactHistoryController.getById "u1" "h1") db'.
Proof.
  destruct (contact_delete_removes Example.db "u1" "h1"
              (mkUser "admin@acme.com" "Ann" "Admin" "orgA")
              (Example.contactOf "c1" "u1" 1)
              (Example.customerOf "John" "john@x.com" "+1" "orgA" "u1" 10))
    as (db' & Hrun & Hrows & Hgone); [reflexivity..|].
  exists db'. split_and!; [exact Hrun| |apply Hgone].
  rewrite Hrows. apply lookup_delete_eq.
Defined.

(** ** The pagination metadata of the contact history *)






(** ** Writes stay inside the caller's organization *)

Lemma foreignRowsKept_refl org db : foreignRowsKept org db db.
Proof. by repeat split. Qed.

Lemma foreignRowsKept_customers org db id row :
  customers db !! id = None ∨ customerOrganization id db = Some org →
  foreignRowsKept org db (set_customers (insert id row) db).
Proof.
  intros Hown. repeat split; try done.
  intros id' other Ho Hne. simpl.
  destruct (decide (id' = id)) as [->|]; [|by rewrite lookup_insert_ne].
  unfold customerOrganization in *.
  destruct Hown as [Hnone|Hown]; [by rewrite Hnone in Ho|congruence].
Qed.

Lemma foreignRowsKept_deals org db f id :
  deals db !! id = None ∨ dealOrganization id db = Some org →
  (∀ id', id' ≠ id → f (deals db) !! id' = deals db !! id') →
  foreignRowsKept org db (set_deals f db).
Proof.
  intros Hown Hf. repeat split; try done.
  intros id' other Ho Hne. simpl.
  destruct (decide (id' = id)) as [->|]; [|by apply Hf].
  destruct Hown as [Hnone|Hown]; [|congruence].
  unfold dealOrganization in Ho. by rewrite Hnone in Ho.
Qed.

Lemma foreignRowsKept_tasks org db f id :
  tasks db !! id = None ∨ taskOrganization id db = Some org →
  (∀ id', id' ≠ id → f (tasks db) !! id' = tasks db !! id') →
  foreignRowsKept org db (set_tasks f db).
Proof.
  intros Hown Hf. repeat split; try done.
  intros id' other Ho Hne. simpl.
  destruct (decide (id' = id)) as [->|]; [|by apply Hf].
  destruct Hown as [Hnone|Hown]; [|congruence].
  unfold taskOrganization in Ho. by rewrite Hnone in Ho.
Qed.

Lemma foreignRowsKept_contacts org db f id :
  contact_history db !! id = None ∨ contactOrganization id db = Some org →
  (∀ id', id' ≠ id → f (contact_history db) !! id' = contact_history db !! id') →
  foreignRowsKept org db (set_contact_history f db).
Proof.
  intros Hown Hf. repeat split; try done.
  intros id' other Ho Hne. simpl.
  destruct (decide (id' = id)) as [->|]; [|by apply Hf].
  destruct Hown as [Hnone|Hown]; [|congruence].
  unfold contactOrganization in Ho. by rewrite Hnone in Ho.
Qed.

Lemma insert_elsewhere {A} (id : string) (row : A) (m : gmap string A) id' :
  id' ≠ id → <[id:=row]> m !! id' = m !! id'.
Proof. intros. by rewrite lookup_insert_ne. Qed.

Lemma delete_elsewhere {A} (id : string) (m : gmap string A) id' :
  id' ≠ id → base.delete id m !! id' = m !! id'.
Proof. intros. by rewrite lookup_delete_ne. Qed.

Lemma callerOrganization_known userId db org :
  callerOrganization userId db = Some org →
  ∃ u, users db !! userId = Some u ∧ user_organizationId u = org.
Proof.
  unfold callerOrganization. destruct (users db !! userId) as [u|]; [|done].
  intros [= <-]. by exists u.
Qed.

(** What a customer delete can do: fail without a write, or mark the one
    row. *)
Lemma customer_delete_inv now userId id db r db' :
  CustomerController.delete now userId id db = (r, db') →
  db' = db
  ∨ ∃ u c, users db !! userId = Some u ∧ customers db !! id = Some c
           ∧ CustomerController.visibleIn (user_organizationId u) c
           ∧ db' = set_customers (insert id (CustomerController.softDeleted now c)) db.
Proof.
  unfold CustomerController.delete. ctrl. unfold select_user_organization.
  destruct (users db !! userId) as [u|] eqn:Hu; simpl; [|intros [= <- <-]; eauto].
  unfold CustomerController.soft_delete_stmt.
  destruct (customers db !! id) as [c|] eqn:Hc; simpl; [|intros [= <- <-]; eauto].
  case_decide as Hv; simpl; intros [= <- <-]; [|eauto].
  right. by exists u, c.
Qed.

(** The customer controller writes only inside the caller's organization:
    whatever create, update or delete is asked to do and however it ends,
    the organizations, users, pipelines, and every customer, deal, task and
    contact entry of another organization are afterwards what they were. *)
Theorem customer_writes_stay_in_organization db userId org :
  callerOrganization userId db = Some org →
  (∀ now newId body r db',
     CustomerController.create now newId userId body db = (r, db') →
     foreignRowsKept org db db')
  ∧ (∀ now id body r db',
     CustomerController.update now userId id body db = (r, db') →
     foreignRowsKept org db db')
  ∧ (∀ now id r db',
     CustomerController.delete now userId id db = (r, db') →
     foreignRowsKept org db db').
Proof.
  intros (u & Hu & <-)%callerOrganization_known. split_and!.
  - intros now newId body r db'.
    rewrite (customer_create_run db now newId userId body u Hu). cbv zeta.
    destruct (head _); [intros [= <- <-]; apply foreignRowsKept_refl|].
    destruct (CustomerController.refused body);
      [intros [= <- <-]; apply foreignRowsKept_refl|].
    destruct (customers db !! newId) eqn:Hnew; [intros [= <- <-]; apply foreignRowsKept_refl|].
    destruct (CustomerController.emailOrPhoneTaken _ db);
      [intros [= <- <-]; apply foreignRowsKept_refl|].
    destruct (bool_decide _); intros [= <- <-]; [|apply foreignRowsKept_refl].
    apply foreignRowsKept_customers. by left.
  - intros now id body r db' [(e & _ & ->)|(u' & c & Hu' & Hc & [Ho _] & Hcase)]%customer_update_inv;
      [apply foreignRowsKept_refl|].
    destruct Hcase as [(_ & -> & _)|(_ & -> & _)]; [apply foreignRowsKept_refl|].
    apply foreignRowsKept_customers. right.
    unfold customerOrganization. rewrite Hc. simpl. congruence.
  - intros now id r db' [->|(u' & c & Hu' & Hc & [Ho _] & ->)]%customer_delete_inv;
      [apply foreignRowsKept_refl|].
    apply foreignRowsKept_customers. right.
    unfold customerOrganization. rewrite Hc. simpl. congruence.
Qed.

Lemma customer_writes_stay_in_organization_witness :
  callerOrganization "u1" Example.db = Some "orgA"
  ∧ ∃ r db',
      CustomerController.update 200 "u1" "c1"
        (CustomerController.mkUpdateBody (Some "Johnny") None None None None None None)
        Example.db = (r, db')
      ∧ foreignRowsKept "orgA" Example.db db'.
Proof.
  split; [reflexivity|].
  destruct (CustomerController.update 200 "u1" "c1"
        (CustomerController.mkUpdateBody (Some "Johnny") None None None None None None)
        Example.db) as [r db'] eqn:Hrun.
  exists r, db'. split; [reflexivity|].
  destruct (customer_writes_stay_in_organization Example.db "u1" "orgA" eq_refl)
    as (_ & H & _).
  by eapply H.
Defined.

(** The deal controller writes only inside the caller's organization. *)
Theorem deal_writes_stay_in_organization db userId org :
  callerOrganization userId db = Some org →
  (∀ now newId body r db',
     DealController.create now newId userId body db = (r, db') →
     foreignRowsKept org db db')
  ∧ (∀ now id body r db',
     DealController.update now userId id body db = (r, db') →
     foreignRowsKept org db db')
  ∧ (∀ id r db',
     DealController.delete userId id db = (r, db') →
     foreignRowsKept org db db').
Proof.
  intros (u & Hu & <-)%callerOrganization_known. split_and!.
  - intros now newId body r db' [(e & _ & ->)|Hok]%deal_create_inv;
      [apply foreignRowsKept_refl|].
    destruct Hok as (x & u' & c & p & _ & _ & _ & _ & _ & _ & _ & _ & _ & Hnew & ->).
    eapply foreignRowsKept_deals; [by left|apply insert_elsewhere].
  - intros now id body r db' [(e & _ & ->)|Hok]%deal_update_inv;
      [apply foreignRowsKept_refl|].
    destruct Hok as (x & u' & d & c & _ & Hu' & Hd & Hc & Ho & _ & _ & [[-> _]|[_ ->]]);
      [apply foreignRowsKept_refl|].
    eapply foreignRowsKept_deals; [right|apply insert_elsewhere].
    unfold dealOrganization, customerOrganization. rewrite Hd. simpl. rewrite Hc. simpl.
    congruence.
  - intros id r db' [->|(u' & d & c & Hu' & Hd & Hc & Ho & _ & ->)]%deal_delete_inv;
      [apply foreignRowsKept_refl|].
    eapply foreignRowsKept_deals; [right|apply delete_elsewhere].
    unfold dealOrganization, customerOrganization. rewrite Hd. simpl. rewrite Hc. simpl.
    congruence.
Qed.

Lemma deal_writes_stay_in_organization_witness :
  callerOrganization "u1" Example.db = Some "orgA"
  ∧ ∃ r db',
      DealController.delete "u1" "d1" Example.db = (r, db')
      ∧ foreignRowsKept "orgA" Example.db db'.
Proof.
  split; [reflexivity|].
  destruct (DealController.delete "u1" "d1" Example.db) as [r db'] eqn:Hrun.
  exists r, db'. split; [reflexivity|].
  destruct (deal_writes_stay_in_organization Example.db "u1" "orgA" eq_refl)
    as (_ & _ & H).
  by eapply H.
Defined.

(** The task controller writes only inside the caller's organization. *)
Theorem task_writes_stay_in_organization db userId org :
  callerOrganization userId db = Some org →
  (∀ now newId body r db',
     TaskController.create now newId userId body db = (r, db') →
     foreignRowsKept org db db')
  ∧ (∀ now nowIso id body r db',
     TaskController.update now nowIso userId id body db = (r, db') →
     foreignRowsKept org db db')
  ∧ (∀ id r db',
     TaskController.delete userId id db = (r, db') →
     foreignRowsKept org db db').
Proof.
  intros (u & Hu & <-)%callerOrganization_known. split_and!.
  - intros now newId body r db' [(e & _ & ->)|(u' & _ & _ & Hnew & -> & _)]%task_create_inv;
      [apply foreignRowsKept_refl|].
    eapply foreignRowsKept_tasks; [by left|apply insert_elsewhere].
  - intros now nowIso id body r db' [(e & _ & ->)|Hok]%task_update_inv;
      [apply foreignRowsKept_refl|].
    destruct Hok as (u' & t & a & Hu' & Ht & Ha & Ho & _ & [(_ & -> & _)|(_ & -> & _)]);
      [apply foreignRowsKept_refl|].
    eapply foreignRowsKept_tasks; [right|apply insert_elsewhere].
    unfold taskOrganization, callerOrganization. rewrite Ht. simpl. rewrite Ha. simpl.
    congruence.
  - intros id r db' [->|(u' & t & a & Hu' & Ht & Ha & Ho & _ & ->)]%task_delete_inv;
      [apply foreignRowsKept_refl|].
    eapply foreignRowsKept_tasks; [right|apply delete_elsewhere].
    unfold taskOrganization, callerOrganization. rewrite Ht. simpl. rewrite Ha. simpl.
    congruence.
Qed.

Lemma task_writes_stay_in_organization_witness :
  callerOrganization "u1" Example.db = Some "orgA"
  ∧ ∃ r db',
      TaskController.delete "u1" "t1" Example.db = (r, db')
      ∧ foreignRowsKept "orgA" Example.db db'.
Proof.
  split; [reflexivity|].
  destruct (TaskController.delete "u1" "t1" Example.db) as [r db'] eqn:Hrun.
  exists r, db'. split; [reflexivity|].
  destruct (task_writes_stay_in_organization Example.db "u1" "orgA" eq_refl)
    as (_ & _ & H).
  by eapply H.
Defined.

(** The contact-history controller writes only inside the caller's
    organization. *)
Theorem contact_writes_stay_in_organization db userId org :
  callerOrganization userId db = Some org →
  (∀ now newId b r db',
     ContactHistoryController.create now newId userId b db = (r, db') →
     foreignRowsKept org db db')
  ∧ (∀ id b r db',
     ContactHistoryController.update userId id b db = (r, db') →
     foreignRowsKept org db db')
  ∧ (∀ id r db',
     ContactHistoryController.delete userId id db = (r, db') →
     foreignRowsKept org db db').
Proof.
  intros (u & Hu & <-)%callerOrganization_known. split_and!.
  - intros now newId b r db'.
    rewrite (contact_create_run db now newId userId b u Hu).
    destruct (customers db !! _); [|intros [= <- <-]; apply foreignRowsKept_refl].
    case_decide; [|intros [= <- <-]; apply foreignRowsKept_refl].
    destruct (ContactHistoryController.contactTypeOfLabel _);
      [|intros [= <- <-]; apply foreignRowsKept_refl].
    destruct (ContactHistoryController.negativeDuration _);
      [intros [= <- <-]; apply foreignRowsKept_refl|].
    destruct (ContactHistoryController.refused b);
      [intros [= <- <-]; apply foreignRowsKept_refl|].
    destruct (contact_history db !! newId) eqn:Hnew;
      intros [= <- <-]; [apply foreignRowsKept_refl|].
    eapply foreignRowsKept_contacts; [by left|apply insert_elsewhere].
  - intros id b r db' [(e & _ & ->)|Hok]%contact_update_inv;
      [apply foreignRowsKept_refl|].
    destruct Hok as (u' & ch & c & Hu' & Hh & Hc & Ho & [(-> & _)|(-> & _)]);
      [apply foreignRowsKept_refl|].
    eapply foreignRowsKept_contacts; [right|apply insert_elsewhere].
    unfold contactOrganization, customerOrganization. rewrite Hh. simpl. rewrite Hc.
    simpl. congruence.
  - intros id r db' [->|(u' & ch & c & Hu' & Hh & Hc & Ho & _ & ->)]%contact_delete_inv;
      [apply foreignRowsKept_refl|].
    eapply foreignRowsKept_contacts; [right|apply delete_elsewhere].
    unfold contactOrganization, customerOrganization. rewrite Hh. simpl. rewrite Hc.
    simpl. congruence.
Qed.

Lemma contact_writes_stay_in_organization_witness :
  callerOrganization "u1" Example.db = Some "orgA"
  ∧ ∃ r db',
      ContactHistoryController.delete "u1" "h1" Example.db = (r, db')
      ∧ foreignRowsKept "orgA" Example.db db'.
Proof.
  split; [reflexivity|].
  destruct (ContactHistoryController.delete "u1" "h1" Example.db) as [r db'] eqn:Hrun.
  exists r, db'. split; [reflexivity|].
  destruct (contact_writes_stay_in_organization Example.db "u1" "orgA" eq_refl)
    as (_ & _ & H).
  by eapply H.
Defined.

(** ** Tasks: the listing *)

#[global] Instance task_listingOrder_trans instant :
  Transitive (TaskController.listingOrder instant).
Proof.
  intros a b c. unfold TaskController.listingOrder.
  destruct (TaskController.dueInstant instant (TaskController.task a)),
           (TaskController.dueInstant instant (TaskController.task b)),
           (TaskController.dueInstant instant (TaskController.task c));
    simpl; intros Hab Hbc; lia.
Qed.

#[global] Instance task_listingOrder_total instant :
  Total (TaskController.listingOrder instant).
Proof.
  intros a b. unfold TaskController.listingOrder.
  destruct (TaskController.dueInstant instant (TaskController.task a)),
           (TaskController.dueInstant instant (TaskController.task b));
    simpl; lia.
Qed.





Lemma typedParam_inl {A} (read : string → option A) reason x e :
  TaskController.typedParam read reason x = inl e → e = OtherError reason.
Proof.
  unfold TaskController.typedParam.
  destruct (TaskController.filterParam x) as [s|]; [|done].
  destruct (read s); [done|]. by intros [= <-].
Qed.

Lemma typedParam_unreadable {A} (read : string → option A) reason s :
  s ≠ "" → read s = None →
  TaskController.typedParam read reason (Some s) = inl (OtherError reason).
Proof.
  intros Hne Hs. unfold TaskController.typedParam, TaskController.filterParam.
  destruct s; [done|]. simpl. by rewrite Hs.
Qed.

Lemma statusOfLabel_None s :
  s ∉ ["PENDING"; "IN_PROGRESS"; "COMPLETE"] → TaskController.statusOfLabel s = None.
Proof.
  intros Hs. unfold TaskController.statusOfLabel.
  destruct (String.eqb_spec s "PENDING") as [->|_]; [destruct Hs; repeat constructor|].
  destruct (String.eqb_spec s "IN_PROGRESS") as [->|_];
    [destruct Hs; repeat constructor|].
  destruct (String.eqb_spec s "COMPLETE") as [->|_]; [destruct Hs; repeat constructor|].
  done.
Qed.

Lemma priorityOfLabel_None s :
  s ∉ ["LOW"; "MEDIUM"; "HIGH"] → TaskController.priorityOfLabel s = None.
Proof.
  intros Hs. unfold TaskController.priorityOfLabel.
  destruct (String.eqb_spec s "LOW") as [->|_]; [destruct Hs; repeat constructor|].
  destruct (String.eqb_spec s "MEDIUM") as [->|_]; [destruct Hs; repeat constructor|].
  destruct (String.eqb_spec s "HIGH") as [->|_]; [destruct Hs; repeat constructor|].
  done.
Qed.

(** The listing does not check its filters: for a known caller, a status or
    priority filter that is not a label of its enum, or a due-date bound
    the server cannot read as a timestamp, makes the statement fail; the
    caller gets an error that is not an [AppError], and nothing is
    written. *)
Theorem task_getAll_unreadable_filter instant db userId u q :
  users db !! userId = Some u →
  (∃ s, TaskController.q_status q = Some s ∧ s ≠ ""
        ∧ s ∉ ["PENDING"; "IN_PROGRESS"; "COMPLETE"])
  ∨ (∃ s, TaskController.q_priority q = Some s ∧ s ≠ ""
          ∧ s ∉ ["LOW"; "MEDIUM"; "HIGH"])
  ∨ (∃ s, TaskController.q_dueDateFrom q = Some s ∧ s ≠ "" ∧ instant s = None)
  ∨ (∃ s, TaskController.q_dueDateTo q = Some s ∧ s ≠ "" ∧ instant s = None) →
  ∃ reason, TaskController.getAll instant userId q db = (Err (OtherError reason), db).
Proof.
  intros Hu Hbad.
  assert (Hread : ∃ reason, TaskController.readFilters instant q = inl (OtherError reason)).
  { unfold TaskController.readFilters.
    destruct (TaskController.typedParam TaskController.statusOfLabel _ _)
      as [e|a1] eqn:E1; [apply typedParam_inl in E1 as ->; eauto|].
    destruct (TaskController.typedParam TaskController.priorityOfLabel _ _)
      as [e|a2] eqn:E2; [apply typedParam_inl in E2 as ->; eauto|].
    destruct (TaskController.typedParam instant _ (TaskController.q_dueDateFrom q))
      as [e|a3] eqn:E3; [apply typedParam_inl in E3 as ->; eauto|].
    destruct (TaskController.typedParam instant _ (TaskController.q_dueDateTo q))
      as [e|a4] eqn:E4; [apply typedParam_inl in E4 as ->; eauto|].
    destruct Hbad as [(s & Hq & Hne & Hs)|[(s & Hq & Hne & Hs)|[(s & Hq & Hne & Hs)
                     |(s & Hq & Hne & Hs)]]].
    - rewrite Hq, typedParam_unreadable in E1; [done|done|by apply statusOfLabel_None].
    - rewrite Hq, typedParam_unreadable in E2; [done|done|by apply priorityOfLabel_None].
    - rewrite Hq, typedParam_unreadable in E3; done.
    - rewrite Hq, typedParam_unreadable in E4; done. }
  destruct Hread as [reason Hread]. exists reason.
  unfold TaskController.getAll. ctrl. unfold select_user_organization.
  rewrite Hu. simpl. unfold TaskController.select_all. by rewrite Hread.
Qed.

Lemma task_getAll_unreadable_filter_witness :
  ∃ reason,
    TaskController.getAll (λ _, None) "u1"
      (TaskController.mkQuery (Some "DONE") None None None None None) Example.db
    = (Err (OtherError reason), Example.db).
Proof.
  apply (task_getAll_unreadable_filter (λ _, None) Example.db "u1"
           (mkUser "admin@acme.com" "Ann" "Admin" "orgA")); [reflexivity|].
  left. exists "DONE". split; [reflexivity|]. split; [done|].
  intros Hin. repeat (apply elem_of_cons in Hin as [Hin|Hin]; [done|]).
  by apply elem_of_nil in Hin.
Defined.

